(** * Remote content resolution of the OPAC web application

    A shallow embedding of the part of [opac/webapp/main/views.py] that
    fetches article representations from the storage service (SSM):
    [fetch_data], [normalize_ssm_url], [render_html_from_xml],
    [render_html_from_html], [render_html], [get_content_from_ssm] and the
    views [article_detail] and [article_detail_pdf].

    Python exceptions are values of type [exc]; a computation that may
    raise returns a [result].  Code that calls [requests.get] runs in the
    monad [M], which threads the list of requests made so far, so that the
    address that was fetched is observable.  Everything the module imports
    from other packages (requests, urllib, lxml, packtools, bs4, the
    controllers, gettext, mimetypes) is either a field of the record
    [World] or, for [urlparse] and [raise_for_status], a definition that
    follows the library. *)

From Stdlib Require Import String Ascii List ZArith QArith Bool Lia.
Import ListNotations.

Open Scope list_scope.
Open Scope string_scope.

(** ** Python strings *)

Module PyStr.

(** [c in s] for a one-character [c]. *)
Fixpoint contains (c : ascii) (s : string) : bool :=
  match s with
  | EmptyString => false
  | String d r => Ascii.eqb c d || contains c r
  end.

(** [s[:s.find(c)]], the whole of [s] when [c] does not occur:
    the first component of [s.split(c, 1)]. *)
Fixpoint before (c : ascii) (s : string) : string :=
  match s with
  | EmptyString => EmptyString
  | String d r => if Ascii.eqb c d then EmptyString else String d (before c r)
  end.

(** [s[s.find(c)+1:]], empty when [c] does not occur. *)
Fixpoint after (c : ascii) (s : string) : string :=
  match s with
  | EmptyString => EmptyString
  | String d r => if Ascii.eqb c d then r else after c r
  end.

Fixpoint all (p : ascii -> bool) (s : string) : bool :=
  match s with
  | EmptyString => true
  | String d r => p d && all p r
  end.

Fixpoint filter (p : ascii -> bool) (s : string) : string :=
  match s with
  | EmptyString => EmptyString
  | String d r => if p d then String d (filter p r) else filter p r
  end.

Fixpoint map (f : ascii -> ascii) (s : string) : string :=
  match s with
  | EmptyString => EmptyString
  | String d r => String (f d) (map f r)
  end.

Fixpoint dropwhile (p : ascii -> bool) (s : string) : string :=
  match s with
  | EmptyString => EmptyString
  | String d r => if p d then dropwhile p r else s
  end.

Fixpoint rev_onto (s acc : string) : string :=
  match s with
  | EmptyString => acc
  | String d r => rev_onto r (String d acc)
  end.

Definition rev (s : string) : string := rev_onto s EmptyString.

Definition code (c : ascii) : nat := nat_of_ascii c.

Definition is_upper (c : ascii) : bool :=
  (65 <=? code c)%nat && (code c <=? 90)%nat.

Definition is_lower (c : ascii) : bool :=
  (97 <=? code c)%nat && (code c <=? 122)%nat.

Definition is_digit (c : ascii) : bool :=
  (48 <=? code c)%nat && (code c <=? 57)%nat.

(** [c.isascii() and c.isalpha()] *)
Definition is_ascii_alpha (c : ascii) : bool := is_upper c || is_lower c.

Definition lower_char (c : ascii) : ascii :=
  if is_upper c then ascii_of_nat (code c + 32) else c.

(** [s.lower()] on ASCII text. *)
Definition lower (s : string) : string := map lower_char s.

(** A Python [str] is held as the bytes of its UTF-8 encoding.

    Whitespace as [str.strip()] sees it, that is the characters of
    [str.isspace], each by its encoding: TAB, LF, VT, FF, CR, FS, GS, RS,
    US and space, then U+0085, U+00A0, U+1680, U+2000 to U+200A, U+2028,
    U+2029, U+202F, U+205F and U+3000. *)
Definition of_codes (l : list nat) : string :=
  List.fold_right (fun n s => String (ascii_of_nat n) s) EmptyString l.

Definition whitespace : list string :=
  List.map of_codes
   ([[9]; [10]; [11]; [12]; [13]; [28]; [29]; [30]; [31]; [32];
     [194; 133]; [194; 160]; [225; 154; 128];
     [226; 128; 128]; [226; 128; 129]; [226; 128; 130]; [226; 128; 131];
     [226; 128; 132]; [226; 128; 133]; [226; 128; 134]; [226; 128; 135];
     [226; 128; 136]; [226; 128; 137]; [226; 128; 138];
     [226; 128; 168]; [226; 128; 169]; [226; 128; 175];
     [226; 129; 159]; [227; 128; 128]])%nat.

(** [s[len(p):]] when [s] starts with [p]. *)
Fixpoint after_prefix (p s : string) : option string :=
  match p, s with
  | EmptyString, _ => Some s
  | String _ _, EmptyString => None
  | String a p', String b s' =>
      if Ascii.eqb a b then after_prefix p' s' else None
  end.

(** [s] without the first of the [spaces] it starts with. *)
Fixpoint chop (spaces : list string) (s : string) : option string :=
  match spaces with
  | [] => None
  | space :: spaces' =>
      match after_prefix space s with
      | Some r => Some r
      | None => chop spaces' s
      end
  end.

(** Dropping the leading [spaces] of [s], at most [n] of them. *)
Fixpoint chop_all (spaces : list string) (n : nat) (s : string) : string :=
  match n with
  | O => s
  | S n' =>
      match chop spaces s with
      | Some r => chop_all spaces n' r
      | None => s
      end
  end.

(** [s.lstrip()] and [s.rstrip()]: a string has no more characters than
    bytes, and a string of well-formed UTF-8 ends with a whitespace
    character exactly when it ends with the bytes of one. *)
Definition lstrip (s : string) : string :=
  chop_all whitespace (String.length s) s.

Definition rstrip (s : string) : string :=
  rev (chop_all (List.map rev whitespace) (String.length s) (rev s)).

(** [s.strip()] *)
Definition strip (s : string) : string := rstrip (lstrip s).

(** [s.startswith(p)] *)
Fixpoint startswith (p s : string) : bool :=
  match p, s with
  | EmptyString, _ => true
  | String _ _, EmptyString => false
  | String a p', String b s' => Ascii.eqb a b && startswith p' s'
  end.

(** [x in l] for a list of strings. *)
Definition mem (x : string) (l : list string) : bool :=
  existsb (String.eqb x) l.

End PyStr.

(** ** Results and exceptions *)

Definition bytes := list Byte.byte.

(** [requests.Response], as far as the module reads it. *)
Record Response := mkResponse {
  status_code : Z;
  content : bytes
}.

(** A raised exception.  [PyExc] is an exception of a library or of the
    interpreter, given by the names of its class and of its ancestors
    (its method resolution order), its message and, for the exceptions of
    requests, the value of its [response] attribute.  [RetryableError] and
    [NonRetryableError] are the two classes the module declares; they wrap
    the exception they were raised from.  [HTTPException] is what Flask's
    [abort(code, description)] raises. *)
Inductive exc :=
| PyExc (mro : list string) (msg : string) (response : option Response)
| RetryableError (cause : exc)
| NonRetryableError (cause : exc)
| HTTPException (code : Z) (description : string).

Definition exc_mro (e : exc) : list string :=
  match e with
  | PyExc mro _ _ => mro
  | RetryableError _ => ["RetryableError"; "Exception"; "BaseException"]
  | NonRetryableError _ => ["NonRetryableError"; "Exception"; "BaseException"]
  | HTTPException _ _ => ["HTTPException"; "Exception"; "BaseException"]
  end.

(** [e.response], [None] where the class has no such attribute set. *)
Definition exc_response (e : exc) : option Response :=
  match e with
  | PyExc _ _ response => response
  | _ => None
  end.

(** [isinstance(e, cls)] *)
Definition isinstance (e : exc) (cls : string) : bool :=
  PyStr.mem cls (exc_mro e).

(** [except (c1, c2, ...)] *)
Definition isinstance_any (e : exc) (classes : list string) : bool :=
  existsb (isinstance e) classes.

Definition ValueError (msg : string) : exc :=
  PyExc ["ValueError"; "Exception"; "BaseException"] msg None.

Definition UnicodeDecodeError : exc :=
  PyExc ["UnicodeDecodeError"; "UnicodeError"; "ValueError"; "Exception";
         "BaseException"] "invalid utf-8" None.

Definition AttributeError (msg : string) : exc :=
  PyExc ["AttributeError"; "Exception"; "BaseException"] msg None.

Inductive result (A : Type) :=
| Ok (a : A)
| Raise (e : exc).

Arguments Ok {A} a.
Arguments Raise {A} e.

(** ** [urllib.parse.urlparse]

    The standard library's parser, after CPython 3.12's [urlsplit] and
    [urlparse] for [str] arguments.  The checks of the network location that
    raise [ValueError] (unbalanced brackets, and what later versions add to
    them) are the parameter [netloc_valid]. *)

Module UrlParse.
Import PyStr.

Record ParseResult := mkParseResult {
  scheme : string;
  netloc : string;
  path : string;
  params : string;
  query : string;
  fragment : string
}.

Definition scheme_chars : string :=
  "abcdefghijklmnopqrstuvwxyzABCDEFGHIJKLMNOPQRSTUVWXYZ0123456789+-.".

Definition uses_params : list string :=
  [""; "ftp"; "hdl"; "prospero"; "http"; "imap"; "https"; "shttp"; "rtsp";
   "rtsps"; "rtspu"; "sip"; "sips"; "mms"; "sftp"; "tel"].

(** Leading C0 control characters and spaces are stripped. *)
Definition is_c0_or_space (c : ascii) : bool := (code c <=? 32)%nat.

(** TAB, LF and CR are removed wherever they are. *)
Definition is_unsafe (c : ascii) : bool :=
  (code c =? 9)%nat || (code c =? 10)%nat || (code c =? 13)%nat.

(** [i = url.find(':')]; when [i > 0], [url[0]] is an ASCII letter and
    every character of [url[:i]] is a scheme character, the scheme is
    [url[:i].lower()] and the rest [url[i+1:]]. *)
Definition split_scheme (url : string) : string * string :=
  if contains ":" url then
    let head := before ":" url in
    match head with
    | EmptyString => ("", url)
    | String c0 _ =>
        if is_ascii_alpha c0 && all (fun c => contains c scheme_chars) head
        then (lower head, after ":" url)
        else ("", url)
    end
  else ("", url).

Definition is_netloc_delim (c : ascii) : bool :=
  Ascii.eqb c "/" || Ascii.eqb c "?" || Ascii.eqb c "#".

(** [_splitnetloc(url, 2)] on [url[2:]]: the network location runs to the
    first of '/', '?' and '#'. *)
Fixpoint splitnetloc (s : string) : string * string :=
  match s with
  | EmptyString => ("", "")
  | String c r =>
      if is_netloc_delim c then ("", s)
      else let (n, t) := splitnetloc r in (String c n, t)
  end.

(** [_splitparams(url)]: the parameters start at the first ';' of the
    last segment of the path. *)
Fixpoint splitparams (s : string) : string * string :=
  match s with
  | EmptyString => ("", "")
  | String c r =>
      if contains "/" r then
        let (p, q) := splitparams r in (String c p, q)
      else if Ascii.eqb c "/" then (String c (before ";" r), after ";" r)
      else (before ";" s, after ";" s)
  end.

Definition invalid_netloc : exc := ValueError "Invalid IPv6 URL".

Section Parser.
Variable netloc_valid : string -> bool.

Definition urlsplit (url : string) : result ParseResult :=
  let url := dropwhile is_c0_or_space url in
  let url := filter (fun c => negb (is_unsafe c)) url in
  let '(scheme, url) := split_scheme url in
  let '(netloc, url) :=
    match url with
    | String "/" (String "/" rest) => splitnetloc rest
    | _ => ("", url)
    end in
  (* an empty network location passes every check *)
  if negb (String.eqb netloc "") && negb (netloc_valid netloc)
  then Raise invalid_netloc
  else
    let fragment := if contains "#" url then after "#" url else "" in
    let url := if contains "#" url then before "#" url else url in
    let query := if contains "?" url then after "?" url else "" in
    let url := if contains "?" url then before "?" url else url in
    Ok (mkParseResult scheme netloc url "" query fragment).

Definition urlparse (url : string) : result ParseResult :=
  match urlsplit url with
  | Raise e => Raise e
  | Ok r =>
      if mem (scheme r) uses_params && contains ";" (path r)
      then let (p, q) := splitparams (path r) in
           Ok (mkParseResult (scheme r) (netloc r) p q (query r) (fragment r))
      else Ok r
  end.
End Parser.

(** The check of the network location that every version makes: a '['
    goes with a ']'. *)
Definition brackets_balanced (netloc : string) : bool :=
  Bool.eqb (contains "[" netloc) (contains "]" netloc).

(** The shape [scheme://host path tail] of an absolute address: the host
    holds none of '/', '?', '#'; the path is empty or starts with '/' and
    holds none of '?', '#', ';'; the tail is empty or is a query or a
    fragment.  Host and path hold no TAB, LF or CR. *)
Definition is_host (h : string) : bool :=
  all (fun c => negb (is_netloc_delim c) && negb (is_unsafe c)) h.

Definition is_path_char (c : ascii) : bool :=
  negb (Ascii.eqb c "?") && negb (Ascii.eqb c "#") && negb (Ascii.eqb c ";")
  && negb (is_unsafe c).

Definition is_path (p : string) : bool :=
  (String.eqb p "" || startswith "/" p) && all is_path_char p.

Definition is_tail (t : string) : bool :=
  String.eqb t "" || startswith "?" t || startswith "#" t.

(** A scheme: a letter followed by scheme characters. *)
Definition is_scheme (s : string) : bool :=
  match s with
  | EmptyString => false
  | String c0 _ =>
      is_ascii_alpha c0 && all (fun c => contains c scheme_chars) s
  end.

(** What follows the host starts with a delimiter, or is empty. *)
Definition delimited (s : string) : bool :=
  match s with
  | EmptyString => true
  | String c _ => is_netloc_delim c
  end.

End UrlParse.


(** [lo <= x < hi] *)
Definition in_range (lo hi x : Z) : Prop := (lo <= x < hi)%Z.

(** ** The request monad *)

(** One call [requests.get(url, timeout=timeout)]. *)
Definition call := (string * Q)%type.

(** A computation that may call [requests.get]: it receives the calls made
    so far and returns its result with the calls made by then. *)
Definition M (A : Type) := list call -> result A * list call.

Definition ret {A} (a : A) : M A := fun log => (Ok a, log).

Definition raise {A} (e : exc) : M A := fun log => (Raise e, log).

Definition bind {A B} (m : M A) (k : A -> M B) : M B :=
  fun log =>
    match m log with
    | (Ok a, log') => k a log'
    | (Raise e, log') => (Raise e, log')
    end.

(** [try: m  except classes: handler(e)] *)
Definition try_except {A} (m : M A) (classes : list string)
    (handler : exc -> M A) : M A :=
  fun log =>
    match m log with
    | (Ok a, log') => (Ok a, log')
    | (Raise e, log') =>
        if isinstance_any e classes then handler e log' else (Raise e, log')
    end.

(** A computation that makes no request. *)
Definition lift {A} (r : result A) : M A := fun log => (r, log).

Notation "x <- m ;; k" := (bind m (fun x => k))
  (at level 61, m at next level, right associativity).
Notation "' pat <- m ;; k" := (bind m (fun x => match x with pat => k end))
  (at level 61, pat pattern, m at next level, right associativity).

(** [abort(code, description)] *)
Definition abort {A} (code : Z) (description : string) : M A :=
  raise (HTTPException code description).

(** ** The data model *)

(** An entry of [Article.htmls] or [Article.pdfs]: a dictionary with the
    keys ['lang'] and ['url']. *)
Module Descriptor.
Record t := mk {
  lang : string;
  url : string
}.
End Descriptor.

Module Journal.
Record t := mk {
  acronym : string;
  url_segment : string;
  is_public : bool;
  unpublish_reason : string
}.
End Journal.

Module Issue.
Record t := mk {
  iid : string;
  url_segment : string;
  is_public : bool;
  unpublish_reason : string;
  journal : Journal.t
}.
End Issue.

(** [xml] is [None] or a string; [None] and the empty string are both
    false in a condition. *)
Module Article.
Record t := mk {
  xml : option string;
  htmls : list Descriptor.t;
  pdfs : list Descriptor.t;
  original_language : string;
  languages : list string;
  url_segment : string;
  is_public : bool;
  unpublish_reason : string;
  issue : Issue.t;
  journal : Journal.t
}.
End Article.

(** [url_for(endpoint, url_seg=..., url_seg_issue=..., url_seg_article=...,
    lang_code=...)], kept as its arguments. *)
Record UrlFor := url_for {
  endpoint : string;
  arg_url_seg : string;
  arg_url_seg_issue : string;
  arg_url_seg_article : string;
  arg_lang_code : string
}.

(** [list(map(f, l))] for an [f] that may raise. *)
Fixpoint map_result {A B} (f : A -> result B) (l : list A) : result (list B) :=
  match l with
  | [] => Ok []
  | x :: r =>
      match f x with
      | Raise e => Raise e
      | Ok y =>
          match map_result f r with
          | Raise e => Raise e
          | Ok ys => Ok (y :: ys)
          end
      end
  end.

Section Views.

(** Documents of lxml ([etree.parse], [generator.generate]), and the
    documents and tags of BeautifulSoup. *)
Variables Etree Soup Tag : Type.

(** A [packtools.HTMLGenerator]. *)
Record HTMLGenerator := mkHTMLGenerator {
  generator_languages : list string;
  generate : string -> result Etree
}.

(** What [render_html] returns first: the tag found by [soup.find] (or
    [None]), or a string. *)
Inductive Fragment :=
| FragTag (t : Tag)
| FragNone
| FragStr (s : string).

(** The entries of the template context that [article_detail] computes
    itself; the others come from the controllers and the display helpers. *)
Record Context := mkContext {
  ctx_article : Article.t;
  ctx_issue : Issue.t;
  ctx_html : Fragment;
  ctx_pdfs : list Descriptor.t;
  ctx_pdf_urls_path : list string;
  ctx_article_lang : string;
  ctx_text_languages : list string
}.

(** What a view returns. *)
Inductive ViewResponse :=
| Redirect (location : UrlFor) (code : Z)
| RenderTemplate (template : string) (context : Context)
| MakeResponse (body : bytes) (mimetype : option string).

(** The value of [soup.find(...)]: a tag or [None]. *)
Definition found_tag (t : option Tag) : Fragment :=
  match t with
  | Some tag => FragTag tag
  | None => FragNone
  end.

(** The configuration and the collaborators of the module. *)
Record World := mkWorld {
  (* current_app.config *)
  SSM_BASE_URI : string;
  SSM_XML_URL_REWRITE : bool;
  (* requests *)
  requests_get : string -> Q -> result Response;
  raise_for_status : Response -> option exc;
  (* urllib.parse, mimetypes, bytes.decode *)
  netloc_valid : string -> bool;
  guess_type : string -> option string;
  decode_utf8 : bytes -> option string;
  (* lxml, packtools, bs4 *)
  etree_parse : bytes -> result Etree;
  HTMLGenerator_parse : Etree -> result HTMLGenerator;
  etree_tostring : Etree -> bytes;
  BeautifulSoup : bytes -> Soup;
  soup_find : Soup -> string -> string -> option Tag;
  (* flask_babelex.gettext *)
  gettext : string -> string;
  (* webapp.controllers *)
  get_issue_by_url_seg : string -> string -> option Issue.t;
  get_article_by_issue_article_seg : string -> string -> option Article.t;
  get_article_by_aop_url_segs :
    Journal.t -> string -> string -> option Article.t
}.

Variable w : World.

Definition urlparse (url : string) : result UrlParse.ParseResult :=
  UrlParse.urlparse (netloc_valid w) url.

(** *** [fetch_data] *)

Definition default_timeout : Q := 2.

(** [timeout] is [None] when the caller leaves it out. *)
Definition timeout_of (timeout : option Q) : Q :=
  match timeout with
  | Some t => t
  | None => default_timeout
  end.

(** The calls made once [requests.get(url, timeout=timeout)] has been
    called. *)
Definition requested (log : list call) (url : string) (timeout : option Q)
    : list call :=
  (log ++ [(url, timeout_of timeout)])%list.

Definition fetch_data (url : string) (timeout : option Q) : M bytes :=
  fun log =>
    let log := requested log url timeout in
    let timeout := timeout_of timeout in
    match requests_get w url timeout with
    | Raise e =>
        if isinstance_any e ["requests.ConnectionError"; "requests.Timeout"]
        then (Raise (RetryableError e), log)
        else if isinstance_any e ["requests.InvalidSchema";
                                  "requests.MissingSchema";
                                  "requests.InvalidURL"]
        then (Raise (NonRetryableError e), log)
        else (Raise e, log)
    | Ok response =>
        match raise_for_status w response with
        | None => (Ok (content response), log)
        | Some e =>
            if isinstance e "requests.HTTPError" then
              match exc_response e with
              | Some r =>
                  if (400 <=? status_code r)%Z && (status_code r <? 500)%Z
                  then (Raise (NonRetryableError e), log)
                  else if (500 <=? status_code r)%Z
                          && (status_code r <? 600)%Z
                  then (Raise (RetryableError e), log)
                  else (Raise e, log)
              | None =>
                  (Raise (AttributeError
                     "'NoneType' object has no attribute 'status_code'"),
                   log)
              end
            else (Raise e, log)
        end
    end.

(** [requests.models.Response.raise_for_status], after the library: it
    raises [HTTPError], with the response attached, for a status from 400
    to 599, and returns otherwise. *)
Definition HTTPError (msg : string) (r : Response) : exc :=
  PyExc ["requests.HTTPError"; "requests.RequestException"; "OSError";
         "Exception"; "BaseException"] msg (Some r).

Definition requests_raise_for_status (r : Response) : option exc :=
  if (400 <=? status_code r)%Z && (status_code r <? 500)%Z
  then Some (HTTPError "Client Error" r)
  else if (500 <=? status_code r)%Z && (status_code r <? 600)%Z
  then Some (HTTPError "Server Error" r)
  else None.

(** *** [normalize_ssm_url] *)

Definition normalize_ssm_url (url : string) : result string :=
  if PyStr.startswith "http" url then
    match urlparse url with
    | Raise e => Raise e
    | Ok parsed_url => Ok (SSM_BASE_URI w ++ UrlParse.path parsed_url)
    end
  else Ok (SSM_BASE_URI w ++ url).

(** *** The renderers *)

(** [render_html] calls this only when [article.xml] is a non-empty
    string.  On [None], [normalize_ssm_url] fails on [url.startswith],
    and requests takes [str(None)] for the address. *)
Definition render_html_from_xml (article : Article.t) (lang : string)
    : M (Fragment * list string) :=
  result <-
    (if SSM_XML_URL_REWRITE w then
       match Article.xml article with
       | Some xml_url =>
           u <- lift (normalize_ssm_url xml_url) ;; fetch_data u None
       | None =>
           raise (AttributeError
                    "'NoneType' object has no attribute 'startswith'")
       end
     else
       match Article.xml article with
       | Some xml_url => fetch_data xml_url None
       | None => fetch_data "None" None
       end) ;;
  xml <- lift (etree_parse w result) ;;
  generator <- lift (HTMLGenerator_parse w xml) ;;
  tree <- lift (generate generator lang) ;;
  let soup := BeautifulSoup w (etree_tostring w tree) in
  ret (found_tag (soup_find w soup "div" "standalonearticle"),
       generator_languages generator).

Definition render_html_from_html (article : Article.t) (lang : string)
    : M (Fragment * list string) :=
  let html_url :=
    List.filter (fun html => String.eqb (Descriptor.lang html) lang)
                (Article.htmls article) in
  match html_url with
  | [] => raise (ValueError "Artigo não encontrado")
  | html :: _ =>
      let html_url := Descriptor.url html in
      u <- lift (normalize_ssm_url html_url) ;;
      result <- fetch_data u None ;;
      match decode_utf8 w result with
      | None => raise UnicodeDecodeError
      | Some html =>
          let text_languages :=
            List.map Descriptor.lang (Article.htmls article) in
          ret (FragStr html, text_languages)
      end
  end.

(** The truth value of [article.xml]. *)
Definition truthy_str (s : option string) : bool :=
  match s with
  | None => false
  | Some s => negb (String.eqb s "")
  end.

(** The truth value of a list. *)
Definition truthy_list {A} (l : list A) : bool :=
  match l with
  | [] => false
  | _ :: _ => true
  end.

Definition render_html (article : Article.t) (lang : string)
    : M (Fragment * list string) :=
  if truthy_str (Article.xml article) then
    render_html_from_xml article lang
  else if truthy_list (Article.htmls article) then
    render_html_from_html article lang
  else
    ret (FragStr "", []).

(** *** Serving a resource of the storage service *)

Definition get_content_from_ssm (resource_ssm_media_path : string)
    : M ViewResponse :=
  let resource_ssm_full_url := SSM_BASE_URI w ++ resource_ssm_media_path in
  let url := PyStr.strip resource_ssm_full_url in
  let mimetype := guess_type w url in
  ssm_response <-
    try_except (fetch_data url None)
      ["NonRetryableError"; "RetryableError"]
      (fun _ => abort 404 (gettext w "Recruso não encontrado")) ;;
  ret (MakeResponse ssm_response mimetype).

(** *** The article views

    The [cache.cached] decorator and the calls that only fill the template
    context (previous and next article, related links, display names of the
    languages) are left out. *)

Definition JOURNAL_UNPUBLISH : string :=
  gettext w "O periódico está indisponível por motivo de: ".
Definition ISSUE_UNPUBLISH : string :=
  gettext w "O número está indisponível por motivo de: ".
Definition ARTICLE_UNPUBLISH : string :=
  gettext w "O artigo está indisponível por motivo de: ".

(** [lang_code or article.original_language] *)
Definition or_original (lang_code : string) (article : Article.t) : string :=
  if String.eqb lang_code "" then Article.original_language article
  else lang_code.

(** [article.languages + [article.original_language]] *)
Definition valid_languages (article : Article.t) : list string :=
  (Article.languages article ++ [Article.original_language article])%list.

(** [lang_code] is [""] when the route has no language. *)
Definition article_detail
    (url_seg url_seg_issue url_seg_article lang_code : string)
    : M ViewResponse :=
  match get_issue_by_url_seg w url_seg url_seg_issue with
  | None => abort 404 (gettext w "Issue não encontrado")
  | Some issue =>
  let article :=
    match get_article_by_issue_article_seg w (Issue.iid issue)
            url_seg_article with
    | Some article => Some article
    | None =>
        get_article_by_aop_url_segs w (Issue.journal issue) url_seg_issue
          url_seg_article
    end in
  match article with
  | None => abort 404 (gettext w "Artigo não encontrado")
  | Some article =>
  let lang_code := or_original lang_code article in
  if negb (PyStr.mem lang_code (valid_languages article)) then
    (* Se não é idioma válido, redireciona *)
    ret (Redirect
           (url_for "main.article_detail"
              (Journal.url_segment (Article.journal article))
              (Issue.url_segment (Article.issue article))
              (Article.url_segment article)
              (Article.original_language article))
           301)
  else if negb (Article.is_public article) then
    abort 404 (ARTICLE_UNPUBLISH
               ++ gettext w (Article.unpublish_reason article))
  else if negb (Issue.is_public (Article.issue article)) then
    abort 404 (ISSUE_UNPUBLISH
               ++ gettext w (Issue.unpublish_reason (Article.issue article)))
  else if negb (Journal.is_public (Article.journal article)) then
    abort 404 (JOURNAL_UNPUBLISH
               ++ gettext w
                    (Journal.unpublish_reason (Article.journal article)))
  else
    pdf_urls_path <-
      (if truthy_list (Article.pdfs article) then
         try_except
           (let pdf_urls :=
              List.map Descriptor.url (Article.pdfs article) in
            if negb (truthy_list pdf_urls) then
              abort 404 (gettext w "PDF do Artigo não encontrado")
            else
              pdf_urls_parsed <- lift (map_result urlparse pdf_urls) ;;
              ret (List.map UrlParse.path pdf_urls_parsed))
           ["Exception"]
           (fun _ => abort 404 (gettext w "PDF do Artigo não encontrado"))
       else ret []) ;;
    ' (html, text_languages) <-
      try_except (render_html article lang_code)
        ["ValueError"; "NonRetryableError"; "RetryableError"]
        (fun _ =>
           abort 404
             (gettext w "HTML do Artigo não encontrado ou indisponível")) ;;
    ret (RenderTemplate "article/detail.html"
           (mkContext article issue html (Article.pdfs article)
              pdf_urls_path lang_code text_languages))
  end
  end.

Definition article_detail_pdf
    (url_seg url_seg_issue url_seg_article lang_code : string)
    : M ViewResponse :=
  match get_issue_by_url_seg w url_seg url_seg_issue with
  | None => abort 404 (gettext w "Issue não encontrado")
  | Some issue =>
  match get_article_by_issue_article_seg w (Issue.iid issue)
          url_seg_article with
  | None => abort 404 (gettext w "Artigo não encontrado")
  | Some article =>
  let lang_code := or_original lang_code article in
  if negb (PyStr.mem lang_code (valid_languages article)) then
    (* Se não é idioma válido, redireciona *)
    ret (Redirect
           (url_for "main.article_detail_pdf"
              (Journal.url_segment (Article.journal article))
              (Issue.url_segment (Article.issue article))
              (Article.url_segment article)
              (Article.original_language article))
           301)
  else if negb (Article.is_public article) then
    abort 404 (ARTICLE_UNPUBLISH
               ++ gettext w (Article.unpublish_reason article))
  else if negb (Issue.is_public (Article.issue article)) then
    abort 404 (ISSUE_UNPUBLISH
               ++ gettext w (Issue.unpublish_reason (Article.issue article)))
  else if negb (Journal.is_public (Article.journal article)) then
    abort 404 (JOURNAL_UNPUBLISH
               ++ gettext w
                    (Journal.unpublish_reason (Article.journal article)))
  else
    pdf_ssm_path <-
      (if truthy_list (Article.pdfs article) then
         try_except
           (let pdf_url :=
              List.filter
                (fun pdf => String.eqb (Descriptor.lang pdf) lang_code)
                (Article.pdfs article) in
            pdf_url <-
              (if negb (List.length pdf_url =? 1)%nat then
                 abort 404 (gettext w "PDF do Artigo não encontrado")
               else
                 match pdf_url with
                 | pdf :: _ => ret (Descriptor.url pdf)
                 | [] =>
                     raise (PyExc ["IndexError"; "LookupError"; "Exception";
                                   "BaseException"]
                              "list index out of range" None)
                 end) ;;
            pdf_url_parsed <- lift (urlparse pdf_url) ;;
            ret (UrlParse.path pdf_url_parsed))
           ["Exception"]
           (fun _ => abort 404 (gettext w "PDF do Artigo não encontrado"))
       else abort 404 (gettext w "PDF do Artigo não encontrado")) ;;
    if String.eqb pdf_ssm_path "" then
      abort 404
        (gettext w "Recurso do Artigo não encontrado. Caminho inválido!")
    else get_content_from_ssm pdf_ssm_path
  end
  end.

(** *** Conditions on a request, for the statements *)

(** The look-ups of [article_detail] find [issue] and [article]. *)
Definition finds (url_seg url_seg_issue url_seg_article : string)
    (issue : Issue.t) (article : Article.t) : Prop :=
  get_issue_by_url_seg w url_seg url_seg_issue = Some issue
  /\ match get_article_by_issue_article_seg w (Issue.iid issue)
             url_seg_article with
     | Some article => Some article
     | None =>
         get_article_by_aop_url_segs w (Issue.journal issue) url_seg_issue
           url_seg_article
     end = Some article.

(** The look-ups of [article_detail_pdf] find [issue] and [article]. *)
Definition finds_pdf (url_seg url_seg_issue url_seg_article : string)
    (issue : Issue.t) (article : Article.t) : Prop :=
  get_issue_by_url_seg w url_seg url_seg_issue = Some issue
  /\ get_article_by_issue_article_seg w (Issue.iid issue) url_seg_article
     = Some article.

(** The article, its issue and its journal are public. *)
Definition published (article : Article.t) : bool :=
  Article.is_public article
  && Issue.is_public (Article.issue article)
  && Journal.is_public (Article.journal article).

(** The descriptors of a list for a language, in stored order. *)
Definition matching (lang : string) (l : list Descriptor.t)
    : list Descriptor.t :=
  List.filter (fun d => String.eqb (Descriptor.lang d) lang) l.

(** What the two [abort] calls of [article_detail] raise after the
    visibility checks. *)
Definition pdf_not_found : exc :=
  HTTPException 404 (gettext w "PDF do Artigo não encontrado").

Definition html_not_found : exc :=
  HTTPException 404
    (gettext w "HTML do Artigo não encontrado ou indisponível").

(** The status of the answer that Flask sends: the code of an
    [HTTPException], 500 for any other exception that leaves the view. *)
Definition http_status (r : result ViewResponse) : Z :=
  match r with
  | Raise (HTTPException code _) => code
  | Raise _ => 500
  | Ok (Redirect _ code) => code
  | Ok (RenderTemplate _ _) => 200
  | Ok (MakeResponse _ _) => 200
  end.

End Views.

Arguments FragTag {Tag} t.
Arguments FragNone {Tag}.
Arguments FragStr {Tag} s.
Arguments Redirect {Tag} location code.
Arguments RenderTemplate {Tag} template context.
Arguments MakeResponse {Tag} body mimetype.
Arguments SSM_BASE_URI {Etree Soup Tag} w.
Arguments SSM_XML_URL_REWRITE {Etree Soup Tag} w.
Arguments requests_get {Etree Soup Tag} w.
Arguments raise_for_status {Etree Soup Tag} w.
Arguments netloc_valid {Etree Soup Tag} w.
Arguments guess_type {Etree Soup Tag} w.
Arguments decode_utf8 {Etree Soup Tag} w.
Arguments etree_parse {Etree Soup Tag} w.
Arguments HTMLGenerator_parse {Etree Soup Tag} w.
Arguments etree_tostring {Etree Soup Tag} w.
Arguments BeautifulSoup {Etree Soup Tag} w.
Arguments soup_find {Etree Soup Tag} w.
Arguments gettext {Etree Soup Tag} w.
Arguments get_issue_by_url_seg {Etree Soup Tag} w.
Arguments get_article_by_issue_article_seg {Etree Soup Tag} w.
Arguments get_article_by_aop_url_segs {Etree Soup Tag} w.
Arguments generator_languages {Etree} h.
Arguments generate {Etree} h.
Arguments ctx_article {Tag} c.
Arguments ctx_issue {Tag} c.
Arguments ctx_html {Tag} c.
Arguments ctx_pdfs {Tag} c.
Arguments ctx_pdf_urls_path {Tag} c.
Arguments ctx_article_lang {Tag} c.
Arguments ctx_text_languages {Tag} c.
Arguments urlparse {Etree Soup Tag} w url.
Arguments fetch_data {Etree Soup Tag} w url timeout.
Arguments found_tag {Tag} t.
Arguments finds {Etree Soup Tag} w url_seg url_seg_issue url_seg_article
  issue article.
Arguments finds_pdf {Etree Soup Tag} w url_seg url_seg_issue url_seg_article
  issue article.
Arguments pdf_not_found {Etree Soup Tag} w.
Arguments html_not_found {Etree Soup Tag} w.
Arguments normalize_ssm_url {Etree Soup Tag} w url.
Arguments render_html_from_xml {Etree Soup Tag} w article lang.
Arguments render_html_from_html {Etree Soup Tag} w article lang.
Arguments render_html {Etree Soup Tag} w article lang.
Arguments get_content_from_ssm {Etree Soup Tag} w resource_ssm_media_path.
Arguments article_detail {Etree Soup Tag} w url_seg url_seg_issue
  url_seg_article lang_code.
Arguments article_detail_pdf {Etree Soup Tag} w url_seg url_seg_issue
  url_seg_article lang_code.
Arguments http_status {Tag} r.
Arguments JOURNAL_UNPUBLISH {Etree Soup Tag} w.
Arguments ISSUE_UNPUBLISH {Etree Soup Tag} w.
Arguments ARTICLE_UNPUBLISH {Etree Soup Tag} w.
Arguments truthy_list {A} l.

(** ** A concrete world

    Documents and tags are their serialisation.  The world is given by its
    configuration, its network, its status check, its XML parser and the
    article that the controllers find. *)

Module Demo.

Definition Etree := bytes.
Definition Soup := bytes.
Definition Tag := bytes.

Definition journal : Journal.t := Journal.mk "rsp" "rsp" true "".
Definition issue : Issue.t := Issue.mk "iid-1" "2019.v53" true "" journal.

(** An article in Portuguese, translated into English. *)
Definition article (xml : option string) (htmls pdfs : list Descriptor.t)
    : Article.t :=
  Article.mk xml htmls pdfs "pt" ["en"] "a1" true "" issue journal.

Definition body : bytes := [Byte.x3c; Byte.x70; Byte.x2f; Byte.x3e].

Definition generator (doc : Etree) : HTMLGenerator Etree :=
  mkHTMLGenerator Etree ["en"; "es"; "pt"]
    (fun lang =>
       if PyStr.mem lang ["en"; "es"; "pt"] then Ok doc
       else Raise (ValueError "Unrecognized language")).

Definition world (base : string) (rewrite : bool)
    (get : string -> Q -> result Response)
    (status_check : Response -> option exc)
    (parse : bytes -> result Etree)
    (found : option Article.t) : World Etree Soup Tag :=
  {| SSM_BASE_URI := base;
     SSM_XML_URL_REWRITE := rewrite;
     requests_get := get;
     raise_for_status := status_check;
     netloc_valid := UrlParse.brackets_balanced;
     guess_type := fun _ => None;
     decode_utf8 := fun b => Some (string_of_list_byte b);
     etree_parse := parse;
     HTMLGenerator_parse := fun doc => Ok (generator doc);
     etree_tostring := fun doc => doc;
     BeautifulSoup := fun b => b;
     soup_find := fun soup _ _ => Some soup;
     gettext := fun s => s;
     get_issue_by_url_seg := fun _ _ => Some issue;
     get_article_by_issue_article_seg := fun _ _ => found;
     get_article_by_aop_url_segs := fun _ _ _ => None |}.

(** A network that answers every request with the given status. *)
Definition answers (status : Z) : string -> Q -> result Response :=
  fun _ _ => Ok (mkResponse status body).

(** A network where every request fails with the given exception. *)
Definition fails (e : exc) : string -> Q -> result Response :=
  fun _ _ => Raise e.

(** Exceptions of requests and lxml, with their ancestors. *)
Definition ConnectTimeout : exc :=
  PyExc ["requests.ConnectTimeout"; "requests.ConnectionError";
         "requests.Timeout"; "requests.RequestException"; "OSError";
         "Exception"; "BaseException"] "timed out" None.

Definition MissingSchema : exc :=
  PyExc ["requests.MissingSchema"; "requests.RequestException"; "OSError";
         "ValueError"; "Exception"; "BaseException"] "No scheme supplied"
    None.

Definition TooManyRedirects : exc :=
  PyExc ["requests.TooManyRedirects"; "requests.RequestException";
         "OSError"; "Exception"; "BaseException"] "Exceeded 30 redirects"
    None.

Definition XMLSyntaxError : exc :=
  PyExc ["lxml.etree.XMLSyntaxError"; "lxml.etree.ParseError";
         "lxml.etree.LxmlSyntaxError"; "lxml.etree.LxmlError";
         "lxml.etree.Error"; "SyntaxError"; "Exception"; "BaseException"]
    "Start tag expected" None.

(** A status check that, unlike the one of requests, also fails on
    status 600. *)
Definition strict_status_check (r : Response) : option exc :=
  if (400 <=? status_code r)%Z
  then Some (HTTPError "Error" r)
  else None.

(** Worlds that differ in their network only. *)
Definition ssm (get : string -> Q -> result Response)
    (status_check : Response -> option exc)
    : World Etree Soup Tag :=
  world "http://ssm:8000" true get status_check Ok None.

Definition address : string := "http://ssm:8000/a.xml".

Definition online := ssm (answers 200) requests_raise_for_status.
Definition timed_out := ssm (fails ConnectTimeout) requests_raise_for_status.
Definition malformed := ssm (fails MissingSchema) requests_raise_for_status.
Definition absent := ssm (answers 404) requests_raise_for_status.
Definition down := ssm (answers 503) requests_raise_for_status.
Definition odd := ssm (answers 600) strict_status_check.

(** Articles, with their representations in the storage of another host. *)
Definition xml_url : string :=
  "https://minio.scielo.br/documentstore/1678-4464/a.xml".

Definition html_pt : Descriptor.t :=
  Descriptor.mk "pt" "https://minio.scielo.br/documentstore/1678-4464/a.pt.html".
Definition html_en : Descriptor.t :=
  Descriptor.mk "en" "https://minio.scielo.br/documentstore/1678-4464/a.en.html".

Definition pdf_en : Descriptor.t :=
  Descriptor.mk "en" "https://minio.scielo.br/documentstore/1678-4464/a.en.pdf".

Definition with_xml : Article.t := article (Some xml_url) [] [].
Definition with_htmls : Article.t := article None [html_pt; html_en] [].
Definition with_html_pt : Article.t := article None [html_pt] [].
Definition with_pdf : Article.t := article None [] [pdf_en].
Definition without_text : Article.t := article None [] [].

(** Worlds where the controllers find the given article. *)
Definition serving (found : Article.t) : World Etree Soup Tag :=
  world "http://ssm:8000" true (answers 200) requests_raise_for_status Ok
    (Some found).

Definition unavailable (found : Article.t) : World Etree Soup Tag :=
  world "http://ssm:8000" true (answers 503) requests_raise_for_status Ok
    (Some found).

Definition redirecting (found : Article.t) : World Etree Soup Tag :=
  world "http://ssm:8000" true (fails TooManyRedirects)
    requests_raise_for_status Ok (Some found).

Definition ill_formed (found : Article.t) : World Etree Soup Tag :=
  world "http://ssm:8000" true (answers 200) requests_raise_for_status
    (fun _ => Raise XMLSyntaxError) (Some found).

(** A world that does not rewrite the address of the XML. *)
Definition not_rewriting : World Etree Soup Tag :=
  world "http://ssm:8000" false (answers 200) requests_raise_for_status Ok
    None.

End Demo.

(** ** Proxies of the storage service

    [media_assets_proxy], [article_ssm_content_raw] and [router_legacy_pdf]
    serve a resource of the storage service through [get_content_from_ssm].
    The path of the media, the arguments of the request and the look-up of
    a PDF by its file name come with the request. *)

(** [request.args.get(key, None)]: the first value of the key. *)
Fixpoint args_get (args : list (string * string)) (key : string)
    : option string :=
  match args with
  | [] => None
  | (k, v) :: rest => if String.eqb k key then Some v else args_get rest key
  end.

(** Every request of the list goes to an address that starts with [base]. *)
Definition all_under (base : string) (calls : list call) : Prop :=
  Forall (fun c => PyStr.startswith base (fst c) = true) calls.

(** The non-empty suffixes of [s]. *)
Fixpoint tails (s : string) : list string :=
  match s with
  | EmptyString => []
  | String _ r => s :: tails r
  end.

(** A non-empty string that does not begin or end with whitespace.  The
    tests are on bytes: the string neither starts with the encoding of a
    whitespace character nor is the beginning of one, and it does not end
    with such an encoding or with the first bytes of one.  Well-formed
    UTF-8 never begins or ends with a part of a character, so that for the
    encoding of a [str] this is: [s and s == s.strip()]. *)
Definition trimmed (s : string) : bool :=
  negb (String.eqb s "")
  && forallb
       (fun space =>
          negb (PyStr.startswith space s || PyStr.startswith s space))
       PyStr.whitespace
  && forallb
       (fun space =>
          forallb (fun piece => negb (PyStr.startswith piece (PyStr.rev s)))
            (tails space))
       (List.map PyStr.rev PyStr.whitespace).

Section Proxies.
Context {Etree Soup Tag : Type}.
Variable w : World Etree Soup Tag.

(** [current_app.config['SSM_MEDIA_PATH']] *)
Variable SSM_MEDIA_PATH : string.

(** [controllers.get_article_by_pdf_filename]: the address of the PDF, or
    [None]. *)
Variable get_article_by_pdf_filename : string -> string -> string -> option string.

Definition media_assets_proxy (relative_media_path : string)
    : M (ViewResponse Tag) :=
  let resource_ssm_path := SSM_MEDIA_PATH ++ relative_media_path in
  get_content_from_ssm w resource_ssm_path.

Definition article_ssm_content_raw (args : list (string * string))
    : M (ViewResponse Tag) :=
  let resource_ssm_path := args_get args "resource_ssm_path" in
  match resource_ssm_path with
  | None =>
      abort 404
        (gettext w "Recurso do Artigo não encontrado. Caminho inválido!")
  | Some path =>
      if String.eqb path "" then
        abort 404
          (gettext w "Recurso do Artigo não encontrado. Caminho inválido!")
      else get_content_from_ssm w path
  end.

Definition router_legacy_pdf (journal_acron issue_info pdf_filename : string)
    : M (ViewResponse Tag) :=
  let pdf_filename := pdf_filename ++ ".pdf" in
  let pdf_url :=
    get_article_by_pdf_filename journal_acron issue_info pdf_filename in
  match pdf_url with
  | None => abort 404 (gettext w "PDF do artigo não foi encontrado")
  | Some pdf_url =>
      pdf_url_parsed <- lift (urlparse w pdf_url) ;;
      get_content_from_ssm w (UrlParse.path pdf_url_parsed)
  end.

End Proxies.

(** ** The session and the locale *)

(** A Python dictionary with string keys, in the order of insertion. *)
Definition dict (V : Type) := list (string * V).

(** [d.get(k)]: [None] when the key is missing. *)
Fixpoint dict_get {V} (d : dict V) (k : string) : option V :=
  match d with
  | [] => None
  | (k', v) :: rest => if String.eqb k' k then Some v else dict_get rest k
  end.

(** [d[k] = v] *)
Fixpoint dict_set {V} (d : dict V) (k : string) (v : V) : dict V :=
  match d with
  | [] => [(k, v)]
  | (k', v') :: rest =>
      if String.eqb k' k then (k, v) :: rest
      else (k', v') :: dict_set rest k v
  end.

(** [list(d.keys())] *)
Definition dict_keys {V} (d : dict V) : list string := List.map fst d.

(** The session, as far as the module reads it: the value of a key is
    [None] or a string. *)
Definition Session := dict (option string).

Definition KeyError (key : string) : exc :=
  PyExc ["KeyError"; "LookupError"; "Exception"; "BaseException"] key None.

Definition TypeError (msg : string) : exc :=
  PyExc ["TypeError"; "Exception"; "BaseException"] msg None.

(** The call [redirect(location, code)] with which a view ends, by its
    arguments; the code is 302 when it is left out.  What Werkzeug makes of
    the arguments is not part of the model. *)
Record Redirection := redirect {
  redirect_location : option string;
  redirect_code : Z
}.

Section Locale.
Context {Etree Soup Tag : Type}.
Variable w : World Etree Soup Tag.

(** [current_app.config.get('LANGUAGES')] and
    [current_app.config.get('BABEL_DEFAULT_LOCALE')] *)
Variable LANGUAGES : dict string.
Variable BABEL_DEFAULT_LOCALE : option string.

(** [request.accept_languages.best_match] *)
Variable best_match : list string -> option string.

Definition get_locale (session : Session) : result (option string) * Session :=
  let langs := LANGUAGES in
  let lang_from_headers := best_match (dict_keys langs) in
  let session :=
    if negb (PyStr.mem "lang" (dict_keys session))
    then dict_set session "lang" lang_from_headers
    else session in
  match dict_get session "lang" with
  | None => (Raise (KeyError "lang"), session)
  | Some lang =>
      let session :=
        if negb (truthy_str lang_from_headers) && negb (truthy_str lang)
        then
          (* Caso não seja possível detectar o idioma e não tenhamos a chave
             lang no seção, fixamos o idioma padrão. *)
          dict_set session "lang" BABEL_DEFAULT_LOCALE
        else session in
      match dict_get session "lang" with
      | None => (Raise (KeyError "lang"), session)
      | Some lang => (Ok lang, session)
      end
  end.

(** [referrer] is [request.referrer] and [args] is [request.args]. *)
Definition set_locale (referrer : option string) (args : list (string * string))
    (lang_code : string) (session : Session) : result Redirection * Session :=
  let langs := LANGUAGES in
  if negb (PyStr.mem lang_code (dict_keys langs)) then
    (Raise (HTTPException 400 (gettext w "Código de idioma inválido")), session)
  else
    let hash := args_get args "hash" in
    let referrer :=
      match hash with
      | None => Ok referrer
      | Some hash =>
          if String.eqb hash "" then Ok referrer
          else
            match referrer with
            | Some referrer => Ok (Some (referrer ++ "#" ++ hash))
            | None =>
                Raise (TypeError
                  "unsupported operand type(s) for +=: 'NoneType' and 'str'")
            end
      end in
    match referrer with
    | Raise e => (Raise e, session)
    | Ok referrer =>
        (* salvar o lang code na sessão *)
        let session := dict_set session "lang" (Some lang_code) in
        (Ok (redirect referrer 302), session)
    end.

Definition get_lang_from_session (session : Session) : option string :=
  match dict_get session "lang" with
  | Some lang => lang
  | None => BABEL_DEFAULT_LOCALE
  end.

(** [session.get('lang', get_locale())]: the default is computed first. *)
Definition session_lang (session : Session) : result (option string) * Session :=
  match get_locale session with
  | (Raise e, session) => (Raise e, session)
  | (Ok locale, session) =>
      match dict_get session "lang" with
      | Some lang => (Ok lang, session)
      | None => (Ok locale, session)
      end
  end.

(** [response] is the cookies of the response. *)
Definition add_language_code (response : dict (option string))
    (session : Session) : result (dict (option string)) * Session :=
  match session_lang session with
  | (Raise e, session) => (Raise e, session)
  | (Ok language, session) => (Ok (dict_set response "language" language), session)
  end.

End Locale.

(** ** The lists of journals *)

(** [request.args.get(key, default)] *)
Definition args_get_default (args : list (string * string)) (key default : string)
    : string :=
  match args_get args key with
  | Some v => v
  | None => default
  end.

(** [s] between double quotes. *)
Definition quoted (s : string) : string :=
  String (ascii_of_nat 34) (s ++ String (ascii_of_nat 34) "").

(** [s[:2]] *)
Definition first_two (s : string) : string := String.substring 0 2 s.

(** [render_template(template, **context)] *)
Record Rendered (C : Type) := render_template {
  template_name : string;
  template_context : C
}.

Arguments render_template {C} template_name template_context.
Arguments template_name {C} r.
Arguments template_context {C} r.

Section Collection.
Context {Etree Soup Tag : Type}.
Variable w : World Etree Soup Tag.

(** What the controllers return: journals, their JSON data, journals
    grouped by a field, and the rows of a download. *)
Context {JournalDoc Json Objects Rows : Type}.

Variable BABEL_DEFAULT_LOCALE : option string.

(** [controllers.get_journals(query_filter=...)] *)
Variable get_journals : string -> list JournalDoc.
Variable get_journal_json_data : JournalDoc -> Json.

(** [controllers.get_journals_grouped_by(field, title_query,
    query_filter=..., lang=...)] *)
Variable get_journals_grouped_by : string -> string -> string -> string -> Objects.

(** [controllers.get_journal_generator_for_csv(list_type=...,
    title_query=..., extension=...)] *)
Variable get_journal_generator_for_csv : string -> string -> string -> Rows.

Record ListContext := mkListContext {
  journals_list : list Json;
  list_query_filter : string
}.

Definition collection_list (args : list (string * string))
    : Rendered ListContext :=
  let allowed_filters := ["current"; "no-current"; ""] in
  let query_filter := args_get_default args "status" "" in
  let query_filter :=
    if negb (PyStr.mem query_filter allowed_filters) then "" else query_filter in
  let journals_list :=
    List.map get_journal_json_data (get_journals query_filter) in
  render_template "collection/list_journal.html"
    (mkListContext journals_list query_filter).

Record ThematicContext := mkThematicContext {
  objects : Objects;
  thematic_query_filter : string;
  filter : string
}.

(** [get_lang_from_session()[:2].lower()]; slicing [None] is a
    [TypeError]. *)
Definition session_lang_code (session : Session) : result string :=
  match get_lang_from_session BABEL_DEFAULT_LOCALE session with
  | Some lang => Ok (PyStr.lower (first_two lang))
  | None => Raise (TypeError "'NoneType' object is not subscriptable")
  end.

Definition thematic_table : dict string :=
  [("areas", "study_areas");
   ("wos", "subject_categories");
   ("publisher", "publisher_name")].

Definition collection_list_thematic (args : list (string * string))
    (session : Session) : result (Rendered ThematicContext) :=
  let allowed_query_filters := ["current"; "no-current"; ""] in
  let allowed_thematic_filters := ["areas"; "wos"; "publisher"] in
  let query_filter := args_get_default args "status" "" in
  let title_query := args_get_default args "query" "" in
  let thematic_filter := args_get_default args "filter" "areas" in
  let query_filter :=
    if negb (PyStr.mem query_filter allowed_query_filters) then ""
    else query_filter in
  let thematic_filter :=
    if negb (PyStr.mem thematic_filter allowed_thematic_filters) then "areas"
    else thematic_filter in
  match session_lang_code session with
  | Raise e => Raise e
  | Ok lang =>
      match dict_get thematic_table thematic_filter with
      | None => Raise (KeyError thematic_filter)
      | Some field =>
          let objects :=
            get_journals_grouped_by field title_query query_filter lang in
          Ok (render_template "collection/list_thematic.html"
                (mkThematicContext objects query_filter thematic_filter))
      end
  end.

(** What [jsonify] is given in [journals_search_by_theme_ajax]. *)
Inductive ThemeJson :=
| JsonObjects (objects : Objects)
| JsonError (error : Z) (message : string).

Definition journals_search_by_theme_ajax (is_xhr : bool)
    (args : list (string * string)) (session : Session) : result ThemeJson :=
  if negb is_xhr then
    Raise (HTTPException 400 (gettext w "Requisição inválida. Deve ser por ajax"))
  else
    let query := args_get_default args "query" "" in
    let query_filter := args_get_default args "query_filter" "" in
    let filter := args_get_default args "filter" "areas" in
    match session_lang_code session with
    | Raise e => Raise e
    | Ok lang =>
        if String.eqb filter "areas" then
          Ok (JsonObjects
                (get_journals_grouped_by "study_areas" query query_filter lang))
        else if String.eqb filter "wos" then
          Ok (JsonObjects
                (get_journals_grouped_by "subject_categories" query
                   query_filter lang))
        else if String.eqb filter "publisher" then
          Ok (JsonObjects
                (get_journals_grouped_by "publisher_name" query query_filter
                   lang))
        else
          Ok (JsonError 401
                (gettext w
                   ("Parámetro " ++ quoted "filter"
                    ++ " é inválido, deve ser " ++ quoted "areas" ++ ", "
                    ++ quoted "wos" ++ " ou " ++ quoted "publisher" ++ ".")))
    end.

(** The response of [download_journal_list]. *)
Record Download := mkDownload {
  download_data : Rows;
  download_mimetype : string;
  content_disposition : string
}.

(** [timestamp] is [datetime.now().strftime('%Y-%m-%d_%H-%M-%S')]. *)
Definition download_journal_list (timestamp : string)
    (args : list (string * string)) (list_type extension : string)
    : result Download :=
  if negb (PyStr.mem (PyStr.lower extension) ["csv"; "xls"]) then
    Raise (HTTPException 401
             (gettext w
                ("Parámetro " ++ quoted "extension"
                 ++ " é inválido, deve ser " ++ quoted "csv" ++ " ou "
                 ++ quoted "xls" ++ ".")))
  else if negb (PyStr.mem (PyStr.lower list_type)
                  ["alpha"; "areas"; "wos"; "publisher"]) then
    Raise (HTTPException 401
             (gettext w
                ("Parámetro " ++ quoted "list_type"
                 ++ " é inválido, deve ser: " ++ quoted "alpha" ++ ", "
                 ++ quoted "areas" ++ ", " ++ quoted "wos" ++ " ou "
                 ++ quoted "publisher" ++ ".")))
  else
    let mimetype :=
      if String.eqb (PyStr.lower extension) "xls"
      then "application/vnd.ms-excel"
      else "text/csv" in
    let query := args_get_default args "query" "" in
    let data :=
      get_journal_generator_for_csv list_type query (PyStr.lower extension) in
    let filename :=
      "journals_" ++ list_type ++ "_" ++ timestamp ++ "." ++ extension in
    Ok (mkDownload data mimetype ("attachment; filename=" ++ filename)).

End Collection.

(** ** Sharing by e-mail *)

(** [s.split(sep)] for a one-character separator. *)
Fixpoint str_split (sep : ascii) (s : string) : list string :=
  match s with
  | EmptyString => [""]
  | String c r =>
      if Ascii.eqb c sep then "" :: str_split sep r
      else
        match str_split sep r with
        | head :: tail => String c head :: tail
        | [] => [String c ""]
        end
  end.

(** [d[k]] *)
Definition dict_item {V} (d : dict V) (k : string) : result V :=
  match dict_get d k with
  | Some v => Ok v
  | None => Raise (KeyError k)
  end.

Section EmailShare.
Context {Etree Soup Tag : Type}.
Variable w : World Etree Soup Tag.

(** The message that the controller returns and the errors of a form. *)
Context {Message Errors : Type}.

(** [str(message)] *)
Variable str_of_message : Message -> string.

(** [controllers.send_email_share(from_email, recipients, share_url,
    subject, comment)] *)
Variable send_email_share :
  string -> list string -> string -> string -> string -> bool * Message.

(** A [forms.EmailShareForm] built from the request: the result of
    [form.validate()], [form.data] and [form.errors]. *)
Record Form := mkForm {
  form_validate : bool;
  form_data : dict string;
  form_errors : Errors
}.

(** What [jsonify] is given. *)
Record ShareJson := mkShareJson {
  sent : bool;
  message : string + Errors;
  fields : list string
}.

Definition email_share_ajax (is_xhr : bool) (form : Form) : result ShareJson :=
  if negb is_xhr then
    Raise (HTTPException 400 (gettext w "Requisição inválida."))
  else if form_validate form then
    match dict_item (form_data form) "recipients" with
    | Raise e => Raise e
    | Ok field =>
    let recipients :=
      List.map PyStr.strip
        (List.filter (fun email => negb (String.eqb (PyStr.strip email) ""))
           (str_split ";" field)) in
    match dict_item (form_data form) "your_email" with
    | Raise e => Raise e
    | Ok your_email =>
    match dict_item (form_data form) "share_url" with
    | Raise e => Raise e
    | Ok share_url =>
    match dict_item (form_data form) "subject" with
    | Raise e => Raise e
    | Ok subject =>
    match dict_item (form_data form) "comment" with
    | Raise e => Raise e
    | Ok comment =>
        let '(sent, message) :=
          send_email_share your_email recipients share_url subject comment in
        Ok (mkShareJson sent (inl (str_of_message message))
              (dict_keys (form_data form)))
    end end end end end
  else
    Ok (mkShareJson false (inr (form_errors form))
          (dict_keys (form_data form))).

End EmailShare.

(** ** The routes of the legacy addresses

    An argument of the request is [None] or a string, and is given to the
    controllers as it is. *)

(** [a == b] for a string [b] *)
Definition py_eq (a : option string) (b : string) : bool :=
  match a with
  | Some s => String.eqb s b
  | None => false
  end.

(** [a in l] for a list of strings *)
Definition py_in (a : option string) (l : list string) : bool :=
  match a with
  | Some s => PyStr.mem s l
  | None => false
  end.

(** ['%s' % a] *)
Definition py_str (a : option string) : string :=
  match a with
  | Some s => s
  | None => "None"
  end.

(** [a is not None] *)
Definition is_not_None (a : option string) : bool :=
  match a with
  | Some _ => true
  | None => false
  end.

Section Legacy.
Context {Etree Soup Tag : Type}.
Variable w : World Etree Soup Tag.

(** What [journal_detail] and [issue_grid] return. *)
Context {Page : Type}.

(** [flask.url_for(endpoint, **values)] *)
Variable flask_url_for : string -> dict (option string) -> string.

(** [webapp.controllers] *)
Variable get_journal_by_issn : option string -> option Journal.t.
Variable get_issue_by_pid : option string -> option Issue.t.
Variable get_article_by_pid : option string -> option Article.t.
Variable get_article_by_oap_pid : option string -> option Article.t.

(** [controllers.get_article_by_scielo_pid(pid, is_public=True)] *)
Variable get_article_by_scielo_pid : option string -> option Article.t.

(** The views [journal_detail] and [issue_grid] of the module. *)
Variable journal_detail : string -> result Page.
Variable issue_grid : string -> result Page.

(** What [router_legacy] returns: a redirection, the page of
    [journal_detail] or [issue_grid], or the answer of
    [article_detail_pdf]. *)
Inductive LegacyAnswer :=
| LegacyRedirect (r : Redirection)
| LegacyPage (p : Page)
| LegacyContent (r : ViewResponse Tag).

Definition invalid_request (pid : option string) : exc :=
  HTTPException 400
    (gettext w
       ("Requsição inválida ao tentar acessar o artigo com pid: "
        ++ py_str pid)).

Definition router_legacy (args : list (string * string)) : M LegacyAnswer :=
  let script_php := args_get args "script" in
  let pid := args_get args "pid" in
  let tlng := args_get args "tlng" in
  let allowed_scripts :=
    ["sci_serial"; "sci_issuetoc"; "sci_arttext"; "sci_abstract"; "sci_issues";
     "sci_pdf"] in
  if is_not_None script_php && py_in script_php allowed_scripts
     && negb (truthy_str pid) then
    (* se tem pelo menos um param: pid ou script_php *)
    raise (invalid_request pid)
  else if truthy_str script_php && truthy_str pid then
    if py_eq script_php "sci_serial" then
      (* pid = issn *)
      match get_journal_by_issn pid with
      | None => abort 404 (gettext w "Periódico não encontrado")
      | Some journal =>
          if negb (Journal.is_public journal) then
            abort 404
              (JOURNAL_UNPUBLISH w ++ gettext w (Journal.unpublish_reason journal))
          else
            page <- lift (journal_detail (Journal.url_segment journal)) ;;
            ret (LegacyPage page)
      end
    else if py_eq script_php "sci_issuetoc" then
      match get_issue_by_pid pid with
      | None => abort 404 (gettext w "Número não encontrado")
      | Some issue =>
          if negb (Issue.is_public issue) then
            abort 404
              (ISSUE_UNPUBLISH w ++ gettext w (Issue.unpublish_reason issue))
          else if negb (Journal.is_public (Issue.journal issue)) then
            abort 404
              (JOURNAL_UNPUBLISH w
               ++ gettext w (Journal.unpublish_reason (Issue.journal issue)))
          else
            ret (LegacyRedirect
                   (redirect
                      (Some (flask_url_for "main.issue_toc"
                               [("url_seg",
                                 Some (Journal.url_segment (Issue.journal issue)));
                                ("url_seg_issue",
                                 Some (Issue.url_segment issue))]))
                      301))
      end
    else if py_eq script_php "sci_arttext" || py_eq script_php "sci_abstract"
    then
      let article :=
        match get_article_by_pid pid with
        | Some article => Some article
        | None => get_article_by_oap_pid pid
        end in
      match article with
      | None => abort 404 (gettext w "Artigo não encontrado")
      | Some article =>
          if negb (Article.is_public article) then
            abort 404
              (ARTICLE_UNPUBLISH w
               ++ gettext w (Article.unpublish_reason article))
          else if negb (Issue.is_public (Article.issue article)) then
            abort 404
              (ISSUE_UNPUBLISH w
               ++ gettext w (Issue.unpublish_reason (Article.issue article)))
          else if negb (Journal.is_public (Article.journal article)) then
            abort 404
              (JOURNAL_UNPUBLISH w
               ++ gettext w
                    (Journal.unpublish_reason (Article.journal article)))
          else
            ret (LegacyRedirect
                   (redirect
                      (Some (flask_url_for "main.article_detail"
                               [("url_seg",
                                 Some (Journal.url_segment
                                         (Article.journal article)));
                                ("url_seg_issue",
                                 Some (Issue.url_segment
                                         (Article.issue article)));
                                ("url_seg_article",
                                 Some (Article.url_segment article));
                                ("lang_code", tlng)]))
                      301))
      end
    else if py_eq script_php "sci_issues" then
      match get_journal_by_issn pid with
      | None => abort 404 (gettext w "Periódico não encontrado")
      | Some journal =>
          if negb (Journal.is_public journal) then
            abort 404
              (JOURNAL_UNPUBLISH w ++ gettext w (Journal.unpublish_reason journal))
          else
            page <- lift (issue_grid (Journal.url_segment journal)) ;;
            ret (LegacyPage page)
      end
    else if py_eq script_php "sci_pdf" then
      (* accesso ao pdf do artigo: *)
      let article :=
        match get_article_by_pid pid with
        | Some article => Some article
        | None => get_article_by_oap_pid pid
        end in
      match article with
      | None => abort 404 (gettext w "Artigo não encontrado")
      | Some article =>
          if negb (Article.is_public article) then
            abort 404
              (ARTICLE_UNPUBLISH w
               ++ gettext w (Article.unpublish_reason article))
          else if negb (Issue.is_public (Article.issue article)) then
            abort 404
              (ISSUE_UNPUBLISH w
               ++ gettext w (Issue.unpublish_reason (Article.issue article)))
          else if negb (Journal.is_public (Article.journal article)) then
            abort 404
              (JOURNAL_UNPUBLISH w
               ++ gettext w
                    (Journal.unpublish_reason (Article.journal article)))
          else
            content <-
              article_detail_pdf w
                (Journal.url_segment (Article.journal article))
                (Issue.url_segment (Article.issue article))
                (Article.url_segment article) "" ;;
            ret (LegacyContent content)
      end
    else raise (invalid_request pid)
  else ret (LegacyRedirect (redirect (Some "/") 302)).

Definition router_legacy_article (args : list (string * string))
    (text_or_abstract : string) : result Redirection :=
  let pid := args_get args "pid" in
  let lng := args_get args "lng" in
  if negb (PyStr.mem text_or_abstract ["fbtext"; "fbabs"] && truthy_str pid)
  then
    (* se tem pid *)
    Raise (invalid_request pid)
  else
    match get_article_by_scielo_pid pid with
    | None => Raise (HTTPException 404 (gettext w "Artigo não encontrado"))
    | Some article =>
        if negb (Issue.is_public (Article.issue article)) then
          Raise (HTTPException 404
                   (ISSUE_UNPUBLISH w
                    ++ gettext w
                         (Issue.unpublish_reason (Article.issue article))))
        else if negb (Journal.is_public (Article.journal article)) then
          Raise (HTTPException 404
                   (JOURNAL_UNPUBLISH w
                    ++ gettext w
                         (Journal.unpublish_reason (Article.journal article))))
        else
          Ok (redirect
                (Some (flask_url_for "main.article_detail"
                         [("url_seg",
                           Some (Journal.url_segment (Article.journal article)));
                          ("url_seg_issue",
                           Some (Issue.url_segment (Article.issue article)));
                          ("url_seg_article",
                           Some (Article.url_segment article));
                          ("lang_code", lng)]))
                301)
    end.

End Legacy.

(** ** Concrete requests *)

Module Sample.

(** A portal in three languages, Portuguese by default. *)
Definition LANGUAGES : dict string :=
  [("pt_BR", "Português"); ("en", "English"); ("es", "Español")].

Definition BABEL_DEFAULT_LOCALE : option string := Some "pt_BR".

(** A browser that prefers English, and one without a language the portal
    has. *)
Definition prefers_english (languages : list string) : option string :=
  if PyStr.mem "en" languages then Some "en" else None.

Definition no_preference (languages : list string) : option string := None.

Definition spanish_session : Session := [("csrf", Some "t0k3n"); ("lang", Some "es")].
Definition new_session : Session := [("csrf", Some "t0k3n")].

(** The address of a PDF in the storage of another host, and a look-up by
    file name that knows one file. *)
Definition pdf_address : string :=
  "https://minio.scielo.br/documentstore/1678-4464/a.en.pdf".

Definition one_pdf (journal_acron issue_info pdf_filename : string)
    : option string :=
  if String.eqb pdf_filename "a01.pdf" then Some pdf_address else None.

Definition bad_pdf (journal_acron issue_info pdf_filename : string)
    : option string :=
  Some "http://[bad/a01.pdf".

(** Articles that are not shown, or cannot be. *)
Definition hidden : Article.t :=
  Article.mk None [Demo.html_pt] [] "pt" ["en"] "a1" false "retracted"
    Demo.issue Demo.journal.

Definition with_bad_pdf : Article.t :=
  Demo.article None [Demo.html_pt]
    [Demo.pdf_en; Descriptor.mk "pt" "http://[bad/a.pt.pdf"].

(** Controllers that know one journal with two areas. *)
Definition get_journals (query_filter : string) : list string :=
  if String.eqb query_filter "current" then ["rsp"] else ["rsp"; "csp"].

Definition get_journal_json_data (journal : string) : string := journal.

Definition get_journals_grouped_by (field title_query query_filter lang : string)
    : list (string * list string) :=
  [(field ++ ":" ++ lang, get_journals query_filter)].

Definition get_journal_generator_for_csv (list_type title_query extension : string)
    : list string :=
  [list_type; extension].

(** A form to share an article with two people; the field of the
    recipients has spaces, a piece that is a no-break space (U+00A0) and
    one that ends with it. *)
Definition nbsp : string := PyStr.of_codes [194; 160]%nat.

Definition to_two : string :=
  " bia@example.org ;" ++ nbsp ++ ";caio@example.org" ++ nbsp ++ ";".

Definition share_form : @Form (list string) :=
  mkForm true
    [("your_email", "ana@example.org");
     ("recipients", to_two);
     ("share_url", "https://www.scielo.br/j/rsp/");
     ("subject", "Leia");
     ("comment", "")]
    [].

Definition send_email_share
    (from_email : string) (recipients : list string)
    (share_url subject comment : string) : bool * list string :=
  (true, recipients).

Definition str_of_message (message : list string) : string :=
  String.concat "," message.

(** Controllers of the legacy routes: the pid of one article. *)
Definition with_pdfs : Article.t :=
  Demo.article None []
    [Demo.pdf_en;
     Descriptor.mk "pt"
       "https://minio.scielo.br/documentstore/1678-4464/a.pt.pdf"].

Definition by_pid (pid : option string) : option Article.t :=
  if py_eq pid "S0034-89102019000100001" then Some with_pdfs else None.

Definition nothing_by_pid (pid : option string) : option Article.t := None.

Definition no_journal (pid : option string) : option Journal.t := None.
Definition no_issue (pid : option string) : option Issue.t := None.

Definition no_page (url_seg : string) : result unit :=
  Raise (HTTPException 404 "Periódico não encontrado").

Definition url_of (endpoint : string) (values : dict (option string)) : string :=
  endpoint ++ "?"
  ++ String.concat "&"
       (List.map (fun kv => fst kv ++ "=" ++ py_str (snd kv)) values).

End Sample.

(** * Properties *)

(** ** Strings *)

Module PyStrFacts.
Import PyStr.

Lemma contains_app c s t :
  contains c (s ++ t) = contains c s || contains c t.
Proof.
  induction s as [|d s IH]; simpl; [reflexivity|].
  now rewrite IH, orb_assoc.
Qed.

Lemma before_absent c s : contains c s = false -> before c s = s.
Proof.
  induction s as [|d s IH]; simpl; [reflexivity|].
  intros H. apply orb_false_iff in H as [Hd Hs].
  rewrite Hd. now rewrite IH.
Qed.

Lemma before_app c s t :
  contains c s = false -> before c (s ++ t) = s ++ before c t.
Proof.
  induction s as [|d s IH]; simpl; [reflexivity|].
  intros H. apply orb_false_iff in H as [Hd Hs].
  rewrite Hd. now rewrite IH.
Qed.

(** [url.split(c, 1)[0]] when [c in url], [url] otherwise. *)
Lemma cut_before c s :
  (if contains c s then before c s else s) = before c s.
Proof.
  destruct (contains c s) eqn:E; [reflexivity|].
  symmetry. now apply before_absent.
Qed.

Lemma filter_app p s t : filter p (s ++ t) = filter p s ++ filter p t.
Proof.
  induction s as [|d s IH]; simpl; [reflexivity|].
  destruct (p d); simpl; now rewrite IH.
Qed.

Lemma filter_all p s : all p s = true -> filter p s = s.
Proof.
  induction s as [|d s IH]; simpl; [reflexivity|].
  intros H. apply andb_true_iff in H as [Hd Hs].
  rewrite Hd. now rewrite IH.
Qed.

Lemma all_impl (p q : ascii -> bool) s :
  (forall c, p c = true -> q c = true) -> all p s = true -> all q s = true.
Proof.
  intros Hpq. induction s as [|d s IH]; simpl; [reflexivity|].
  intros H. apply andb_true_iff in H as [Hd Hs].
  now rewrite (Hpq _ Hd), IH.
Qed.

Lemma all_absent c p s :
  p c = false -> all p s = true -> contains c s = false.
Proof.
  intros Hc. induction s as [|d s IH]; simpl; [reflexivity|].
  intros H. apply andb_true_iff in H as [Hd Hs].
  rewrite (IH Hs), orb_false_r.
  destruct (Ascii.eqb c d) eqn:E; [|reflexivity].
  apply Ascii.eqb_eq in E. subst d. congruence.
Qed.

Lemma after_app c s t :
  contains c s = false -> after c (s ++ t) = after c t.
Proof.
  induction s as [|d s IH]; simpl; [reflexivity|].
  intros H. apply orb_false_iff in H as [Hd Hs].
  rewrite Hd. now apply IH.
Qed.

Lemma filter_keep p c s :
  p c = true -> filter p (String c s) = String c (filter p s).
Proof. intros H. simpl. now rewrite H. Qed.

Lemma startswith_app p s : startswith p (p ++ s) = true.
Proof.
  induction p as [|d p IH]; simpl; [reflexivity|].
  now rewrite Ascii.eqb_refl.
Qed.

Lemma startswith_char c s :
  startswith (String c "") s = true -> exists r, s = String c r.
Proof.
  destruct s as [|d r]; simpl; [discriminate|].
  rewrite andb_true_r. intros H. apply Ascii.eqb_eq in H. subst d.
  now exists r.
Qed.

Lemma append_empty s : s ++ "" = s.
Proof. induction s as [|d s IH]; simpl; congruence. Qed.

Lemma append_assoc s t u : (s ++ t) ++ u = s ++ (t ++ u).
Proof. induction s as [|d s IH]; simpl; congruence. Qed.

End PyStrFacts.

(** ** The parser on [scheme://host path tail] *)

Module UrlParseFacts.
Import PyStr PyStrFacts UrlParse.

Lemma is_host_no_delim h :
  is_host h = true -> all (fun c => negb (is_netloc_delim c)) h = true.
Proof.
  apply all_impl. intros c H. now apply andb_true_iff in H as [H _].
Qed.

Lemma is_host_safe h :
  is_host h = true -> all (fun c => negb (is_unsafe c)) h = true.
Proof.
  apply all_impl. intros c H. now apply andb_true_iff in H as [_ H].
Qed.

Lemma is_path_chars p : is_path p = true -> all is_path_char p = true.
Proof. intros H. now apply andb_true_iff in H as [_ H]. Qed.

Lemma is_path_safe p :
  is_path p = true -> all (fun c => negb (is_unsafe c)) p = true.
Proof.
  intros H. apply is_path_chars in H. revert H.
  apply all_impl. intros c H. unfold is_path_char in H.
  now apply andb_true_iff in H as [_ H].
Qed.

Lemma is_path_absent c p :
  is_path_char c = false -> is_path p = true -> contains c p = false.
Proof.
  intros Hc H. apply (all_absent c is_path_char); auto using is_path_chars.
Qed.

Lemma is_path_cases p :
  is_path p = true -> p = "" \/ exists r, p = String "/" r.
Proof.
  intros H. apply andb_true_iff in H as [H _].
  apply orb_true_iff in H as [H|H].
  - left. now apply String.eqb_eq.
  - right. now apply startswith_char.
Qed.

Lemma is_tail_cases t :
  is_tail t = true ->
  t = "" \/ (exists r, t = String "?" r) \/ (exists r, t = String "#" r).
Proof.
  intros H. unfold is_tail in H.
  apply orb_true_iff in H as [H|H]; [apply orb_true_iff in H as [H|H]|].
  - left. now apply String.eqb_eq.
  - right; left. now apply startswith_char.
  - right; right. now apply startswith_char.
Qed.

(** Removing TAB, LF and CR keeps a tail a tail. *)
Lemma is_tail_filter t :
  is_tail t = true ->
  is_tail (filter (fun c => negb (is_unsafe c)) t) = true.
Proof.
  intros H.
  destruct (is_tail_cases t H) as [->|[[r ->]|[r ->]]]; reflexivity.
Qed.

Lemma splitnetloc_app h rest :
  all (fun c => negb (is_netloc_delim c)) h = true ->
  delimited rest = true ->
  splitnetloc (h ++ rest) = (h, rest).
Proof.
  intros Hh Hr. induction h as [|c h IH]; simpl.
  - destruct rest as [|d rest]; [reflexivity|].
    simpl in Hr. simpl. now rewrite Hr.
  - simpl in Hh. apply andb_true_iff in Hh as [Hc Hh].
    apply negb_true_iff in Hc. rewrite Hc, (IH Hh). reflexivity.
Qed.

Lemma delimited_path_tail p t :
  is_path p = true -> is_tail t = true -> delimited (p ++ t) = true.
Proof.
  intros Hp Ht.
  destruct (is_path_cases p Hp) as [->|[r ->]]; [|reflexivity].
  destruct (is_tail_cases t Ht) as [->|[[r ->]|[r ->]]]; reflexivity.
Qed.

(** Cutting the fragment and then the query off [path ++ tail] leaves
    the path. *)
Lemma cut_path_tail p t :
  is_path p = true -> is_tail t = true ->
  before "?" (before "#" (p ++ t)) = p.
Proof.
  intros Hp Ht.
  assert (Hq : contains "?" p = false) by (now apply is_path_absent).
  assert (Hf : contains "#" p = false) by (now apply is_path_absent).
  rewrite (before_app _ _ _ Hf).
  destruct (is_tail_cases t Ht) as [->|[[r ->]|[r ->]]]; simpl.
  - rewrite append_empty. now apply before_absent.
  - rewrite (before_app _ _ _ Hq). simpl. apply append_empty.
  - rewrite append_empty. now apply before_absent.
Qed.

Lemma split_scheme_app s rest :
  is_scheme s = true ->
  split_scheme (s ++ String ":" rest) = (lower s, rest).
Proof.
  intros Hs. destruct s as [|c0 s0]; [discriminate|].
  set (s := String c0 s0) in *.
  unfold is_scheme in Hs. fold s in Hs.
  apply andb_true_iff in Hs as [Halpha Hall].
  assert (Hcolon : contains ":" s = false).
  { apply (all_absent _ (fun c => contains c scheme_chars)); auto. }
  unfold split_scheme.
  rewrite contains_app, Hcolon. cbn [contains orb].
  rewrite Ascii.eqb_refl. cbn [orb].
  rewrite (before_app _ _ _ Hcolon), (after_app _ _ _ Hcolon).
  cbn [before after]. rewrite Ascii.eqb_refl, append_empty.
  unfold s at 1. rewrite Halpha, Hall. reflexivity.
Qed.

Section Absolute.
Variable netloc_valid : string -> bool.
Variables s h p t : string.
Hypothesis Hs : s = "http" \/ s = "https".
Hypothesis Hh : is_host h = true.
Hypothesis Hp : is_path p = true.
Hypothesis Ht : is_tail t = true.
Hypothesis Hvalid : netloc_valid h = true.

Let safe (c : ascii) : bool := negb (is_unsafe c).

Lemma urlsplit_absolute :
  exists q f,
    urlsplit netloc_valid (s ++ "://" ++ h ++ p ++ t)
    = Ok (mkParseResult s h p "" q f).
Proof.
  set (t' := filter safe t).
  assert (Ht' : is_tail t' = true) by (now apply is_tail_filter).
  assert (Hsch : is_scheme s = true)
    by (destruct Hs as [-> | ->]; reflexivity).
  assert (Hlow : lower s = s)
    by (destruct Hs as [-> | ->]; reflexivity).
  assert (Hsafe : filter safe s = s)
    by (destruct Hs as [-> | ->]; reflexivity).
  assert (Hdrop : forall x, dropwhile is_c0_or_space (s ++ x) = s ++ x)
    by (destruct Hs as [-> | ->]; reflexivity).
  assert (Hclean : filter safe (h ++ p ++ t) = h ++ p ++ t').
  { rewrite !filter_app.
    rewrite (filter_all _ h) by (now apply is_host_safe).
    rewrite (filter_all _ p) by (now apply is_path_safe).
    reflexivity. }
  assert (Hsplit : splitnetloc (h ++ p ++ t') = (h, p ++ t')).
  { apply splitnetloc_app; [now apply is_host_no_delim|].
    now apply delimited_path_tail. }
  unfold urlsplit. fold safe.
  rewrite Hdrop, filter_app, Hsafe.
  change ("://" ++ h ++ p ++ t)
    with (String ":" (String "/" (String "/" (h ++ p ++ t)))).
  rewrite !filter_keep by reflexivity.
  rewrite Hclean, (split_scheme_app _ _ Hsch), Hlow, Hsplit, Hvalid.
  rewrite andb_false_r, !cut_before, cut_path_tail by assumption.
  eauto.
Qed.

Lemma urlparse_absolute :
  exists q f,
    UrlParse.urlparse netloc_valid (s ++ "://" ++ h ++ p ++ t)
    = Ok (mkParseResult s h p "" q f).
Proof.
  destruct urlsplit_absolute as (q & f & E).
  exists q, f. unfold UrlParse.urlparse. rewrite E. cbn [scheme path].
  rewrite (is_path_absent ";" p) by (reflexivity || assumption).
  rewrite andb_false_r. reflexivity.
Qed.
End Absolute.

End UrlParseFacts.

(** ** [fetch_data] *)

Section FetchData.
Context {Etree Soup Tag : Type} (w : World Etree Soup Tag).

Lemma in_range_test lo hi x :
  ((lo <=? x)%Z && (x <? hi)%Z = true) <-> in_range lo hi x.
Proof. unfold in_range. rewrite andb_true_iff. lia. Qed.

Lemma in_range_test_false lo hi x :
  ((lo <=? x)%Z && (x <? hi)%Z = false) <-> ~ in_range lo hi x.
Proof. unfold in_range. rewrite andb_false_iff. lia. Qed.

(** Every call makes exactly one request, with the timeout it was given. *)
Lemma fetch_data_log url timeout log :
  snd (fetch_data w url timeout log) = requested log url timeout.
Proof.
  unfold fetch_data.
  destruct (requests_get w url (timeout_of timeout)) as [r|e].
  - destruct (raise_for_status w r) as [e|]; [|reflexivity].
    destruct (isinstance e "requests.HTTPError"); [|reflexivity].
    destruct (exc_response e) as [r'|]; [|reflexivity].
    destruct (_ && _); [reflexivity|].
    destruct (_ && _); reflexivity.
  - destruct (isinstance_any e _); [reflexivity|].
    destruct (isinstance_any e _); reflexivity.
Qed.

Lemma fetch_data_ok url timeout log r :
  requests_get w url (timeout_of timeout) = Ok r ->
  raise_for_status w r = None ->
  fetch_data w url timeout log
  = (Ok (content r), requested log url timeout).
Proof. intros Hget Hrfs. unfold fetch_data. now rewrite Hget, Hrfs. Qed.

(** The outcome when the status check raises an [HTTPError] that carries
    the response [r']. *)
Lemma fetch_data_http_error url timeout log r e r' :
  requests_get w url (timeout_of timeout) = Ok r ->
  raise_for_status w r = Some e ->
  isinstance e "requests.HTTPError" = true ->
  exc_response e = Some r' ->
  fetch_data w url timeout log
  = (Raise (if (400 <=? status_code r')%Z && (status_code r' <? 500)%Z
            then NonRetryableError e
            else if (500 <=? status_code r')%Z && (status_code r' <? 600)%Z
            then RetryableError e
            else e),
     requested log url timeout).
Proof.
  intros Hget Hrfs Hinst Hresp. unfold fetch_data.
  rewrite Hget, Hrfs, Hinst, Hresp.
  destruct (_ && _); [reflexivity|].
  destruct (_ && _); reflexivity.
Qed.

(** The status check of requests raises only for a status from 400 to
    599, and the error carries the response that was checked. *)
Lemma requests_raise_for_status_spec r :
  match requests_raise_for_status r with
  | Some e =>
      isinstance e "requests.HTTPError" = true
      /\ exc_response e = Some r
      /\ in_range 400 600 (status_code r)
  | None => ~ in_range 400 600 (status_code r)
  end.
Proof.
  unfold requests_raise_for_status, in_range.
  destruct ((400 <=? status_code r)%Z && (status_code r <? 500)%Z) eqn:E4.
  - apply in_range_test in E4. unfold in_range in E4.
    repeat split; try reflexivity; lia.
  - apply in_range_test_false in E4. unfold in_range in E4.
    destruct ((500 <=? status_code r)%Z && (status_code r <? 600)%Z) eqn:E5.
    + apply in_range_test in E5. unfold in_range in E5.
      repeat split; try reflexivity; lia.
    + apply in_range_test_false in E5. unfold in_range in E5. lia.
Qed.

(** ** C1 *)

(** C1, as the code has it: [fetch_data] takes an address and a timeout
    that defaults to 2, and requests the address with that timeout.  It
    returns the body of the response unchanged when the request and the
    status check succeed.  A connection failure or a timeout raises
    [RetryableError]; a malformed address or an unsupported scheme raises
    [NonRetryableError]; an HTTP error with a status in [400,500) raises
    [NonRetryableError], one with a status in [500,600) raises
    [RetryableError], and one with any other status is raised again as it
    is.  With the status check of requests, a response with a status in
    [400,500) or [500,600) is such an HTTP error.  Every other failure is
    not classified: a failure of the request outside these five classes,
    and an error of the status check that is not an [HTTPError], leave
    [fetch_data] as they are; an [HTTPError] without a response ends in an
    [AttributeError]. *)
Theorem fetch_data_classification url timeout t log log' :
  t = timeout_of timeout ->
  log' = requested log url timeout ->
  timeout_of None = 2
  /\ (forall r,
        requests_get w url t = Ok r -> raise_for_status w r = None ->
        fetch_data w url timeout log = (Ok (content r), log'))
  /\ (forall e,
        requests_get w url t = Raise e ->
        isinstance_any e ["requests.ConnectionError"; "requests.Timeout"]
        = true ->
        fetch_data w url timeout log = (Raise (RetryableError e), log'))
  /\ (forall e,
        requests_get w url t = Raise e ->
        isinstance_any e ["requests.ConnectionError"; "requests.Timeout"]
        = false ->
        isinstance_any e ["requests.InvalidSchema"; "requests.MissingSchema";
                          "requests.InvalidURL"] = true ->
        fetch_data w url timeout log = (Raise (NonRetryableError e), log'))
  /\ (forall r e r',
        requests_get w url t = Ok r ->
        raise_for_status w r = Some e ->
        isinstance e "requests.HTTPError" = true ->
        exc_response e = Some r' ->
        (in_range 400 500 (status_code r') ->
         fetch_data w url timeout log = (Raise (NonRetryableError e), log'))
        /\ (in_range 500 600 (status_code r') ->
            fetch_data w url timeout log = (Raise (RetryableError e), log'))
        /\ (~ in_range 400 600 (status_code r') ->
            fetch_data w url timeout log = (Raise e, log')))
  /\ (forall r,
        requests_get w url t = Ok r ->
        raise_for_status w r = requests_raise_for_status r ->
        (in_range 400 500 (status_code r) ->
         exists e,
           fetch_data w url timeout log = (Raise (NonRetryableError e), log'))
        /\ (in_range 500 600 (status_code r) ->
            exists e,
              fetch_data w url timeout log = (Raise (RetryableError e), log'))
        /\ (~ in_range 400 600 (status_code r) ->
            fetch_data w url timeout log = (Ok (content r), log')))
  /\ (forall e,
        requests_get w url t = Raise e ->
        isinstance_any e ["requests.ConnectionError"; "requests.Timeout"]
        = false ->
        isinstance_any e ["requests.InvalidSchema"; "requests.MissingSchema";
                          "requests.InvalidURL"] = false ->
        fetch_data w url timeout log = (Raise e, log'))
  /\ (forall r e,
        requests_get w url t = Ok r ->
        raise_for_status w r = Some e ->
        isinstance e "requests.HTTPError" = false ->
        fetch_data w url timeout log = (Raise e, log'))
  /\ (forall r e,
        requests_get w url t = Ok r ->
        raise_for_status w r = Some e ->
        isinstance e "requests.HTTPError" = true ->
        exc_response e = None ->
        fetch_data w url timeout log
        = (Raise (AttributeError
                    "'NoneType' object has no attribute 'status_code'"),
           log'))
  /\ (forall q, timeout_of (Some q) = q).
Proof.
  intros -> ->.
  split; [reflexivity|].
  split; [intros r Hget Hrfs; now apply fetch_data_ok|].
  split.
  { intros e Hget Hc. unfold fetch_data. now rewrite Hget, Hc. }
  split.
  { intros e Hget Hc Hi. unfold fetch_data. now rewrite Hget, Hc, Hi. }
  split; [|split; [|split; [|split; [|split]]]].
  - intros r e r' Hget Hrfs Hinst Hresp.
    rewrite (fetch_data_http_error _ _ _ _ _ _ Hget Hrfs Hinst Hresp).
    unfold in_range.
    destruct ((400 <=? status_code r')%Z && (status_code r' <? 500)%Z) eqn:E4;
      [apply in_range_test in E4 | apply in_range_test_false in E4];
      (destruct ((500 <=? status_code r')%Z && (status_code r' <? 600)%Z)
         eqn:E5;
       [apply in_range_test in E5 | apply in_range_test_false in E5]);
      unfold in_range in *; repeat split; intros; try reflexivity; lia.
  - intros r Hget Hrfs.
    pose proof (requests_raise_for_status_spec r) as Hspec.
    destruct (requests_raise_for_status r) as [e|] eqn:E.
    + destruct Hspec as (Hinst & Hresp & Hrange).
      rewrite (fetch_data_http_error _ _ _ _ _ _ Hget Hrfs Hinst Hresp).
      unfold in_range in *.
      destruct ((400 <=? status_code r)%Z && (status_code r <? 500)%Z) eqn:E4;
        [apply in_range_test in E4 | apply in_range_test_false in E4];
        (destruct ((500 <=? status_code r)%Z && (status_code r <? 600)%Z)
           eqn:E5;
         [apply in_range_test in E5 | apply in_range_test_false in E5]);
        unfold in_range in *; repeat split; intros; eauto; lia.
    + rewrite (fetch_data_ok _ _ _ _ Hget Hrfs).
      unfold in_range in *. repeat split; intros; try reflexivity; lia.
  - intros e Hget Hc Hi. unfold fetch_data. now rewrite Hget, Hc, Hi.
  - intros r e Hget Hrfs Hinst. unfold fetch_data.
    now rewrite Hget, Hrfs, Hinst.
  - intros r e Hget Hrfs Hinst Hresp. unfold fetch_data.
    now rewrite Hget, Hrfs, Hinst, Hresp.
  - reflexivity.
Qed.

(** ** C10 *)

(** C10: with the status check of requests, every HTTP error that the
    check raises carries a status in [400,600), so [fetch_data] turns it
    into [RetryableError] or [NonRetryableError]: once the request has
    returned a response, no [HTTPError] leaves [fetch_data], and the branch
    that raises it again is never taken. *)
Theorem http_error_always_classified url timeout log :
  (forall r, raise_for_status w r = requests_raise_for_status r) ->
  (forall r e,
     raise_for_status w r = Some e ->
     isinstance e "requests.HTTPError" = true
     /\ exc_response e = Some r
     /\ in_range 400 600 (status_code r))
  /\ (forall r,
        requests_get w url (timeout_of timeout) = Ok r ->
        match fst (fetch_data w url timeout log) with
        | Ok b => b = content r /\ ~ in_range 400 600 (status_code r)
        | Raise (NonRetryableError e) =>
            raise_for_status w r = Some e /\ in_range 400 500 (status_code r)
        | Raise (RetryableError e) =>
            raise_for_status w r = Some e /\ in_range 500 600 (status_code r)
        | Raise _ => False
        end).
Proof.
  intros Hlib. split.
  - intros r e He. rewrite Hlib in He.
    pose proof (requests_raise_for_status_spec r) as Hspec.
    now rewrite He in Hspec.
  - intros r Hget.
    pose proof (requests_raise_for_status_spec r) as Hspec.
    destruct (requests_raise_for_status r) as [e|] eqn:E.
    + destruct Hspec as (Hinst & Hresp & Hrange).
      assert (Hrfs : raise_for_status w r = Some e) by (now rewrite Hlib).
      rewrite (fetch_data_http_error _ _ _ _ _ _ Hget Hrfs Hinst Hresp).
      cbn [fst]. unfold in_range in *.
      destruct ((400 <=? status_code r)%Z && (status_code r <? 500)%Z) eqn:E4;
        [apply in_range_test in E4 | apply in_range_test_false in E4];
        unfold in_range in E4; [split; [assumption | lia]|].
      destruct ((500 <=? status_code r)%Z && (status_code r <? 600)%Z) eqn:E5;
        [apply in_range_test in E5 | apply in_range_test_false in E5];
        unfold in_range in E5; [split; [assumption | lia]|].
      lia.
    + assert (Hrfs : raise_for_status w r = None) by (now rewrite Hlib).
      rewrite (fetch_data_ok _ _ _ _ Hget Hrfs). cbn [fst].
      split; [reflexivity | assumption].
Qed.

End FetchData.

Lemma fetch_data_classification_witness :
  fetch_data Demo.online Demo.address None []
  = (Ok Demo.body, [(Demo.address, 2)])
  /\ fetch_data Demo.timed_out Demo.address None []
     = (Raise (RetryableError Demo.ConnectTimeout), [(Demo.address, 2)])
  /\ fetch_data Demo.malformed Demo.address None []
     = (Raise (NonRetryableError Demo.MissingSchema), [(Demo.address, 2)])
  /\ (exists e,
        fetch_data Demo.absent Demo.address None []
        = (Raise (NonRetryableError e), [(Demo.address, 2)]))
  /\ (exists e,
        fetch_data Demo.down Demo.address None []
        = (Raise (RetryableError e), [(Demo.address, 2)]))
  /\ fetch_data Demo.odd Demo.address None []
     = (Raise (HTTPError "Error" (mkResponse 600 Demo.body)),
        [(Demo.address, 2)])
  /\ fetch_data (Demo.redirecting Demo.with_xml) Demo.address None []
     = (Raise Demo.TooManyRedirects, [(Demo.address, 2)]).
Proof.
  pose proof (fun w : World Demo.Etree Demo.Soup Demo.Tag =>
    fetch_data_classification w Demo.address None 2 [] [(Demo.address, 2)]
      eq_refl eq_refl) as H.
  split.
  { apply (proj1 (proj2 (H Demo.online)) (mkResponse 200 Demo.body));
      reflexivity. }
  split.
  { apply (proj1 (proj2 (proj2 (H Demo.timed_out)))); reflexivity. }
  split.
  { apply (proj1 (proj2 (proj2 (proj2 (H Demo.malformed))))); reflexivity. }
  split.
  { apply (proj1 (proj2 (proj2 (proj2 (proj2 (proj2 (H Demo.absent))))))
             (mkResponse 404 Demo.body) eq_refl eq_refl).
    unfold in_range. cbn. lia. }
  split.
  { apply (proj1 (proj2 (proj2 (proj2 (proj2 (proj2 (H Demo.down))))))
             (mkResponse 503 Demo.body) eq_refl eq_refl).
    unfold in_range. cbn. lia. }
  split.
  { apply (proj1 (proj2 (proj2 (proj2 (proj2 (H Demo.odd)))))
             (mkResponse 600 Demo.body) _ (mkResponse 600 Demo.body)
             eq_refl eq_refl eq_refl eq_refl).
    unfold in_range. cbn. lia. }
  apply (proj1 (proj2 (proj2 (proj2 (proj2 (proj2 (proj2
           (H (Demo.redirecting Demo.with_xml)))))))));
    reflexivity.
Defined.

(** A failure of the request outside the five classes is not classified:
    too many redirects leave [fetch_data] as the exception of requests,
    which is neither of the two classes of errors and carries no response,
    hence no status. *)
Lemma fetch_data_unclassified_failure :
  fetch_data (Demo.redirecting Demo.with_xml) Demo.address None []
  = (Raise Demo.TooManyRedirects, [(Demo.address, 2)])
  /\ isinstance_any Demo.TooManyRedirects
       ["RetryableError"; "NonRetryableError"] = false
  /\ isinstance Demo.TooManyRedirects "requests.HTTPError" = false
  /\ exc_response Demo.TooManyRedirects = None.
Proof. repeat split; vm_compute; reflexivity. Qed.

Lemma http_error_always_classified_witness :
  (forall r, raise_for_status Demo.down r = requests_raise_for_status r)
  /\ fst (fetch_data Demo.down Demo.address None [])
     = Raise (RetryableError (HTTPError "Server Error"
                                (mkResponse 503 Demo.body))).
Proof.
  split; [reflexivity|].
  pose proof (proj2 (http_error_always_classified Demo.down Demo.address
                       None [] (fun r => eq_refl))
                (mkResponse 503 Demo.body) eq_refl) as H.
  destruct (fst (fetch_data Demo.down Demo.address None []))
    as [b | [ | e | e | ]] eqn:E; try contradiction.
  - destruct H as [_ H]. unfold in_range in H. cbn in H. lia.
  - destruct H as [H _]. cbn in H. now inversion H.
  - destruct H as [_ H]. unfold in_range in H. cbn in H. lia.
Defined.

(** ** [normalize_ssm_url] *)

Section Normalize.
Context {Etree Soup Tag : Type} (w : World Etree Soup Tag).

Lemma normalize_relative A :
  PyStr.startswith "http" A = false ->
  normalize_ssm_url w A = Ok (SSM_BASE_URI w ++ A).
Proof. intros H. unfold normalize_ssm_url. now rewrite H. Qed.

Lemma normalize_parsed A parsed :
  PyStr.startswith "http" A = true ->
  urlparse w A = Ok parsed ->
  normalize_ssm_url w A = Ok (SSM_BASE_URI w ++ UrlParse.path parsed).
Proof. intros H E. unfold normalize_ssm_url. now rewrite H, E. Qed.

(** C2: an address that does not begin with "http" is appended to the
    base URI as it is.  An address that begins with "http" is parsed, and
    its path is appended to the base URI: for [scheme://host path tail]
    with scheme http or https, the host and the tail are dropped and the
    result is the base URI followed by the path. *)
Theorem normalize_ssm_url_spec A B :
  B = SSM_BASE_URI w ->
  (PyStr.startswith "http" A = false -> normalize_ssm_url w A = Ok (B ++ A))
  /\ (forall parsed,
        PyStr.startswith "http" A = true ->
        urlparse w A = Ok parsed ->
        normalize_ssm_url w A = Ok (B ++ UrlParse.path parsed))
  /\ (forall s H P T,
        s = "http" \/ s = "https" ->
        UrlParse.is_host H = true ->
        UrlParse.is_path P = true ->
        UrlParse.is_tail T = true ->
        netloc_valid w H = true ->
        A = s ++ "://" ++ H ++ P ++ T ->
        PyStr.startswith "http" A = true
        /\ (exists parsed,
              urlparse w A = Ok parsed
              /\ UrlParse.netloc parsed = H
              /\ UrlParse.path parsed = P)
        /\ normalize_ssm_url w A = Ok (B ++ P)).
Proof.
  intros ->. split; [apply normalize_relative|].
  split; [intros parsed; apply normalize_parsed|].
  intros s H P T Hs HH HP HT Hvalid ->.
  assert (Hstart : PyStr.startswith "http" (s ++ "://" ++ H ++ P ++ T) = true)
    by (destruct Hs as [-> | ->]; reflexivity).
  destruct (UrlParseFacts.urlparse_absolute (netloc_valid w) s H P T
              Hs HH HP HT Hvalid) as (q & f & E).
  split; [assumption|]. split.
  - eexists. split; [exact E|]. split; reflexivity.
  - now rewrite (normalize_parsed _ _ Hstart E).
Qed.

End Normalize.

Lemma normalize_ssm_url_spec_witness :
  normalize_ssm_url Demo.online "/documentstore/1678-4464/a.xml"
  = Ok "http://ssm:8000/documentstore/1678-4464/a.xml"
  /\ normalize_ssm_url Demo.online
       "https://minio.scielo.br/documentstore/1678-4464/a.xml?lang=en#top"
     = Ok "http://ssm:8000/documentstore/1678-4464/a.xml".
Proof.
  split.
  - apply (proj1 (normalize_ssm_url_spec Demo.online
                    "/documentstore/1678-4464/a.xml" "http://ssm:8000"
                    eq_refl)).
    reflexivity.
  - apply (proj2 (proj2 (normalize_ssm_url_spec Demo.online
             "https://minio.scielo.br/documentstore/1678-4464/a.xml?lang=en#top"
             "http://ssm:8000" eq_refl))
             "https" "minio.scielo.br" "/documentstore/1678-4464/a.xml"
             "?lang=en#top");
      solve [reflexivity | right; reflexivity].
Defined.

(** C9: [normalize_ssm_url] is not idempotent.  With a base URI that has a
    path, normalising a normalised address adds the path of the base URI a
    second time. *)
Theorem normalize_ssm_url_not_idempotent :
  exists (w : World Demo.Etree Demo.Soup Demo.Tag) (A once twice : string),
    normalize_ssm_url w A = Ok once
    /\ normalize_ssm_url w once = Ok twice
    /\ twice <> once.
Proof.
  exists (Demo.world "https://ssm.scielo.org/media" true (Demo.answers 200)
            requests_raise_for_status Ok None).
  exists "/assets/a.xml".
  exists "https://ssm.scielo.org/media/assets/a.xml".
  exists "https://ssm.scielo.org/media/media/assets/a.xml".
  split; [reflexivity|]. split; [vm_compute; reflexivity|]. discriminate.
Qed.

(** ** The monad *)

Section MonadFacts.
Context {A B : Type}.

Lemma bind_ok (m : M A) (k : A -> M B) log a log' :
  m log = (Ok a, log') -> bind m k log = k a log'.
Proof. intros H. unfold bind. now rewrite H. Qed.

Lemma bind_raise (m : M A) (k : A -> M B) log e log' :
  m log = (Raise e, log') -> bind m k log = (Raise e, log').
Proof. intros H. unfold bind. now rewrite H. Qed.

Lemma try_except_ok (m : M A) classes handler log a log' :
  m log = (Ok a, log') -> try_except m classes handler log = (Ok a, log').
Proof. intros H. unfold try_except. now rewrite H. Qed.

Lemma try_except_caught (m : M A) classes handler log e log' :
  m log = (Raise e, log') ->
  isinstance_any e classes = true ->
  try_except m classes handler log = handler e log'.
Proof. intros H Hc. unfold try_except. now rewrite H, Hc. Qed.

Lemma try_except_missed (m : M A) classes handler log e log' :
  m log = (Raise e, log') ->
  isinstance_any e classes = false ->
  try_except m classes handler log = (Raise e, log').
Proof. intros H Hc. unfold try_except. now rewrite H, Hc. Qed.
End MonadFacts.

(** Splits the run of [fetch_data] into its result and its calls. *)
Ltac run_fetch w u log :=
  let res := fresh "res" in
  let log' := fresh "log'" in
  let E := fresh "Efetch" in
  let L := fresh "Hlog" in
  pose proof (fetch_data_log w u None log) as L;
  destruct (fetch_data w u None log) as [res log'] eqn:E;
  cbn [snd] in L; subst log'.

(** ** The renderers *)

Section Render.
Context {Etree Soup Tag : Type} (w : World Etree Soup Tag).

Lemma map_result_raise {X Y} (f : X -> result Y) l e :
  map_result f l = Raise e -> exists x, In x l /\ f x = Raise e.
Proof.
  induction l as [|x l IH]; simpl; [discriminate|].
  destruct (f x) as [y|e'] eqn:Ex.
  - destruct (map_result f l) as [ys|e'']; [discriminate|].
    intros H. injection H as ->.
    destruct (IH eq_refl) as (x' & Hin & Hx'). eauto.
  - intros H. injection H as ->. eauto.
Qed.

Lemma urlparse_raise u e :
  urlparse w u = Raise e -> e = UrlParse.invalid_netloc.
Proof.
  unfold urlparse, UrlParse.urlparse, UrlParse.urlsplit.
  destruct (UrlParse.split_scheme _) as [sch rest].
  destruct (match rest with
            | String "/" (String "/" r) => UrlParse.splitnetloc r
            | _ => ("", rest)
            end) as [nl rest'].
  destruct (_ && _).
  - intros H. now injection H.
  - cbn [UrlParse.scheme UrlParse.path].
    destruct (_ && _); [destruct (UrlParse.splitparams _)|]; discriminate.
Qed.

Lemma normalize_raise u e :
  normalize_ssm_url w u = Raise e -> e = UrlParse.invalid_netloc.
Proof.
  unfold normalize_ssm_url.
  destruct (PyStr.startswith "http" u); [|discriminate].
  destruct (urlparse w u) as [parsed|e'] eqn:E; [discriminate|].
  intros H. injection H as <-. now apply urlparse_raise in E.
Qed.

(** The address that [render_html_from_xml] requests. *)
Lemma render_html_from_xml_log article lang log xml_url u :
  Article.xml article = Some xml_url ->
  (if SSM_XML_URL_REWRITE w then normalize_ssm_url w xml_url
   else Ok xml_url) = Ok u ->
  snd (render_html_from_xml w article lang log) = requested log u None.
Proof.
  intros Hxml Hu. unfold render_html_from_xml. rewrite Hxml.
  assert (Hfetch :
    (if SSM_XML_URL_REWRITE w
     then u0 <- lift (normalize_ssm_url w xml_url) ;; fetch_data w u0 None
     else fetch_data w xml_url None) log = fetch_data w u None log).
  { destruct (SSM_XML_URL_REWRITE w).
    - unfold bind, lift. now rewrite Hu.
    - now injection Hu as ->. }
  unfold bind at 1. rewrite Hfetch.
  run_fetch w u log. destruct res as [b|e]; [|reflexivity].
  unfold bind, lift, ret.
  destruct (etree_parse w b) as [doc|e]; [|reflexivity].
  destruct (HTMLGenerator_parse w doc) as [gen|e]; [|reflexivity].
  destruct (generate gen lang) as [tree|e]; reflexivity.
Qed.

(** The result of [render_html_from_xml] when it succeeds. *)
Lemma render_html_from_xml_inv article lang log xml_url u out :
  Article.xml article = Some xml_url ->
  (if SSM_XML_URL_REWRITE w then normalize_ssm_url w xml_url
   else Ok xml_url) = Ok u ->
  fst (render_html_from_xml w article lang log) = Ok out ->
  exists b doc gen tree,
    fst (fetch_data w u None log) = Ok b
    /\ etree_parse w b = Ok doc
    /\ HTMLGenerator_parse w doc = Ok gen
    /\ generate gen lang = Ok tree
    /\ out = (found_tag (soup_find w (BeautifulSoup w (etree_tostring w tree))
                           "div" "standalonearticle"),
              generator_languages gen).
Proof.
  intros Hxml Hu. unfold render_html_from_xml. rewrite Hxml.
  assert (Hfetch :
    (if SSM_XML_URL_REWRITE w
     then u0 <- lift (normalize_ssm_url w xml_url) ;; fetch_data w u0 None
     else fetch_data w xml_url None) log = fetch_data w u None log).
  { destruct (SSM_XML_URL_REWRITE w).
    - unfold bind, lift. now rewrite Hu.
    - now injection Hu as ->. }
  unfold bind at 1. rewrite Hfetch.
  destruct (fetch_data w u None log) as [[b|e] log'] eqn:E;
    [|discriminate].
  unfold bind, lift, ret.
  destruct (etree_parse w b) as [doc|e] eqn:Edoc; [|discriminate].
  destruct (HTMLGenerator_parse w doc) as [gen|e] eqn:Egen; [|discriminate].
  destruct (generate gen lang) as [tree|e] eqn:Egenerate; [|discriminate].
  cbn [fst]. intros H. injection H as <-.
  exists b, doc, gen, tree. repeat split; assumption.
Qed.

(** C6, as the code has it: [render_html_from_xml] requests the address of
    the XML, normalised when [SSM_XML_URL_REWRITE] is set and as it is
    stored otherwise.  It parses the body, runs the generator for the
    language, and returns the element with id "standalonearticle" together
    with the languages of the generator, which are the same whichever
    language was asked for. *)
Theorem render_html_from_xml_spec article log xml_url u :
  Article.xml article = Some xml_url ->
  (if SSM_XML_URL_REWRITE w then normalize_ssm_url w xml_url
   else Ok xml_url) = Ok u ->
  (forall lang,
     snd (render_html_from_xml w article lang log) = requested log u None)
  /\ (forall lang r doc gen tree,
        requests_get w u 2 = Ok r ->
        raise_for_status w r = None ->
        etree_parse w (content r) = Ok doc ->
        HTMLGenerator_parse w doc = Ok gen ->
        generate gen lang = Ok tree ->
        fst (render_html_from_xml w article lang log)
        = Ok (found_tag
                (soup_find w (BeautifulSoup w (etree_tostring w tree))
                   "div" "standalonearticle"),
              generator_languages gen))
  /\ (forall lang1 lang2 out1 out2,
        fst (render_html_from_xml w article lang1 log) = Ok out1 ->
        fst (render_html_from_xml w article lang2 log) = Ok out2 ->
        snd out1 = snd out2).
Proof.
  intros Hxml Hu. split; [|split].
  - intros lang. now apply render_html_from_xml_log with xml_url.
  - intros lang r doc gen tree Hget Hrfs Hdoc Hgen Htree.
    pose proof (fetch_data_ok w u None log r Hget Hrfs) as Hfetch.
    unfold render_html_from_xml. rewrite Hxml.
    assert (Hfirst :
      (if SSM_XML_URL_REWRITE w
       then u0 <- lift (normalize_ssm_url w xml_url) ;; fetch_data w u0 None
       else fetch_data w xml_url None) log = fetch_data w u None log).
    { destruct (SSM_XML_URL_REWRITE w).
      - unfold bind, lift. now rewrite Hu.
      - now injection Hu as ->. }
    unfold bind at 1. rewrite Hfirst, Hfetch.
    unfold bind, lift, ret. now rewrite Hdoc, Hgen, Htree.
  - intros lang1 lang2 out1 out2 H1 H2.
    destruct (render_html_from_xml_inv _ _ _ _ _ _ Hxml Hu H1)
      as (b1 & doc1 & gen1 & tree1 & Hb1 & Hd1 & Hg1 & _ & ->).
    destruct (render_html_from_xml_inv _ _ _ _ _ _ Hxml Hu H2)
      as (b2 & doc2 & gen2 & tree2 & Hb2 & Hd2 & Hg2 & _ & ->).
    rewrite Hb1 in Hb2. injection Hb2 as <-.
    rewrite Hd1 in Hd2. injection Hd2 as <-.
    rewrite Hg1 in Hg2. injection Hg2 as <-.
    reflexivity.
Qed.

(** C7: an article with no XML address (none, or an empty one) and no HTML
    descriptors is rendered as an empty string and an empty list of
    languages; nothing is raised and nothing is requested. *)
Theorem render_html_no_representation article lang log :
  Article.xml article = None \/ Article.xml article = Some "" ->
  Article.htmls article = [] ->
  render_html w article lang log = (Ok (FragStr "", []), log).
Proof.
  intros Hxml Hhtmls. unfold render_html.
  rewrite Hhtmls. destruct Hxml as [-> | ->]; reflexivity.
Qed.

(** *** The pre-rendered HTML *)

Lemma matching_first lang pre d post :
  (forall x, In x pre -> Descriptor.lang x <> lang) ->
  Descriptor.lang d = lang ->
  matching lang (pre ++ d :: post) = d :: matching lang post.
Proof.
  intros Hpre Hd. unfold matching. induction pre as [|x pre IH]; simpl.
  - now rewrite (proj2 (String.eqb_eq _ _) Hd).
  - destruct (String.eqb (Descriptor.lang x) lang) eqn:E.
    + apply String.eqb_eq in E. exfalso. apply (Hpre x); simpl; auto.
    + apply IH. intros y Hy. apply Hpre. simpl; auto.
Qed.

Lemma matching_none lang l :
  (forall x, In x l -> Descriptor.lang x <> lang) -> matching lang l = [].
Proof.
  intros H. unfold matching. induction l as [|x l IH]; simpl; [reflexivity|].
  destruct (String.eqb (Descriptor.lang x) lang) eqn:E.
  - apply String.eqb_eq in E. exfalso. apply (H x); simpl; auto.
  - apply IH. intros y Hy. apply H. simpl; auto.
Qed.

Lemma matching_some lang l d0 :
  In d0 l -> Descriptor.lang d0 = lang ->
  exists pre d post,
    l = (pre ++ d :: post)%list
    /\ (forall x, In x pre -> Descriptor.lang x <> lang)
    /\ Descriptor.lang d = lang.
Proof.
  induction l as [|x l IH]; simpl; [contradiction|].
  intros Hin Hd0.
  destruct (String.eqb (Descriptor.lang x) lang) eqn:E.
  - apply String.eqb_eq in E. exists [], x, l. simpl. auto.
  - apply String.eqb_neq in E. destruct Hin as [-> | Hin]; [contradiction|].
    destruct (IH Hin Hd0) as (pre & d & post & -> & Hpre & Hd).
    exists (x :: pre), d, post. simpl. repeat split; auto.
    intros y [<- | Hy]; auto.
Qed.

(** [render_html_from_html] on the first descriptor of the language. *)
Lemma render_html_from_html_first article lang log d rest u :
  matching lang (Article.htmls article) = d :: rest ->
  normalize_ssm_url w (Descriptor.url d) = Ok u ->
  render_html_from_html w article lang log
  = match fetch_data w u None log with
    | (Ok b, log') =>
        match decode_utf8 w b with
        | Some text =>
            (Ok (FragStr text,
                 List.map Descriptor.lang (Article.htmls article)), log')
        | None => (Raise UnicodeDecodeError, log')
        end
    | (Raise e, log') => (Raise e, log')
    end.
Proof.
  intros Hm Hu. unfold render_html_from_html.
  unfold matching in Hm. rewrite Hm.
  unfold bind at 1. unfold lift at 1. rewrite Hu.
  unfold bind. destruct (fetch_data w u None log) as [[b|e] log'];
    [|reflexivity].
  destruct (decode_utf8 w b); reflexivity.
Qed.

Lemma render_html_from_html_none article lang log :
  matching lang (Article.htmls article) = [] ->
  render_html_from_html w article lang log
  = (Raise (ValueError "Artigo não encontrado"), log).
Proof.
  intros Hm. unfold render_html_from_html.
  unfold matching in Hm. now rewrite Hm.
Qed.

(** *** [article_detail] after its checks *)

Lemma published_split article :
  published article = true ->
  Article.is_public article = true
  /\ Issue.is_public (Article.issue article) = true
  /\ Journal.is_public (Article.journal article) = true.
Proof.
  unfold published. intros H.
  apply andb_true_iff in H as [H H3]. apply andb_true_iff in H as [H1 H2].
  auto.
Qed.

Lemma article_detail_outcome a b c lc log issue article :
  finds w a b c issue article ->
  PyStr.mem (or_original lc article) (valid_languages article) = true ->
  published article = true ->
  article_detail w a b c lc log
  = match map_result (urlparse w)
            (List.map Descriptor.url (Article.pdfs article)) with
    | Raise _ => (Raise (pdf_not_found w), log)
    | Ok parsed =>
        match render_html w article (or_original lc article) log with
        | (Ok (html, text_languages), log') =>
            (Ok (RenderTemplate "article/detail.html"
                   (mkContext Tag article issue html (Article.pdfs article)
                      (List.map UrlParse.path parsed)
                      (or_original lc article) text_languages)),
             log')
        | (Raise e, log') =>
            if isinstance_any e
                 ["ValueError"; "NonRetryableError"; "RetryableError"]
            then (Raise (html_not_found w), log')
            else (Raise e, log')
        end
    end.
Proof.
  intros [Hissue Harticle] Hvalid Hpub.
  destruct (published_split _ Hpub) as (Ha & Hi & Hj).
  unfold article_detail. rewrite Hissue. cbv zeta. rewrite Harticle.
  rewrite Hvalid, Ha, Hi, Hj. cbn [negb].
  assert (Hblock :
    (if truthy_list (Article.pdfs article)
     then
       try_except
         (if negb (truthy_list (List.map Descriptor.url (Article.pdfs article)))
          then abort 404 (gettext w "PDF do Artigo não encontrado")
          else
            pdf_urls_parsed <-
              lift (map_result (urlparse w)
                      (List.map Descriptor.url (Article.pdfs article))) ;;
            ret (List.map UrlParse.path pdf_urls_parsed))
         ["Exception"]
         (fun _ => abort 404 (gettext w "PDF do Artigo não encontrado"))
     else ret []) log
    = match map_result (urlparse w)
              (List.map Descriptor.url (Article.pdfs article)) with
      | Raise _ => (Raise (pdf_not_found w), log)
      | Ok parsed => (Ok (List.map UrlParse.path parsed), log)
      end).
  { destruct (Article.pdfs article) as [|pdf pdfs]; [reflexivity|].
    cbn [truthy_list List.map negb].
    unfold try_except, bind, lift, ret.
    destruct (map_result (urlparse w) _) as [parsed|e] eqn:E;
      [reflexivity|].
    apply map_result_raise in E as (x & _ & E).
    apply urlparse_raise in E. subst e. reflexivity. }
  unfold bind at 1. rewrite Hblock.
  destruct (map_result (urlparse w) _) as [parsed|e]; [|reflexivity].
  unfold bind, try_except, ret, abort, raise.
  destruct (render_html w article (or_original lc article) log)
    as [[[html text_languages]|e] log']; [reflexivity|].
  destruct (isinstance_any e _); reflexivity.
Qed.

(** A language that the article does not have is answered with a
    redirection to the original language; nothing is rendered. *)
Lemma article_detail_redirect a b c lc log issue article :
  finds w a b c issue article ->
  PyStr.mem (or_original lc article) (valid_languages article) = false ->
  article_detail w a b c lc log
  = (Ok (Redirect
           (url_for "main.article_detail"
              (Journal.url_segment (Article.journal article))
              (Issue.url_segment (Article.issue article))
              (Article.url_segment article)
              (Article.original_language article))
           301),
     log).
Proof.
  intros [Hissue Harticle] Hvalid.
  unfold article_detail. rewrite Hissue. cbv zeta. rewrite Harticle.
  now rewrite Hvalid.
Qed.

Lemma mem_In x l : PyStr.mem x l = true <-> In x l.
Proof.
  unfold PyStr.mem. rewrite existsb_exists. split.
  - intros (y & Hy & E). apply String.eqb_eq in E. now subst.
  - intros H. exists x. split; [assumption | apply String.eqb_refl].
Qed.

End Render.

(** ** The views *)

Section ViewFacts.
Context {Etree Soup Tag : Type} (w : World Etree Soup Tag).

Lemma matching_head lang l d rest :
  matching lang l = d :: rest -> Descriptor.lang d = lang /\ In d l.
Proof.
  intros H.
  assert (Hin : In d (matching lang l)) by (rewrite H; simpl; auto).
  unfold matching in Hin. apply filter_In in Hin as [Hin E].
  apply String.eqb_eq in E. auto.
Qed.

(** An article that is not public, or whose issue or journal is not, is
    answered with 404 before anything is rendered. *)
Lemma article_detail_unpublished a b c lc log issue article :
  finds w a b c issue article ->
  PyStr.mem (or_original lc article) (valid_languages article) = true ->
  published article = false ->
  exists msg, article_detail w a b c lc log = (Raise (HTTPException 404 msg), log).
Proof.
  intros [Hissue Harticle] Hvalid Hpub.
  unfold article_detail. rewrite Hissue. cbv zeta. rewrite Harticle.
  rewrite Hvalid. cbn [negb]. unfold published in Hpub.
  destruct (Article.is_public article); [|eexists; reflexivity].
  destruct (Issue.is_public (Article.issue article)); [|eexists; reflexivity].
  destruct (Journal.is_public (Article.journal article)); [discriminate|].
  eexists; reflexivity.
Qed.

Lemma article_detail_pdf_unpublished a b c lc log issue article :
  finds_pdf w a b c issue article ->
  PyStr.mem (or_original lc article) (valid_languages article) = true ->
  published article = false ->
  exists msg,
    article_detail_pdf w a b c lc log = (Raise (HTTPException 404 msg), log).
Proof.
  intros [Hissue Harticle] Hvalid Hpub.
  unfold article_detail_pdf. rewrite Hissue, Harticle. cbv zeta.
  rewrite Hvalid. cbn [negb]. unfold published in Hpub.
  destruct (Article.is_public article); [|eexists; reflexivity].
  destruct (Issue.is_public (Article.issue article)); [|eexists; reflexivity].
  destruct (Journal.is_public (Article.journal article)); [discriminate|].
  eexists; reflexivity.
Qed.

Lemma article_detail_pdf_redirect a b c lc log issue article :
  finds_pdf w a b c issue article ->
  PyStr.mem (or_original lc article) (valid_languages article) = false ->
  article_detail_pdf w a b c lc log
  = (Ok (Redirect
           (url_for "main.article_detail_pdf"
              (Journal.url_segment (Article.journal article))
              (Issue.url_segment (Article.issue article))
              (Article.url_segment article)
              (Article.original_language article))
           301),
     log).
Proof.
  intros [Hissue Harticle] Hvalid.
  unfold article_detail_pdf. rewrite Hissue, Harticle. cbv zeta.
  now rewrite Hvalid.
Qed.

(** [article_detail_pdf] after its checks: it serves the PDF of the
    language when there is exactly one. *)
Lemma article_detail_pdf_outcome a b c lc log issue article :
  finds_pdf w a b c issue article ->
  PyStr.mem (or_original lc article) (valid_languages article) = true ->
  published article = true ->
  article_detail_pdf w a b c lc log
  = match matching (or_original lc article) (Article.pdfs article) with
    | [pdf] =>
        match urlparse w (Descriptor.url pdf) with
        | Raise _ => (Raise (pdf_not_found w), log)
        | Ok parsed =>
            if String.eqb (UrlParse.path parsed) ""
            then
              (Raise (HTTPException 404
                        (gettext w
                           "Recurso do Artigo não encontrado. Caminho inválido!")),
               log)
            else get_content_from_ssm w (UrlParse.path parsed) log
        end
    | _ => (Raise (pdf_not_found w), log)
    end.
Proof.
  intros [Hissue Harticle] Hvalid Hpub.
  destruct (published_split _ Hpub) as (Ha & Hi & Hj).
  unfold article_detail_pdf. rewrite Hissue, Harticle. cbv zeta.
  rewrite Hvalid, Ha, Hi, Hj. cbn [negb]. unfold matching.
  destruct (Article.pdfs article) as [|p ps] eqn:Epdfs; [reflexivity|].
  cbn [truthy_list]. unfold bind at 1.
  destruct (List.filter _ (p :: ps)) as [|d [|d' rest]].
  - reflexivity.
  - cbn [List.length Nat.eqb negb]. unfold try_except, bind, lift, ret.
    destruct (urlparse w (Descriptor.url d)) as [parsed|e] eqn:E.
    + destruct (String.eqb (UrlParse.path parsed) ""); reflexivity.
    + apply urlparse_raise in E. subst e. reflexivity.
  - reflexivity.
Qed.

(** [get_content_from_ssm] requests the stripped address once. *)
Lemma get_content_from_ssm_log path log :
  snd (get_content_from_ssm w path log)
  = requested log (PyStr.strip (SSM_BASE_URI w ++ path)) None.
Proof.
  unfold get_content_from_ssm, bind, try_except.
  run_fetch w (PyStr.strip (SSM_BASE_URI w ++ path)) log.
  destruct res as [body|e]; [reflexivity|].
  destruct (isinstance_any e _); reflexivity.
Qed.

End ViewFacts.

(** ** Selection, language and failures *)

Section Selection.
Context {Etree Soup Tag : Type} (w : World Etree Soup Tag).

Lemma render_html_htmls article lang log :
  truthy_str (Article.xml article) = false ->
  Article.htmls article <> [] ->
  render_html w article lang log = render_html_from_html w article lang log.
Proof.
  intros Hxml Hhtmls. unfold render_html. rewrite Hxml.
  destruct (Article.htmls article); [contradiction | reflexivity].
Qed.

(** C3: when a descriptor of [article.htmls] has exactly the requested
    language, [render_html_from_html] requests the normalised address of
    the first such descriptor and returns the decoded body with the
    languages of all the descriptors.  When none has it, it raises
    [ValueError] without requesting anything, and [article_detail]
    answers 404. *)
Theorem render_html_from_html_spec article lang log :
  (forall d0,
     In d0 (Article.htmls article) -> Descriptor.lang d0 = lang ->
     exists d rest,
       matching lang (Article.htmls article) = d :: rest
       /\ Descriptor.lang d = lang
       /\ In d (Article.htmls article)
       /\ forall u,
            normalize_ssm_url w (Descriptor.url d) = Ok u ->
            snd (render_html_from_html w article lang log)
            = requested log u None
            /\ forall r text,
                 requests_get w u 2 = Ok r ->
                 raise_for_status w r = None ->
                 decode_utf8 w (content r) = Some text ->
                 fst (render_html_from_html w article lang log)
                 = Ok (FragStr text,
                       List.map Descriptor.lang (Article.htmls article)))
  /\ ((forall d, In d (Article.htmls article) -> Descriptor.lang d <> lang) ->
      render_html_from_html w article lang log
      = (Raise (ValueError "Artigo não encontrado"), log)
      /\ forall a b c lc issue,
           finds w a b c issue article ->
           or_original lc article = lang ->
           PyStr.mem lang (valid_languages article) = true ->
           published article = true ->
           truthy_str (Article.xml article) = false ->
           Article.htmls article <> [] ->
           http_status (fst (article_detail w a b c lc log)) = 404%Z).
Proof.
  split.
  - intros d0 Hin Hlang.
    destruct (matching_some lang _ d0 Hin Hlang)
      as (pre & d & post & Hsplit & Hpre & Hd).
    pose proof (matching_first lang pre d post Hpre Hd) as Hm.
    rewrite <- Hsplit in Hm.
    exists d, (matching lang post).
    split; [assumption|]. split; [assumption|].
    split; [rewrite Hsplit; apply in_or_app; simpl; auto|].
    intros u Hu.
    rewrite (render_html_from_html_first w _ _ _ _ _ _ Hm Hu).
    split.
    + run_fetch w u log. destruct res as [body|e]; [|reflexivity].
      destruct (decode_utf8 w body); reflexivity.
    + intros r text Hget Hrfs Hdec.
      rewrite (fetch_data_ok w u None log r Hget Hrfs).
      now rewrite Hdec.
  - intros Hnone.
    pose proof (render_html_from_html_none w article lang log
                  (matching_none lang _ Hnone)) as Hraise.
    split; [assumption|].
    intros a b c lc issue Hfinds Hlc Hvalid Hpub Hxml Hhtmls.
    subst lang.
    rewrite (article_detail_outcome w _ _ _ _ _ _ _ Hfinds Hvalid Hpub).
    destruct (map_result (urlparse w) _); [|reflexivity].
    rewrite (render_html_htmls _ _ _ Hxml Hhtmls), Hraise.
    reflexivity.
Qed.


(** C5, as the code has it: when rendering raises [ValueError],
    [NonRetryableError] or [RetryableError], [article_detail] answers 404,
    with an error that does not depend on which of them was raised. *)
Theorem article_detail_content_unavailable a b c lc log issue article e :
  finds w a b c issue article ->
  PyStr.mem (or_original lc article) (valid_languages article) = true ->
  published article = true ->
  fst (render_html w article (or_original lc article) log) = Raise e ->
  isinstance_any e ["ValueError"; "NonRetryableError"; "RetryableError"]
  = true ->
  http_status (fst (article_detail w a b c lc log)) = 404%Z
  /\ (fst (article_detail w a b c lc log) = Raise (html_not_found w)
      \/ fst (article_detail w a b c lc log) = Raise (pdf_not_found w))
  /\ (forall parsed,
        map_result (urlparse w)
          (List.map Descriptor.url (Article.pdfs article)) = Ok parsed ->
        article_detail w a b c lc log
        = (Raise (html_not_found w),
           snd (render_html w article (or_original lc article) log))).
Proof.
  intros Hfinds Hvalid Hpub Hraise Hclass.
  rewrite (article_detail_outcome w _ _ _ _ _ _ _ Hfinds Hvalid Hpub).
  destruct (render_html w article (or_original lc article) log)
    as [res log'] eqn:Erender.
  cbn [fst] in Hraise. subst res. rewrite Hclass.
  destruct (map_result (urlparse w) _) as [parsed|e'].
  - split; [reflexivity|]. split; [left; reflexivity|].
    intros parsed' H. reflexivity.
  - split; [reflexivity|]. split; [right; reflexivity|].
    intros parsed' H. discriminate.
Qed.

End Selection.

Section Language.
Context {Etree Soup Tag : Type} (w : World Etree Soup Tag).

Lemma or_original_empty article :
  or_original "" article = Article.original_language article.
Proof. reflexivity. Qed.

Lemma or_original_original article :
  or_original (Article.original_language article) article
  = Article.original_language article.
Proof.
  unfold or_original.
  now destruct (String.eqb (Article.original_language article) "").
Qed.

Lemma not_mem x l : ~ In x l -> PyStr.mem x l = false.
Proof.
  intros H. destruct (PyStr.mem x l) eqn:E; [|reflexivity].
  now apply mem_In in E.
Qed.

(** C4: an empty language code stands for the original language of the
    article.  A language outside the languages of the article and its
    original language is answered with a redirection to the original
    language, and nothing is rendered, selected or requested.  So the
    language that [article_detail] renders, and the language of the PDF
    that [article_detail_pdf] serves, is always one of them. *)
Theorem requested_language_resolution a b c lc log issue article :
  or_original "" article = Article.original_language article
  /\ (finds w a b c issue article ->
      article_detail w a b c "" log
      = article_detail w a b c (Article.original_language article) log
      /\ (~ In (or_original lc article) (valid_languages article) ->
          article_detail w a b c lc log
          = (Ok (Redirect
                   (url_for "main.article_detail"
                      (Journal.url_segment (Article.journal article))
                      (Issue.url_segment (Article.issue article))
                      (Article.url_segment article)
                      (Article.original_language article))
                   301),
             log))
      /\ (forall template context,
            fst (article_detail w a b c lc log)
            = Ok (RenderTemplate template context) ->
            ctx_article_lang context = or_original lc article
            /\ In (ctx_article_lang context) (valid_languages article)
            /\ fst (render_html w article (ctx_article_lang context) log)
               = Ok (ctx_html context, ctx_text_languages context))
      /\ (snd (article_detail w a b c lc log) <> log ->
          In (or_original lc article) (valid_languages article)))
  /\ (finds_pdf w a b c issue article ->
      article_detail_pdf w a b c "" log
      = article_detail_pdf w a b c (Article.original_language article) log
      /\ (~ In (or_original lc article) (valid_languages article) ->
          article_detail_pdf w a b c lc log
          = (Ok (Redirect
                   (url_for "main.article_detail_pdf"
                      (Journal.url_segment (Article.journal article))
                      (Issue.url_segment (Article.issue article))
                      (Article.url_segment article)
                      (Article.original_language article))
                   301),
             log))
      /\ (forall body mimetype,
            fst (article_detail_pdf w a b c lc log)
            = Ok (MakeResponse body mimetype) ->
            In (or_original lc article) (valid_languages article)
            /\ exists pdf,
                 matching (or_original lc article) (Article.pdfs article)
                 = [pdf]
                 /\ Descriptor.lang pdf = or_original lc article)
      /\ (snd (article_detail_pdf w a b c lc log) <> log ->
          In (or_original lc article) (valid_languages article))).
Proof.
  split; [reflexivity|]. split.
  - intros Hfinds. split; [|split; [|split]].
    + destruct Hfinds as [Hissue Harticle].
      unfold article_detail. rewrite Hissue. cbv zeta. rewrite Harticle.
      now rewrite or_original_empty, or_original_original.
    + intros Hout. apply (article_detail_redirect w _ _ _ _ _ issue);
        [assumption|]. now apply not_mem.
    + intros template context Hres.
      destruct (PyStr.mem (or_original lc article) (valid_languages article))
        eqn:Hvalid.
      2:{ rewrite (article_detail_redirect w _ _ _ _ _ _ _ Hfinds Hvalid)
            in Hres. discriminate. }
      destruct (published article) eqn:Hpub.
      2:{ destruct (article_detail_unpublished w _ _ _ _ log _ _
                      Hfinds Hvalid Hpub) as (msg & E).
          rewrite E in Hres. discriminate. }
      rewrite (article_detail_outcome w _ _ _ _ _ _ _ Hfinds Hvalid Hpub)
        in Hres.
      destruct (map_result (urlparse w) _) as [parsed|e]; [|discriminate].
      destruct (render_html w article (or_original lc article) log)
        as [[[html text_languages]|e] log'] eqn:Erender.
      * cbn [fst] in Hres. injection Hres as _ <-.
        cbn [ctx_article_lang ctx_html ctx_text_languages].
        split; [reflexivity|]. split; [now apply mem_In|].
        now rewrite Erender.
      * destruct (isinstance_any e _); discriminate.
    + intros Hlog.
      destruct (PyStr.mem (or_original lc article) (valid_languages article))
        eqn:Hvalid; [now apply mem_In|].
      rewrite (article_detail_redirect w _ _ _ _ _ _ _ Hfinds Hvalid)
        in Hlog. now contradiction Hlog.
  - intros Hfinds. split; [|split; [|split]].
    + destruct Hfinds as [Hissue Harticle].
      unfold article_detail_pdf. rewrite Hissue, Harticle. cbv zeta.
      now rewrite or_original_empty, or_original_original.
    + intros Hout. apply (article_detail_pdf_redirect w _ _ _ _ _ issue);
        [assumption|]. now apply not_mem.
    + intros body mimetype Hres.
      destruct (PyStr.mem (or_original lc article) (valid_languages article))
        eqn:Hvalid.
      2:{ rewrite (article_detail_pdf_redirect w _ _ _ _ _ _ _ Hfinds Hvalid)
            in Hres. discriminate. }
      destruct (published article) eqn:Hpub.
      2:{ destruct (article_detail_pdf_unpublished w _ _ _ _ log _ _
                      Hfinds Hvalid Hpub) as (msg & E).
          rewrite E in Hres. discriminate. }
      rewrite (article_detail_pdf_outcome w _ _ _ _ _ _ _ Hfinds Hvalid Hpub)
        in Hres.
      split; [now apply mem_In|].
      destruct (matching _ _) as [|pdf [|pdf' rest]] eqn:Hm;
        [discriminate | | discriminate].
      exists pdf. split; [reflexivity|].
      now apply (matching_head _ _ _ _ Hm).
    + intros Hlog.
      destruct (PyStr.mem (or_original lc article) (valid_languages article))
        eqn:Hvalid; [now apply mem_In|].
      rewrite (article_detail_pdf_redirect w _ _ _ _ _ _ _ Hfinds Hvalid)
        in Hlog. now contradiction Hlog.
Qed.

End Language.

(** ** The statements at work *)

Lemma render_html_no_representation_witness :
  render_html Demo.online Demo.without_text "en" []
  = (Ok (FragStr "", []), []).
Proof.
  apply (render_html_no_representation Demo.online Demo.without_text "en" []).
  - left. reflexivity.
  - reflexivity.
Defined.

Lemma render_html_from_xml_spec_witness :
  snd (render_html_from_xml Demo.online Demo.with_xml "en" [])
  = [("http://ssm:8000/documentstore/1678-4464/a.xml", 2)]
  /\ fst (render_html_from_xml Demo.online Demo.with_xml "en" [])
     = Ok (FragTag Demo.body, ["en"; "es"; "pt"]).
Proof.
  destruct (render_html_from_xml_spec Demo.online Demo.with_xml []
              Demo.xml_url "http://ssm:8000/documentstore/1678-4464/a.xml"
              eq_refl eq_refl) as (Hlog & Hres & _).
  split.
  - apply Hlog.
  - apply (Hres "en" (mkResponse 200 Demo.body) Demo.body
             (Demo.generator Demo.body) Demo.body); reflexivity.
Defined.

(** With [SSM_XML_URL_REWRITE] unset, the address of the XML is requested
    as it is stored, not normalised. *)
Lemma render_html_from_xml_requests_stored_address :
  Article.xml Demo.with_xml = Some Demo.xml_url
  /\ normalize_ssm_url Demo.not_rewriting Demo.xml_url
     = Ok "http://ssm:8000/documentstore/1678-4464/a.xml"
  /\ snd (render_html_from_xml Demo.not_rewriting Demo.with_xml "en" [])
     = [("https://minio.scielo.br/documentstore/1678-4464/a.xml", 2)]
  /\ snd (render_html_from_xml Demo.not_rewriting Demo.with_xml "en" [])
     <> [("http://ssm:8000/documentstore/1678-4464/a.xml", 2)].
Proof.
  split; [reflexivity|]. split; [vm_compute; reflexivity|].
  split; [vm_compute; reflexivity|]. vm_compute. discriminate.
Qed.

Lemma render_html_from_html_spec_witness :
  render_html_from_html Demo.online Demo.with_htmls "en" []
  = (Ok (FragStr "<p/>", ["pt"; "en"]),
     [("http://ssm:8000/documentstore/1678-4464/a.en.html", 2)])
  /\ render_html_from_html Demo.online Demo.with_html_pt "en" []
     = (Raise (ValueError "Artigo não encontrado"), [])
  /\ http_status
       (fst (article_detail (Demo.serving Demo.with_html_pt)
               "rsp" "2019.v53" "a1" "en" []))
     = 404%Z.
Proof.
  split; [|split].
  - destruct (proj1 (render_html_from_html_spec Demo.online Demo.with_htmls
                       "en" []) Demo.html_en)
      as (d & rest & Hm & _ & _ & H).
    + simpl. auto.
    + reflexivity.
    + vm_compute in Hm. injection Hm as <- <-.
      destruct (H "http://ssm:8000/documentstore/1678-4464/a.en.html" eq_refl)
        as [Hlog Hres].
      specialize (Hres (mkResponse 200 Demo.body) "<p/>"
                    eq_refl eq_refl eq_refl).
      rewrite (surjective_pairing
                 (render_html_from_html Demo.online Demo.with_htmls "en" [])).
      now rewrite Hlog, Hres.
  - apply (proj2 (render_html_from_html_spec Demo.online Demo.with_html_pt
                    "en" [])).
    intros d [<- | []]. discriminate.
  - assert (Hnone : forall d, In d (Article.htmls Demo.with_html_pt) ->
                               Descriptor.lang d <> "en")
      by (intros d [<- | []]; discriminate).
    apply (proj2 (proj2 (render_html_from_html_spec
                           (Demo.serving Demo.with_html_pt)
                           Demo.with_html_pt "en" []) Hnone)
             "rsp" "2019.v53" "a1" "en" Demo.issue);
      try reflexivity.
    + split; reflexivity.
    + discriminate.
Defined.

Lemma requested_language_resolution_witness :
  article_detail (Demo.serving Demo.with_htmls) "rsp" "2019.v53" "a1" "" []
  = article_detail (Demo.serving Demo.with_htmls) "rsp" "2019.v53" "a1" "pt" []
  /\ article_detail (Demo.serving Demo.with_htmls) "rsp" "2019.v53" "a1" "fr" []
     = (Ok (Redirect (url_for "main.article_detail" "rsp" "2019.v53" "a1" "pt")
              301), [])
  /\ article_detail_pdf (Demo.serving Demo.with_pdf)
       "rsp" "2019.v53" "a1" "fr" []
     = (Ok (Redirect
              (url_for "main.article_detail_pdf" "rsp" "2019.v53" "a1" "pt")
              301), []).
Proof.
  assert (Hhtml : finds (Demo.serving Demo.with_htmls) "rsp" "2019.v53" "a1"
                    Demo.issue Demo.with_htmls) by (split; reflexivity).
  assert (Hpdf : finds_pdf (Demo.serving Demo.with_pdf) "rsp" "2019.v53" "a1"
                   Demo.issue Demo.with_pdf) by (split; reflexivity).
  assert (Hout : forall article : Article.t,
            Article.original_language article = "pt" ->
            Article.languages article = ["en"] ->
            ~ In (or_original "fr" article) (valid_languages article)).
  { intros article Ho Hl. unfold valid_languages. rewrite Ho, Hl.
    intros [E | [E | []]]; discriminate E. }
  split; [|split].
  - apply (proj1 (proj2 (requested_language_resolution
             (Demo.serving Demo.with_htmls) "rsp" "2019.v53" "a1" "" []
             Demo.issue Demo.with_htmls))).
    exact Hhtml.
  - apply (proj1 (proj2 (requested_language_resolution
             (Demo.serving Demo.with_htmls) "rsp" "2019.v53" "a1" "fr" []
             Demo.issue Demo.with_htmls)) Hhtml).
    now apply Hout.
  - apply (proj2 (proj2 (requested_language_resolution
             (Demo.serving Demo.with_pdf) "rsp" "2019.v53" "a1" "fr" []
             Demo.issue Demo.with_pdf)) Hpdf).
    now apply Hout.
Defined.

Lemma article_detail_content_unavailable_witness :
  fst (render_html (Demo.unavailable Demo.with_xml) Demo.with_xml "en" [])
  = Raise (RetryableError
             (HTTPError "Server Error" (mkResponse 503 Demo.body)))
  /\ article_detail (Demo.unavailable Demo.with_xml)
       "rsp" "2019.v53" "a1" "en" []
     = (Raise (HTTPException 404
                 "HTML do Artigo não encontrado ou indisponível"),
        [("http://ssm:8000/documentstore/1678-4464/a.xml", 2)]).
Proof.
  split; [vm_compute; reflexivity|].
  apply (proj2 (proj2 (article_detail_content_unavailable
           (Demo.unavailable Demo.with_xml) "rsp" "2019.v53" "a1" "en" []
           Demo.issue Demo.with_xml
           (RetryableError
              (HTTPError "Server Error" (mkResponse 503 Demo.body)))
           (conj eq_refl eq_refl) eq_refl eq_refl eq_refl eq_refl)) []).
  reflexivity.
Defined.

(** A failure of the request that [fetch_data] does not classify, and an
    XML document that lxml rejects, leave [article_detail] as they are:
    the answer is 500. *)
Lemma article_detail_server_error :
  fst (render_html (Demo.redirecting Demo.with_xml) Demo.with_xml "en" [])
  = Raise Demo.TooManyRedirects
  /\ http_status
       (fst (article_detail (Demo.redirecting Demo.with_xml)
               "rsp" "2019.v53" "a1" "en" []))
     = 500%Z
  /\ fst (render_html (Demo.ill_formed Demo.with_xml) Demo.with_xml "en" [])
     = Raise Demo.XMLSyntaxError
  /\ http_status
       (fst (article_detail (Demo.ill_formed Demo.with_xml)
               "rsp" "2019.v53" "a1" "en" []))
     = 500%Z.
Proof. repeat split; vm_compute; reflexivity. Qed.



(** * Further properties *)

(** ** Stripping *)

Module StripFacts.
Import PyStr PyStrFacts.

Lemma rev_onto_app s acc : rev_onto s acc = rev s ++ acc.
Proof.
  unfold rev. revert acc.
  induction s as [|c s IH]; intros acc; simpl; [reflexivity|].
  rewrite (IH (String c acc)), (IH (String c "")).
  now rewrite append_assoc.
Qed.

Lemma rev_cons c s : rev (String c s) = rev s ++ String c "".
Proof. unfold rev at 1. simpl. apply rev_onto_app. Qed.

Lemma rev_app s t : rev (s ++ t) = rev t ++ rev s.
Proof.
  induction s as [|c s IH]; simpl.
  - now rewrite append_empty.
  - now rewrite !rev_cons, IH, append_assoc.
Qed.

Lemma rev_involutive s : rev (rev s) = s.
Proof.
  induction s as [|c s IH]; [reflexivity|].
  now rewrite rev_cons, rev_app, IH.
Qed.

Lemma length_app s t :
  String.length (s ++ t) = (String.length s + String.length t)%nat.
Proof. induction s as [|c s IH]; simpl; [reflexivity | now rewrite IH]. Qed.

Lemma length_rev s : String.length (rev s) = String.length s.
Proof.
  induction s as [|c s IH]; [reflexivity|].
  rewrite rev_cons, length_app, IH. simpl. lia.
Qed.

Lemma after_prefix_app p s r : after_prefix p s = Some r <-> s = p ++ r.
Proof.
  revert s. induction p as [|a p IH]; intros s; simpl.
  - split; [intros H; now injection H | intros ->; reflexivity].
  - destruct s as [|b s]; [split; discriminate|].
    destruct (Ascii.eqb a b) eqn:E.
    + apply Ascii.eqb_eq in E. subst b. rewrite IH.
      split; [intros ->; reflexivity | intros H; now injection H].
    + split; [discriminate|]. intros H. injection H as -> _.
      now rewrite Ascii.eqb_refl in E.
Qed.

Lemma chop_some spaces s r :
  chop spaces s = Some r -> exists space, In space spaces /\ s = space ++ r.
Proof.
  induction spaces as [|space spaces IH]; simpl; [discriminate|].
  destruct (after_prefix space s) as [r'|] eqn:E.
  - intros H. injection H as ->. apply after_prefix_app in E. eauto.
  - intros H. destruct (IH H) as (space' & Hin & Hs). eauto.
Qed.

Lemma chop_none spaces s space r :
  chop spaces s = None -> In space spaces -> s <> space ++ r.
Proof.
  induction spaces as [|space' spaces IH]; simpl; [contradiction|].
  destruct (after_prefix space' s) as [r'|] eqn:E; [discriminate|].
  intros H [-> | Hin] Hs.
  - apply after_prefix_app in Hs. congruence.
  - now apply (IH H Hin).
Qed.

Lemma chop_none_intro spaces s :
  (forall space, In space spaces -> after_prefix space s = None) ->
  chop spaces s = None.
Proof.
  induction spaces as [|space spaces IH]; simpl; [reflexivity|].
  intros H. rewrite (H space) by now left. apply IH. intros space' Hin.
  apply H. now right.
Qed.

(** What has no space in front has none either when it is cut short. *)
Lemma chop_prefix spaces u v : chop spaces (u ++ v) = None -> chop spaces u = None.
Proof.
  intros H. destruct (chop spaces u) as [r|] eqn:E; [|reflexivity].
  destruct (chop_some _ _ _ E) as (space & Hin & ->).
  exfalso. apply (chop_none _ _ space (r ++ v) H Hin).
  now rewrite append_assoc.
Qed.

Lemma chop_shorter spaces s r :
  ~ In "" spaces -> chop spaces s = Some r ->
  (String.length r < String.length s)%nat.
Proof.
  intros Hne H. destruct (chop_some _ _ _ H) as (space & Hin & ->).
  rewrite length_app. destruct space as [|c space]; [contradiction|].
  simpl. lia.
Qed.

Lemma chop_all_suffix spaces n s : exists x, s = x ++ chop_all spaces n s.
Proof.
  revert s. induction n as [|n IH]; intros s; simpl; [now exists ""|].
  destruct (chop spaces s) as [r|] eqn:E; [|now exists ""].
  destruct (chop_some _ _ _ E) as (space & _ & ->).
  destruct (IH r) as (x & Hx). exists (space ++ x).
  now rewrite append_assoc, <- Hx.
Qed.

(** With one step for each byte, nothing is left to drop. *)
Lemma chop_all_done spaces n s :
  ~ In "" spaces -> (String.length s <= n)%nat ->
  chop spaces (chop_all spaces n s) = None.
Proof.
  intros Hne. revert s. induction n as [|n IH]; intros s Hlen; simpl.
  - destruct (chop spaces s) as [r|] eqn:E; [|reflexivity].
    apply (chop_shorter _ _ _ Hne) in E. lia.
  - destruct (chop spaces s) as [r|] eqn:E; [|assumption].
    apply IH. apply (chop_shorter _ _ _ Hne) in E. lia.
Qed.

Lemma chop_all_fixed spaces n s :
  chop spaces s = None -> chop_all spaces n s = s.
Proof. intros H. destruct n; simpl; [reflexivity | now rewrite H]. Qed.

Lemma whitespace_proper : ~ In "" whitespace.
Proof.
  assert (H : forallb (fun space => negb (String.eqb space "")) whitespace
              = true) by reflexivity.
  rewrite forallb_forall in H. intros Hin. specialize (H _ Hin).
  discriminate.
Qed.

Lemma whitespace_rev_proper : ~ In "" (List.map rev whitespace).
Proof.
  assert (H : forallb (fun space => negb (String.eqb space ""))
                (List.map rev whitespace) = true) by reflexivity.
  rewrite forallb_forall in H. intros Hin. specialize (H _ Hin).
  discriminate.
Qed.

(** [lstrip] and [rstrip] cut a piece off one end, and what they return has
    no whitespace at that end. *)
Lemma lstrip_suffix s : exists x, s = x ++ lstrip s.
Proof. apply chop_all_suffix. Qed.

Lemma lstrip_done s : chop whitespace (lstrip s) = None.
Proof. apply chop_all_done; [apply whitespace_proper | lia]. Qed.

Lemma lstrip_fixed s : chop whitespace s = None -> lstrip s = s.
Proof. apply chop_all_fixed. Qed.

Lemma rstrip_prefix s : exists x, s = rstrip s ++ x.
Proof.
  unfold rstrip.
  destruct (chop_all_suffix (List.map rev whitespace) (String.length s)
              (rev s)) as (x & Hx).
  exists (rev x). rewrite <- rev_app, <- Hx. now rewrite rev_involutive.
Qed.

Lemma rstrip_done s : chop (List.map rev whitespace) (rev (rstrip s)) = None.
Proof.
  unfold rstrip. rewrite rev_involutive.
  apply chop_all_done; [apply whitespace_rev_proper|].
  rewrite length_rev. lia.
Qed.

Lemma rstrip_fixed s :
  chop (List.map rev whitespace) (rev s) = None -> rstrip s = s.
Proof.
  intros H. unfold rstrip. rewrite (chop_all_fixed _ _ _ H).
  apply rev_involutive.
Qed.

(** Stripping a stripped string changes nothing. *)
Lemma strip_idempotent s : strip (strip s) = strip s.
Proof.
  unfold strip. set (t := lstrip s).
  assert (Hl : lstrip (rstrip t) = rstrip t).
  { apply lstrip_fixed. destruct (rstrip_prefix t) as (x & Hx).
    apply (chop_prefix _ _ x). rewrite <- Hx. apply lstrip_done. }
  rewrite Hl. apply rstrip_fixed, rstrip_done.
Qed.

(** [strip] returns a piece of the string. *)
Lemma strip_piece s : exists x y, s = x ++ strip s ++ y.
Proof.
  destruct (lstrip_suffix s) as (x & Hx).
  destruct (rstrip_prefix (lstrip s)) as (y & Hy).
  exists x, y. unfold strip. now rewrite <- Hy.
Qed.

Lemma contains_strip c s : contains c s = false -> contains c (strip s) = false.
Proof.
  destruct (strip_piece s) as (x & y & Hs). intros H. rewrite Hs in H.
  rewrite !contains_app in H.
  apply orb_false_iff in H as [_ H]. now apply orb_false_iff in H as [H _].
Qed.

(** Two ways to cut the same string in two. *)
Lemma app_eq_app x y u r :
  x ++ y = u ++ r ->
  (exists x', x = u ++ x' /\ r = x' ++ y)
  \/ (exists piece, piece <> "" /\ u = x ++ piece /\ y = piece ++ r).
Proof.
  revert u. induction x as [|c x IH]; intros u; simpl.
  - intros ->. destruct u as [|d u].
    + left. now exists "".
    + right. exists (String d u). repeat split. discriminate.
  - destruct u as [|d u]; simpl.
    + intros <-. left. now exists (String c x).
    + intros H. injection H as -> H.
      destruct (IH _ H) as [(x' & -> & ->) | (piece & Hne & -> & ->)].
      * left. now exists x'.
      * right. now exists piece.
Qed.

Lemma tails_In x piece : piece <> "" -> In piece (tails (x ++ piece)).
Proof.
  intros Hne. induction x as [|c x IH]; simpl.
  - destruct piece as [|c piece]; [contradiction | now left].
  - now right.
Qed.

(** Dropping spaces in front stops before [y] when no space can end inside
    [y]. *)
Lemma chop_all_barrier spaces y n x :
  (forall space piece,
     In space spaces -> In piece (tails space) -> startswith piece y = false) ->
  exists x', chop_all spaces n (x ++ y) = x' ++ y.
Proof.
  intros Hy. revert x. induction n as [|n IH]; intros x; simpl; [eauto|].
  destruct (chop spaces (x ++ y)) as [r|] eqn:E; [|eauto].
  destruct (chop_some _ _ _ E) as (space & Hin & Hs).
  destruct (app_eq_app _ _ _ _ Hs) as [(x' & _ & ->) | (piece & Hne & -> & ->)].
  - apply IH.
  - pose proof (startswith_app piece r) as H.
    rewrite (Hy _ piece Hin (tails_In _ _ Hne)) in H. discriminate.
Qed.

Lemma after_prefix_comparable p base s r :
  after_prefix p (base ++ s) = Some r ->
  startswith p base = true \/ startswith base p = true.
Proof.
  revert base. induction p as [|a p IH]; intros base; simpl; [now left|].
  destruct base as [|b base]; simpl; [now right|].
  destruct (Ascii.eqb a b) eqn:E; [|discriminate].
  rewrite (Ascii.eqb_sym b a), E. apply IH.
Qed.

(** A trimmed prefix survives [strip]: only the end of what follows it is
    cut. *)
Lemma strip_under base s :
  trimmed base = true -> exists t, strip (base ++ s) = base ++ t.
Proof.
  intros H. apply andb_true_iff in H as [H Hback].
  apply andb_true_iff in H as [_ Hfront].
  rewrite forallb_forall in Hfront, Hback.
  assert (Hl : lstrip (base ++ s) = base ++ s).
  { apply lstrip_fixed, chop_none_intro. intros space Hin.
    destruct (after_prefix space (base ++ s)) as [r|] eqn:E; [|reflexivity].
    apply after_prefix_comparable in E. specialize (Hfront _ Hin).
    apply negb_true_iff, orb_false_iff in Hfront as [H1 H2].
    destruct E; congruence. }
  unfold strip. rewrite Hl. unfold rstrip. rewrite rev_app.
  destruct (chop_all_barrier (List.map rev whitespace) (rev base)
              (String.length (base ++ s)) (rev s)) as (x' & ->).
  { intros space piece Hin Hpiece. specialize (Hback _ Hin).
    rewrite forallb_forall in Hback. now apply negb_true_iff, Hback. }
  exists (rev x'). now rewrite rev_app, rev_involutive.
Qed.

Lemma startswith_strip base s :
  trimmed base = true -> startswith base (strip (base ++ s)) = true.
Proof.
  intros H. destruct (strip_under _ s H) as (t & ->). apply startswith_app.
Qed.

End StripFacts.

(** ** What is requested, and where *)

Section Requests.
Context {Etree Soup Tag : Type} (w : World Etree Soup Tag).

Lemma normalize_under x u :
  normalize_ssm_url w x = Ok u -> PyStr.startswith (SSM_BASE_URI w) u = true.
Proof.
  unfold normalize_ssm_url.
  destruct (PyStr.startswith "http" x).
  - destruct (urlparse w x) as [parsed|e]; [|discriminate].
    intros H. injection H as <-. apply PyStrFacts.startswith_app.
  - intros H. injection H as <-. apply PyStrFacts.startswith_app.
Qed.

(** [render_html_from_xml] requests nothing, or one address. *)
Lemma render_html_from_xml_calls article lang log :
  snd (render_html_from_xml w article lang log) = log
  \/ exists u,
       snd (render_html_from_xml w article lang log) = requested log u None
       /\ (SSM_XML_URL_REWRITE w = true ->
           PyStr.startswith (SSM_BASE_URI w) u = true).
Proof.
  destruct (Article.xml article) as [x|] eqn:Hxml.
  - destruct (if SSM_XML_URL_REWRITE w then normalize_ssm_url w x else Ok x)
      as [u|e] eqn:Hu.
    + right. exists u. split.
      * now apply render_html_from_xml_log with x.
      * intros Hflag. rewrite Hflag in Hu. now apply normalize_under with x.
    + left. unfold render_html_from_xml. rewrite Hxml.
      destruct (SSM_XML_URL_REWRITE w); [|discriminate].
      unfold bind, lift. now rewrite Hu.
  - unfold render_html_from_xml. rewrite Hxml.
    destruct (SSM_XML_URL_REWRITE w); [left; reflexivity|].
    right. exists "None". split; [|discriminate].
    unfold bind at 1. run_fetch w "None" log.
    destruct res as [b|e]; [|reflexivity].
    unfold bind, lift, ret.
    destruct (etree_parse w b) as [doc|e]; [|reflexivity].
    destruct (HTMLGenerator_parse w doc) as [gen|e]; [|reflexivity].
    destruct (generate gen lang) as [tree|e]; reflexivity.
Qed.

(** [render_html_from_html] requests nothing, or one address under the
    base URI. *)
Lemma render_html_from_html_calls article lang log :
  snd (render_html_from_html w article lang log) = log
  \/ exists u,
       snd (render_html_from_html w article lang log) = requested log u None
       /\ PyStr.startswith (SSM_BASE_URI w) u = true.
Proof.
  destruct (matching lang (Article.htmls article)) as [|d rest] eqn:Hm.
  - left. now rewrite (render_html_from_html_none w _ _ _ Hm).
  - destruct (normalize_ssm_url w (Descriptor.url d)) as [u|e] eqn:Hu.
    + right. exists u. split; [|now apply normalize_under with (Descriptor.url d)].
      rewrite (render_html_from_html_first w _ _ _ _ _ _ Hm Hu).
      run_fetch w u log. destruct res as [b|e]; [|reflexivity].
      destruct (decode_utf8 w b); reflexivity.
    + left. unfold render_html_from_html. unfold matching in Hm. rewrite Hm.
      unfold bind, lift. now rewrite Hu.
Qed.

Lemma render_html_calls article lang log :
  snd (render_html w article lang log) = log
  \/ exists u,
       snd (render_html w article lang log) = requested log u None
       /\ (SSM_XML_URL_REWRITE w = true ->
           PyStr.startswith (SSM_BASE_URI w) u = true).
Proof.
  unfold render_html.
  destruct (truthy_str (Article.xml article));
    [apply render_html_from_xml_calls|].
  destruct (truthy_list (Article.htmls article)); [|left; reflexivity].
  destruct (render_html_from_html_calls article lang log)
    as [H | (u & H & Hu)]; [now left | right; eauto].
Qed.

(** [article_detail] requests what [render_html] requests, or nothing. *)
Lemma article_detail_calls a b c lc log :
  snd (article_detail w a b c lc log) = log
  \/ exists article,
       snd (article_detail w a b c lc log)
       = snd (render_html w article (or_original lc article) log).
Proof.
  destruct (get_issue_by_url_seg w a b) as [issue|] eqn:Hissue.
  2:{ left. unfold article_detail. now rewrite Hissue. }
  destruct (match get_article_by_issue_article_seg w (Issue.iid issue) c with
            | Some article => Some article
            | None => get_article_by_aop_url_segs w (Issue.journal issue) b c
            end) as [article|] eqn:Harticle.
  2:{ left. unfold article_detail. rewrite Hissue. cbv zeta.
      now rewrite Harticle. }
  assert (Hfinds : finds w a b c issue article) by (now split).
  destruct (PyStr.mem (or_original lc article) (valid_languages article))
    eqn:Hvalid.
  2:{ left. now rewrite (article_detail_redirect w _ _ _ _ _ _ _ Hfinds Hvalid). }
  destruct (published article) eqn:Hpub.
  2:{ left. destruct (article_detail_unpublished w _ _ _ _ log _ _
                        Hfinds Hvalid Hpub) as (msg & E). now rewrite E. }
  rewrite (article_detail_outcome w _ _ _ _ _ _ _ Hfinds Hvalid Hpub).
  destruct (map_result (urlparse w) _) as [parsed|e]; [|now left].
  right. exists article.
  destruct (render_html w article (or_original lc article) log)
    as [[[html text_languages]|e] log']; [reflexivity|].
  destruct (isinstance_any e _); reflexivity.
Qed.

(** [article_detail_pdf] requests what [get_content_from_ssm] requests, or
    nothing. *)
Lemma article_detail_pdf_calls a b c lc log :
  snd (article_detail_pdf w a b c lc log) = log
  \/ exists path,
       snd (article_detail_pdf w a b c lc log)
       = snd (get_content_from_ssm w path log).
Proof.
  destruct (get_issue_by_url_seg w a b) as [issue|] eqn:Hissue.
  2:{ left. unfold article_detail_pdf. now rewrite Hissue. }
  destruct (get_article_by_issue_article_seg w (Issue.iid issue) c)
    as [article|] eqn:Harticle.
  2:{ left. unfold article_detail_pdf. now rewrite Hissue, Harticle. }
  assert (Hfinds : finds_pdf w a b c issue article) by (now split).
  destruct (PyStr.mem (or_original lc article) (valid_languages article))
    eqn:Hvalid.
  2:{ left.
      now rewrite (article_detail_pdf_redirect w _ _ _ _ _ _ _ Hfinds Hvalid). }
  destruct (published article) eqn:Hpub.
  2:{ left. destruct (article_detail_pdf_unpublished w _ _ _ _ log _ _
                        Hfinds Hvalid Hpub) as (msg & E). now rewrite E. }
  rewrite (article_detail_pdf_outcome w _ _ _ _ _ _ _ Hfinds Hvalid Hpub).
  destruct (matching _ _) as [|pdf [|pdf' rest]]; [now left | | now left].
  destruct (urlparse w (Descriptor.url pdf)) as [parsed|e]; [|now left].
  destruct (String.eqb (UrlParse.path parsed) ""); [now left|].
  right. now exists (UrlParse.path parsed).
Qed.

Lemma all_under_requested base log u timeout :
  all_under base log ->
  PyStr.startswith base u = true ->
  all_under base (requested log u timeout).
Proof.
  intros Hlog Hu. unfold all_under, requested.
  apply Forall_app. split; [assumption|]. now repeat constructor.
Qed.

End Requests.

(** ** The proxies of the storage service *)

Section Storage.
Context {Etree Soup Tag : Type} (w : World Etree Soup Tag).
Variable SSM_MEDIA_PATH : string.
Variable get_article_by_pdf_filename : string -> string -> string -> option string.

Lemma get_content_from_ssm_run path log :
  get_content_from_ssm w path log
  = match fetch_data w (PyStr.strip (SSM_BASE_URI w ++ path)) None log with
    | (Ok body, log') =>
        (Ok (MakeResponse body
               (guess_type w (PyStr.strip (SSM_BASE_URI w ++ path)))), log')
    | (Raise e, log') =>
        if isinstance_any e ["NonRetryableError"; "RetryableError"]
        then (Raise (HTTPException 404 (gettext w "Recruso não encontrado")),
              log')
        else (Raise e, log')
    end.
Proof.
  unfold get_content_from_ssm, bind, try_except, ret, abort, raise.
  destruct (fetch_data w _ None log) as [[body|e] log']; [reflexivity|].
  destruct (isinstance_any e _); reflexivity.
Qed.

(** X1: [get_content_from_ssm] with the status check of requests: a response
    with a status outside [400,600) is passed on with its body unchanged and
    the type guessed from the address; a response with a status in
    [400,600), a connection failure, a timeout and a malformed address are
    answered 404; any other failure of the request leaves the function as it
    is. *)
Theorem get_content_from_ssm_answer path url log :
  (forall r, raise_for_status w r = requests_raise_for_status r) ->
  url = PyStr.strip (SSM_BASE_URI w ++ path) ->
  (forall r,
     requests_get w url 2 = Ok r ->
     (~ in_range 400 600 (status_code r) ->
      get_content_from_ssm w path log
      = (Ok (MakeResponse (content r) (guess_type w url)),
         requested log url None))
     /\ (in_range 400 600 (status_code r) ->
         get_content_from_ssm w path log
         = (Raise (HTTPException 404 (gettext w "Recruso não encontrado")),
            requested log url None)))
  /\ (forall e,
        requests_get w url 2 = Raise e ->
        (isinstance_any e ["requests.ConnectionError"; "requests.Timeout";
                           "requests.InvalidSchema"; "requests.MissingSchema";
                           "requests.InvalidURL"] = true ->
         get_content_from_ssm w path log
         = (Raise (HTTPException 404 (gettext w "Recruso não encontrado")),
            requested log url None))
        /\ (isinstance_any e ["requests.ConnectionError"; "requests.Timeout";
                              "requests.InvalidSchema";
                              "requests.MissingSchema"; "requests.InvalidURL";
                              "NonRetryableError"; "RetryableError"] = false ->
            get_content_from_ssm w path log
            = (Raise e, requested log url None))).
Proof.
  intros Hlib ->. rewrite get_content_from_ssm_run.
  set (url := PyStr.strip (SSM_BASE_URI w ++ path)).
  split.
  - intros r Hget.
    pose proof (requests_raise_for_status_spec r) as Hspec.
    destruct (requests_raise_for_status r) as [e|] eqn:E.
    + destruct Hspec as (Hinst & Hresp & Hrange).
      assert (Hrfs : raise_for_status w r = Some e) by (now rewrite Hlib).
      rewrite (fetch_data_http_error w url None log r e r Hget Hrfs Hinst Hresp).
      split; [intros H; contradiction|]. intros _.
      destruct ((400 <=? status_code r)%Z && (status_code r <? 500)%Z) eqn:E4;
        [reflexivity|].
      destruct ((500 <=? status_code r)%Z && (status_code r <? 600)%Z) eqn:E5;
        [reflexivity|].
      apply in_range_test_false in E4. apply in_range_test_false in E5.
      unfold in_range in *. lia.
    + assert (Hrfs : raise_for_status w r = None) by (now rewrite Hlib).
      rewrite (fetch_data_ok w url None log r Hget Hrfs).
      split; [reflexivity | intros H; contradiction].
  - intros e Hget. unfold fetch_data. change (timeout_of None) with 2%Q.
    rewrite Hget. split.
    + intros H.
      destruct (isinstance_any e ["requests.ConnectionError"; "requests.Timeout"])
        eqn:E1; [reflexivity|].
      destruct (isinstance_any e ["requests.InvalidSchema";
                                  "requests.MissingSchema";
                                  "requests.InvalidURL"]) eqn:E2;
        [reflexivity|].
      unfold isinstance_any in *. cbn [existsb] in *.
      rewrite orb_false_r in *.
      apply orb_false_iff in E1 as [Ea Eb].
      apply orb_false_iff in E2 as [Ec E2].
      apply orb_false_iff in E2 as [Ed Ee].
      rewrite Ea, Eb, Ec, Ed, Ee in H. discriminate.
    + intros H. unfold isinstance_any in *. cbn [existsb] in *.
      rewrite orb_false_r in *.
      apply orb_false_iff in H as [Ea H]. apply orb_false_iff in H as [Eb H].
      apply orb_false_iff in H as [Ec H]. apply orb_false_iff in H as [Ed H].
      apply orb_false_iff in H as [Ee H]. apply orb_false_iff in H as [Ef Eg].
      rewrite Ea, Eb, Ec, Ed, Ee. cbn [orb existsb].
      now rewrite Ef, Eg.
Qed.

Lemma all_under_get_content path log :
  trimmed (SSM_BASE_URI w) = true ->
  all_under (SSM_BASE_URI w) log ->
  all_under (SSM_BASE_URI w) (snd (get_content_from_ssm w path log)).
Proof.
  intros Hbase Hlog. rewrite get_content_from_ssm_log.
  apply all_under_requested; [assumption|].
  now apply StripFacts.startswith_strip.
Qed.

Lemma router_legacy_pdf_calls a b c log :
  snd (router_legacy_pdf w get_article_by_pdf_filename a b c log) = log
  \/ exists path,
       snd (router_legacy_pdf w get_article_by_pdf_filename a b c log)
       = snd (get_content_from_ssm w path log).
Proof.
  unfold router_legacy_pdf.
  destruct (get_article_by_pdf_filename a b (c ++ ".pdf")) as [pdf_url|];
    [|now left].
  unfold bind, lift.
  destruct (urlparse w pdf_url) as [parsed|e]; [|now left].
  right. now exists (UrlParse.path parsed).
Qed.

Lemma article_ssm_content_raw_calls args log :
  snd (article_ssm_content_raw w args log) = log
  \/ exists path,
       snd (article_ssm_content_raw w args log)
       = snd (get_content_from_ssm w path log).
Proof.
  unfold article_ssm_content_raw.
  destruct (args_get args "resource_ssm_path") as [path|]; [|now left].
  destruct (String.eqb path ""); [now left|].
  right. now exists path.
Qed.

(** X2: Whatever the stored addresses and the request are, the proxies of the
    storage service and the renderer of the HTML descriptors request only
    addresses that start with the base URI, when the base URI is not empty
    and does not begin or end with whitespace; so does [article_detail]
    when [SSM_XML_URL_REWRITE] is set. *)
Theorem requests_stay_under_base log :
  trimmed (SSM_BASE_URI w) = true ->
  all_under (SSM_BASE_URI w) log ->
  (forall path,
     all_under (SSM_BASE_URI w) (snd (get_content_from_ssm w path log)))
  /\ (forall relative_media_path,
        all_under (SSM_BASE_URI w)
          (snd (media_assets_proxy w SSM_MEDIA_PATH relative_media_path log)))
  /\ (forall args,
        all_under (SSM_BASE_URI w) (snd (article_ssm_content_raw w args log)))
  /\ (forall a b c,
        all_under (SSM_BASE_URI w)
          (snd (router_legacy_pdf w get_article_by_pdf_filename a b c log)))
  /\ (forall a b c lc,
        all_under (SSM_BASE_URI w) (snd (article_detail_pdf w a b c lc log)))
  /\ (forall article lang,
        all_under (SSM_BASE_URI w)
          (snd (render_html_from_html w article lang log)))
  /\ (SSM_XML_URL_REWRITE w = true ->
      forall a b c lc,
        all_under (SSM_BASE_URI w) (snd (article_detail w a b c lc log))).
Proof.
  intros Hbase Hlog.
  split; [intros path; now apply all_under_get_content|].
  split; [intros rel; now apply all_under_get_content|].
  split.
  { intros args.
    destruct (article_ssm_content_raw_calls args log) as [-> | (path & ->)];
      [assumption | now apply all_under_get_content]. }
  split.
  { intros a b c.
    destruct (router_legacy_pdf_calls a b c log) as [-> | (path & ->)];
      [assumption | now apply all_under_get_content]. }
  split.
  { intros a b c lc.
    destruct (article_detail_pdf_calls w a b c lc log) as [-> | (path & ->)];
      [assumption | now apply all_under_get_content]. }
  split.
  { intros article lang.
    destruct (render_html_from_html_calls w article lang log)
      as [-> | (u & -> & Hu)];
      [assumption | now apply all_under_requested]. }
  intros Hflag a b c lc.
  destruct (article_detail_calls w a b c lc log) as [-> | (article & ->)];
    [assumption|].
  destruct (render_html_calls w article (or_original lc article) log)
    as [-> | (u & -> & Hu)];
    [assumption | apply all_under_requested; auto].
Qed.

(** X3: No view asks the storage service twice: rendering an article, serving
    a PDF and the proxies make at most one request, whatever the outcome. *)
Theorem at_most_one_request log :
  (forall article lang,
     exists extra,
       snd (render_html w article lang log) = (log ++ extra)%list
       /\ (List.length extra <= 1)%nat)
  /\ (forall a b c lc,
        exists extra,
          snd (article_detail w a b c lc log) = (log ++ extra)%list
          /\ (List.length extra <= 1)%nat)
  /\ (forall a b c lc,
        exists extra,
          snd (article_detail_pdf w a b c lc log) = (log ++ extra)%list
          /\ (List.length extra <= 1)%nat)
  /\ (forall a b c,
        exists extra,
          snd (router_legacy_pdf w get_article_by_pdf_filename a b c log)
          = (log ++ extra)%list
          /\ (List.length extra <= 1)%nat).
Proof.
  assert (Hnone : exists extra : list call,
            log = (log ++ extra)%list /\ (List.length extra <= 1)%nat).
  { exists []. split; [now rewrite app_nil_r | simpl; lia]. }
  assert (Hone : forall u, exists extra : list call,
            requested log u None = (log ++ extra)%list
            /\ (List.length extra <= 1)%nat).
  { intros u. exists [(u, timeout_of None)]. split; [reflexivity | simpl; lia]. }
  assert (Hrender : forall article lang,
            exists extra,
              snd (render_html w article lang log) = (log ++ extra)%list
              /\ (List.length extra <= 1)%nat).
  { intros article lang.
    destruct (render_html_calls w article lang log) as [-> | (u & -> & _)];
      [exact Hnone | apply Hone]. }
  split; [exact Hrender|]. split; [|split].
  - intros a b c lc.
    destruct (article_detail_calls w a b c lc log) as [-> | (article & ->)];
      [exact Hnone | apply Hrender].
  - intros a b c lc.
    destruct (article_detail_pdf_calls w a b c lc log) as [-> | (path & ->)];
      [exact Hnone|]. rewrite get_content_from_ssm_log. apply Hone.
  - intros a b c.
    destruct (router_legacy_pdf_calls a b c log) as [-> | (path & ->)];
      [exact Hnone|]. rewrite get_content_from_ssm_log. apply Hone.
Qed.


(** X5: [router_legacy_pdf] looks the file up under its name followed by
    ".pdf".  An unknown file is answered 404 without a request; a known one
    is served from the storage service at the path of its address, even an
    empty path; an address that [urlparse] rejects leaves the view as a
    [ValueError], which is answered 500. *)
Theorem router_legacy_pdf_answer journal_acron issue_info pdf_filename log :
  (get_article_by_pdf_filename journal_acron issue_info (pdf_filename ++ ".pdf")
   = None ->
   router_legacy_pdf w get_article_by_pdf_filename journal_acron issue_info
     pdf_filename log
   = (Raise (HTTPException 404 (gettext w "PDF do artigo não foi encontrado")),
      log))
  /\ (forall pdf_url s H P T,
        get_article_by_pdf_filename journal_acron issue_info
          (pdf_filename ++ ".pdf") = Some pdf_url ->
        pdf_url = s ++ "://" ++ H ++ P ++ T ->
        s = "http" \/ s = "https" ->
        UrlParse.is_host H = true ->
        UrlParse.is_path P = true ->
        UrlParse.is_tail T = true ->
        netloc_valid w H = true ->
        router_legacy_pdf w get_article_by_pdf_filename journal_acron
          issue_info pdf_filename log
        = get_content_from_ssm w P log)
  /\ (forall pdf_url e,
        get_article_by_pdf_filename journal_acron issue_info
          (pdf_filename ++ ".pdf") = Some pdf_url ->
        urlparse w pdf_url = Raise e ->
        router_legacy_pdf w get_article_by_pdf_filename journal_acron
          issue_info pdf_filename log
        = (Raise (ValueError "Invalid IPv6 URL"), log)
        /\ http_status
             (fst (router_legacy_pdf w get_article_by_pdf_filename
                     journal_acron issue_info pdf_filename log))
           = 500%Z).
Proof.
  unfold router_legacy_pdf. split; [|split].
  - intros Hnone. now rewrite Hnone.
  - intros pdf_url s H P T Hsome -> Hs HH HP HT Hnet. rewrite Hsome.
    destruct (UrlParseFacts.urlparse_absolute (netloc_valid w) s H P T
                Hs HH HP HT Hnet) as (q & f & E).
    unfold bind, lift, urlparse. now rewrite E.
  - intros pdf_url e Hsome Hraise. rewrite Hsome.
    pose proof (urlparse_raise w _ _ Hraise) as ->.
    unfold bind, lift. rewrite Hraise. split; reflexivity.
Qed.

(** [article_ssm_content_raw] answers 404, and requests nothing, when the
    request has no [resource_ssm_path] argument or an empty one; otherwise
    it serves the first value of the argument. *)
Theorem article_ssm_content_raw_answer args log :
  (args_get args "resource_ssm_path" = None
   \/ args_get args "resource_ssm_path" = Some "" ->
   article_ssm_content_raw w args log
   = (Raise (HTTPException 404
               (gettext w "Recurso do Artigo não encontrado. Caminho inválido!")),
      log))
  /\ (forall path rest,
        path <> "" ->
        article_ssm_content_raw w (("resource_ssm_path", path) :: rest) log
        = get_content_from_ssm w path log).
Proof.
  unfold article_ssm_content_raw. split.
  - intros [-> | ->]; reflexivity.
  - intros path rest Hne. cbn [args_get]. rewrite String.eqb_refl.
    apply String.eqb_neq in Hne. now rewrite Hne.
Qed.

End Storage.

(** ** [article_detail] and [article_detail_pdf] around the rendering *)

Section ArticleViews.
Context {Etree Soup Tag : Type} (w : World Etree Soup Tag).

Lemma map_result_In {X Y} (f : X -> result Y) l x e :
  In x l -> f x = Raise e -> exists e', map_result f l = Raise e'.
Proof.
  induction l as [|y l IH]; simpl; [contradiction|].
  intros [-> | Hin] Hx.
  - rewrite Hx. eauto.
  - destruct (f y) as [v|e'']; [|eauto].
    destruct (IH Hin Hx) as (e' & ->). eauto.
Qed.

Lemma map_result_length {X Y} (f : X -> result Y) l ys :
  map_result f l = Ok ys -> List.length ys = List.length l.
Proof.
  revert ys. induction l as [|x l IH]; simpl; intros ys H.
  - now injection H as <-.
  - destruct (f x) as [y|e]; [|discriminate].
    destruct (map_result f l) as [ys'|e]; [|discriminate].
    injection H as <-. simpl. now rewrite (IH ys' eq_refl).
Qed.

(** X6: An article that is not public is answered 404 with the reason of the
    article; a public article of an issue that is not public, with the
    reason of the issue; a public article of a public issue of a journal
    that is not public, with the reason of the journal.  Nothing is
    requested.  This holds for [article_detail] and [article_detail_pdf]. *)
Theorem hidden_article_not_found a b c lc log issue article :
  PyStr.mem (or_original lc article) (valid_languages article) = true ->
  (finds w a b c issue article ->
   (Article.is_public article = false ->
    article_detail w a b c lc log
    = (Raise (HTTPException 404
                (ARTICLE_UNPUBLISH w
                 ++ gettext w (Article.unpublish_reason article))), log))
   /\ (Article.is_public article = true ->
       Issue.is_public (Article.issue article) = false ->
       article_detail w a b c lc log
       = (Raise (HTTPException 404
                   (ISSUE_UNPUBLISH w
                    ++ gettext w
                         (Issue.unpublish_reason (Article.issue article)))),
          log))
   /\ (Article.is_public article = true ->
       Issue.is_public (Article.issue article) = true ->
       Journal.is_public (Article.journal article) = false ->
       article_detail w a b c lc log
       = (Raise (HTTPException 404
                   (JOURNAL_UNPUBLISH w
                    ++ gettext w
                         (Journal.unpublish_reason (Article.journal article)))),
          log)))
  /\ (finds_pdf w a b c issue article ->
      (Article.is_public article = false ->
       article_detail_pdf w a b c lc log
       = (Raise (HTTPException 404
                   (ARTICLE_UNPUBLISH w
                    ++ gettext w (Article.unpublish_reason article))), log))
      /\ (Article.is_public article = true ->
          Issue.is_public (Article.issue article) = false ->
          article_detail_pdf w a b c lc log
          = (Raise (HTTPException 404
                      (ISSUE_UNPUBLISH w
                       ++ gettext w
                            (Issue.unpublish_reason (Article.issue article)))),
             log))
      /\ (Article.is_public article = true ->
          Issue.is_public (Article.issue article) = true ->
          Journal.is_public (Article.journal article) = false ->
          article_detail_pdf w a b c lc log
          = (Raise (HTTPException 404
                      (JOURNAL_UNPUBLISH w
                       ++ gettext w
                            (Journal.unpublish_reason
                               (Article.journal article)))),
             log))).
Proof.
  intros Hvalid. split.
  - intros [Hissue Harticle].
    unfold article_detail. rewrite Hissue. cbv zeta. rewrite Harticle, Hvalid.
    cbn [negb]. repeat split.
    + intros Ha. now rewrite Ha.
    + intros Ha Hi. now rewrite Ha, Hi.
    + intros Ha Hi Hj. now rewrite Ha, Hi, Hj.
  - intros [Hissue Harticle].
    unfold article_detail_pdf. rewrite Hissue, Harticle. cbv zeta.
    rewrite Hvalid. cbn [negb]. repeat split.
    + intros Ha. now rewrite Ha.
    + intros Ha Hi. now rewrite Ha, Hi.
    + intros Ha Hi Hj. now rewrite Ha, Hi, Hj.
Qed.

(** X7: [article_detail] parses the address of every PDF of the article before
    it renders anything.  If [urlparse] rejects one of them, the answer is
    404 and nothing is requested; in a rendered page the context holds one
    path for each PDF of the article. *)
Theorem article_detail_pdf_addresses a b c lc log issue article :
  finds w a b c issue article ->
  PyStr.mem (or_original lc article) (valid_languages article) = true ->
  published article = true ->
  (forall pdf e,
     In pdf (Article.pdfs article) ->
     urlparse w (Descriptor.url pdf) = Raise e ->
     article_detail w a b c lc log = (Raise (pdf_not_found w), log))
  /\ (forall template context,
        fst (article_detail w a b c lc log)
        = Ok (RenderTemplate template context) ->
        List.length (ctx_pdf_urls_path context)
        = List.length (Article.pdfs article)
        /\ exists parsed,
             map_result (urlparse w)
               (List.map Descriptor.url (Article.pdfs article)) = Ok parsed
             /\ ctx_pdf_urls_path context = List.map UrlParse.path parsed).
Proof.
  intros Hfinds Hvalid Hpub.
  rewrite (article_detail_outcome w _ _ _ _ _ _ _ Hfinds Hvalid Hpub).
  split.
  - intros pdf e Hin Hraise.
    destruct (map_result_In (urlparse w)
                (List.map Descriptor.url (Article.pdfs article))
                (Descriptor.url pdf) e (in_map _ _ _ Hin) Hraise) as (e' & ->).
    reflexivity.
  - intros template context.
    destruct (map_result (urlparse w) _) as [parsed|e] eqn:E; [|discriminate].
    destruct (render_html w article (or_original lc article) log)
      as [[[html text_languages]|e] log'].
    + cbn [fst]. intros H. injection H as _ <-. cbn [ctx_pdf_urls_path].
      split; [|eauto].
      now rewrite length_map, (map_result_length _ _ _ E), length_map.
    + destruct (isinstance_any e _); discriminate.
Qed.

(** X8: An article without XML is rendered from its HTML descriptors.  When the
    first descriptor of the language is fetched and decoded, the page shows
    the decoded text, the language, the languages of all the descriptors and
    the paths of the PDF addresses, after one request to the normalised
    address.  When [urlparse] rejects the address of the descriptor, the
    answer is 404 and nothing is requested; when the body is not UTF-8, the
    answer is 404. *)
Theorem article_detail_from_html a b c lc log issue article d rest parsed :
  finds w a b c issue article ->
  PyStr.mem (or_original lc article) (valid_languages article) = true ->
  published article = true ->
  truthy_str (Article.xml article) = false ->
  matching (or_original lc article) (Article.htmls article) = d :: rest ->
  map_result (urlparse w) (List.map Descriptor.url (Article.pdfs article))
  = Ok parsed ->
  (forall e,
     normalize_ssm_url w (Descriptor.url d) = Raise e ->
     article_detail w a b c lc log = (Raise (html_not_found w), log))
  /\ (forall u r,
        normalize_ssm_url w (Descriptor.url d) = Ok u ->
        requests_get w u 2 = Ok r ->
        raise_for_status w r = None ->
        (decode_utf8 w (content r) = None ->
         article_detail w a b c lc log
         = (Raise (html_not_found w), requested log u None))
        /\ (forall text,
              decode_utf8 w (content r) = Some text ->
              article_detail w a b c lc log
              = (Ok (RenderTemplate "article/detail.html"
                       (mkContext Tag article issue (FragStr text)
                          (Article.pdfs article)
                          (List.map UrlParse.path parsed)
                          (or_original lc article)
                          (List.map Descriptor.lang (Article.htmls article)))),
                 requested log u None))).
Proof.
  intros Hfinds Hvalid Hpub Hxml Hm Hparsed.
  assert (Hhtmls : Article.htmls article <> []).
  { intros E. rewrite E in Hm. discriminate. }
  rewrite (article_detail_outcome w _ _ _ _ _ _ _ Hfinds Hvalid Hpub), Hparsed.
  rewrite (render_html_htmls w _ _ _ Hxml Hhtmls).
  split.
  - intros e Hraise. pose proof (normalize_raise w _ _ Hraise) as ->.
    unfold render_html_from_html. unfold matching in Hm. rewrite Hm.
    unfold bind, lift. rewrite Hraise. reflexivity.
  - intros u r Hu Hget Hrfs.
    rewrite (render_html_from_html_first w _ _ _ _ _ _ Hm Hu).
    rewrite (fetch_data_ok w u None log r Hget Hrfs).
    split.
    + intros Hdec. now rewrite Hdec.
    + intros text Hdec. now rewrite Hdec.
Qed.

(** X9: An article with an XML address is rendered from the XML.  When the
    document is fetched, parsed and generated, the page is rendered with the
    element "standalonearticle" of the generated HTML, or with [None] in its
    place when the HTML has no such element, and with the languages of the
    generator.  When the generator raises an error that is a [ValueError],
    the answer is 404. *)
Theorem article_detail_from_xml a b c lc log issue article x u r doc gen parsed :
  finds w a b c issue article ->
  PyStr.mem (or_original lc article) (valid_languages article) = true ->
  published article = true ->
  Article.xml article = Some x ->
  x <> "" ->
  (if SSM_XML_URL_REWRITE w then normalize_ssm_url w x else Ok x) = Ok u ->
  map_result (urlparse w) (List.map Descriptor.url (Article.pdfs article))
  = Ok parsed ->
  requests_get w u 2 = Ok r ->
  raise_for_status w r = None ->
  etree_parse w (content r) = Ok doc ->
  HTMLGenerator_parse w doc = Ok gen ->
  (forall tree,
     generate gen (or_original lc article) = Ok tree ->
     article_detail w a b c lc log
     = (Ok (RenderTemplate "article/detail.html"
              (mkContext Tag article issue
                 (found_tag
                    (soup_find w (BeautifulSoup w (etree_tostring w tree))
                       "div" "standalonearticle"))
                 (Article.pdfs article) (List.map UrlParse.path parsed)
                 (or_original lc article) (generator_languages gen))),
        requested log u None))
  /\ (forall tree,
        generate gen (or_original lc article) = Ok tree ->
        soup_find w (BeautifulSoup w (etree_tostring w tree))
          "div" "standalonearticle" = None ->
        exists context,
          fst (article_detail w a b c lc log)
          = Ok (RenderTemplate "article/detail.html" context)
          /\ ctx_html context = FragNone)
  /\ (forall e,
        generate gen (or_original lc article) = Raise e ->
        isinstance e "ValueError" = true ->
        article_detail w a b c lc log
        = (Raise (html_not_found w), requested log u None)).
Proof.
  intros Hfinds Hvalid Hpub Hxml Hne Hu Hparsed Hget Hrfs Hdoc Hgen.
  assert (Hrender : forall lang,
    render_html w article lang log
    = match generate gen lang with
      | Ok tree =>
          (Ok (found_tag
                 (soup_find w (BeautifulSoup w (etree_tostring w tree))
                    "div" "standalonearticle"),
               generator_languages gen), requested log u None)
      | Raise e => (Raise e, requested log u None)
      end).
  { intros lang. unfold render_html. rewrite Hxml. cbn [truthy_str].
    apply String.eqb_neq in Hne. rewrite Hne. cbn [negb].
    pose proof (fetch_data_ok w u None log r Hget Hrfs) as Hfetch.
    unfold render_html_from_xml. rewrite Hxml.
    assert (Hfirst :
      (if SSM_XML_URL_REWRITE w
       then u0 <- lift (normalize_ssm_url w x) ;; fetch_data w u0 None
       else fetch_data w x None) log = fetch_data w u None log).
    { destruct (SSM_XML_URL_REWRITE w).
      - unfold bind, lift. now rewrite Hu.
      - now injection Hu as ->. }
    unfold bind at 1. rewrite Hfirst, Hfetch.
    unfold bind, lift, ret. rewrite Hdoc, Hgen.
    destruct (generate gen lang); reflexivity. }
  rewrite (article_detail_outcome w _ _ _ _ _ _ _ Hfinds Hvalid Hpub), Hparsed.
  rewrite Hrender. split; [|split].
  - intros tree Htree. now rewrite Htree.
  - intros tree Htree Hfind. rewrite Htree. eexists. split; [reflexivity|].
    cbn [ctx_html]. now rewrite Hfind.
  - intros e Hraise Hval. rewrite Hraise.
    unfold isinstance_any. cbn [existsb]. now rewrite Hval.
Qed.

End ArticleViews.

(** ** The session and the locale *)

Section DictFacts.
Context {V : Type}.

Lemma dict_get_set_same (d : dict V) k v : dict_get (dict_set d k v) k = Some v.
Proof.
  induction d as [|[k' v'] d IH]; simpl.
  - now rewrite String.eqb_refl.
  - destruct (String.eqb k' k) eqn:E; simpl.
    + now rewrite String.eqb_refl.
    + now rewrite E.
Qed.

Lemma dict_get_set_other (d : dict V) k v k' :
  k' <> k -> dict_get (dict_set d k v) k' = dict_get d k'.
Proof.
  intros Hne. induction d as [|[k0 v0] d IH]; simpl.
  - apply String.eqb_neq in Hne. rewrite String.eqb_sym. now rewrite Hne.
  - destruct (String.eqb k0 k) eqn:E; simpl.
    + apply String.eqb_eq in E. subst k0.
      assert (E' : String.eqb k k' = false)
        by (apply String.eqb_neq; congruence).
      now rewrite E'.
    + destruct (String.eqb k0 k'); [reflexivity | exact IH].
Qed.

Lemma dict_set_same (d : dict V) k v : dict_get d k = Some v -> dict_set d k v = d.
Proof.
  induction d as [|[k' v'] d IH]; simpl; [discriminate|].
  destruct (String.eqb k' k) eqn:E.
  - intros H. injection H as ->. apply String.eqb_eq in E. now subst.
  - intros H. now rewrite (IH H).
Qed.

Lemma dict_mem_keys (d : dict V) k :
  PyStr.mem k (dict_keys d) = true <-> exists v, dict_get d k = Some v.
Proof.
  unfold PyStr.mem, dict_keys. induction d as [|[k' v'] d IH]; simpl.
  - split; [discriminate | intros [v H]; discriminate].
  - rewrite String.eqb_sym. destruct (String.eqb k' k); simpl.
    + split; eauto.
    + exact IH.
Qed.

Lemma dict_not_mem_keys (d : dict V) k :
  PyStr.mem k (dict_keys d) = false <-> dict_get d k = None.
Proof.
  destruct (PyStr.mem k (dict_keys d)) eqn:E.
  - apply dict_mem_keys in E as [v E]. rewrite E. split; discriminate.
  - split; [|reflexivity]. intros _.
    destruct (dict_get d k) as [v|] eqn:G; [|reflexivity].
    assert (H : PyStr.mem k (dict_keys d) = true)
      by (apply dict_mem_keys; eauto).
    congruence.
Qed.

End DictFacts.

Section LocaleFacts.
Context {Etree Soup Tag : Type} (w : World Etree Soup Tag).
Variable LANGUAGES : dict string.
Variable BABEL_DEFAULT_LOCALE : option string.
Variable best_match : list string -> option string.

Let header : option string := best_match (dict_keys LANGUAGES).

(** [get_locale] when the session has the key. *)
Lemma get_locale_present (session : Session) lang :
  dict_get session "lang" = Some lang ->
  get_locale LANGUAGES BABEL_DEFAULT_LOCALE best_match session
  = if negb (truthy_str header) && negb (truthy_str lang)
    then (Ok BABEL_DEFAULT_LOCALE, dict_set session "lang" BABEL_DEFAULT_LOCALE)
    else (Ok lang, session).
Proof.
  intros Hget. unfold get_locale. fold header.
  assert (Hmem : PyStr.mem "lang" (dict_keys session) = true)
    by (apply dict_mem_keys; eauto).
  rewrite Hmem. cbn [negb]. rewrite Hget.
  destruct (negb (truthy_str header) && negb (truthy_str lang)).
  - now rewrite dict_get_set_same.
  - now rewrite Hget.
Qed.

(** [get_locale] when the session does not have the key. *)
Lemma get_locale_absent (session : Session) :
  dict_get session "lang" = None ->
  get_locale LANGUAGES BABEL_DEFAULT_LOCALE best_match session
  = if truthy_str header
    then (Ok header, dict_set session "lang" header)
    else (Ok BABEL_DEFAULT_LOCALE,
          dict_set (dict_set session "lang" header) "lang"
            BABEL_DEFAULT_LOCALE).
Proof.
  intros Hget. unfold get_locale. fold header.
  rewrite (proj2 (dict_not_mem_keys session "lang") Hget). cbn [negb].
  rewrite dict_get_set_same.
  destruct (truthy_str header); cbn [negb andb].
  - now rewrite dict_get_set_same.
  - now rewrite dict_get_set_same.
Qed.

(** After [get_locale] the session holds the language it returned. *)
Lemma get_locale_holds (session : Session) :
  exists lang session',
    get_locale LANGUAGES BABEL_DEFAULT_LOCALE best_match session
    = (Ok lang, session')
    /\ dict_get session' "lang" = Some lang.
Proof.
  destruct (dict_get session "lang") as [lang|] eqn:Hget.
  - rewrite (get_locale_present _ _ Hget).
    destruct (negb (truthy_str header) && negb (truthy_str lang));
      eexists _, _; (split; [reflexivity|]);
      [apply dict_get_set_same | assumption].
  - rewrite (get_locale_absent _ Hget).
    destruct (truthy_str header);
      eexists _, _; (split; [reflexivity | apply dict_get_set_same]).
Qed.

(** X10: [get_locale] never fails: it returns the language that the session
    holds once it has run, and changes no other key of the session. *)
Theorem get_locale_stores_its_answer (session : Session) :
  exists lang session',
    get_locale LANGUAGES BABEL_DEFAULT_LOCALE best_match session
    = (Ok lang, session')
    /\ dict_get session' "lang" = Some lang
    /\ forall key, key <> "lang" -> dict_get session' key = dict_get session key.
Proof.
  destruct (dict_get session "lang") as [lang|] eqn:Hget.
  - rewrite (get_locale_present _ _ Hget).
    destruct (negb (truthy_str header) && negb (truthy_str lang)).
    + eexists _, _. split; [reflexivity|]. split.
      * apply dict_get_set_same.
      * intros key Hkey. now apply dict_get_set_other.
    + eexists _, _. split; [reflexivity|]. split; [assumption | reflexivity].
  - rewrite (get_locale_absent _ Hget).
    destruct (truthy_str header).
    + eexists _, _. split; [reflexivity|]. split.
      * apply dict_get_set_same.
      * intros key Hkey. now apply dict_get_set_other.
    + eexists _, _. split; [reflexivity|]. split.
      * apply dict_get_set_same.
      * intros key Hkey. now rewrite !dict_get_set_other.
Qed.

(** X11: The language of the session comes before the headers of the request,
    and the headers before the default locale.  A non-empty language in
    the session is returned and the session is left as it is, whatever the
    headers.  A session without the key takes the language of the headers,
    or the default locale when the headers give none.  An empty language in
    the session is replaced by the default locale only when the headers give
    none: when they give one, the empty language is returned. *)
Theorem get_locale_precedence (session : Session) :
  (forall lang,
     dict_get session "lang" = Some (Some lang) -> lang <> "" ->
     get_locale LANGUAGES BABEL_DEFAULT_LOCALE best_match session
     = (Ok (Some lang), session))
  /\ (forall lang,
        dict_get session "lang" = None ->
        best_match (dict_keys LANGUAGES) = Some lang -> lang <> "" ->
        get_locale LANGUAGES BABEL_DEFAULT_LOCALE best_match session
        = (Ok (Some lang), dict_set session "lang" (Some lang)))
  /\ (dict_get session "lang" = None ->
      truthy_str (best_match (dict_keys LANGUAGES)) = false ->
      fst (get_locale LANGUAGES BABEL_DEFAULT_LOCALE best_match session)
      = Ok BABEL_DEFAULT_LOCALE)
  /\ (forall empty,
        dict_get session "lang" = Some empty -> truthy_str empty = false ->
        (truthy_str (best_match (dict_keys LANGUAGES)) = false ->
         get_locale LANGUAGES BABEL_DEFAULT_LOCALE best_match session
         = (Ok BABEL_DEFAULT_LOCALE,
            dict_set session "lang" BABEL_DEFAULT_LOCALE))
        /\ (truthy_str (best_match (dict_keys LANGUAGES)) = true ->
            get_locale LANGUAGES BABEL_DEFAULT_LOCALE best_match session
            = (Ok empty, session))).
Proof.
  split; [|split; [|split]].
  - intros lang Hget Hne. rewrite (get_locale_present _ _ Hget).
    cbn [truthy_str]. apply String.eqb_neq in Hne. rewrite Hne.
    now rewrite andb_false_r.
  - intros lang Hget Hhead Hne. rewrite (get_locale_absent _ Hget).
    unfold header. rewrite Hhead. cbn [truthy_str].
    apply String.eqb_neq in Hne. now rewrite Hne.
  - intros Hget Hhead. rewrite (get_locale_absent _ Hget).
    unfold header. now rewrite Hhead.
  - intros empty Hget Hempty. rewrite (get_locale_present _ _ Hget).
    unfold header. rewrite Hempty. split; intros Hhead; now rewrite Hhead.
Qed.

(** X12: Calling [get_locale] again in the same request changes nothing: it
    returns the same language and leaves the session as the first call left
    it. *)
Theorem get_locale_idempotent (session : Session) :
  get_locale LANGUAGES BABEL_DEFAULT_LOCALE best_match
    (snd (get_locale LANGUAGES BABEL_DEFAULT_LOCALE best_match session))
  = get_locale LANGUAGES BABEL_DEFAULT_LOCALE best_match session.
Proof.
  destruct (dict_get session "lang") as [lang|] eqn:Hget.
  - rewrite (get_locale_present _ _ Hget).
    destruct (negb (truthy_str header) && negb (truthy_str lang)) eqn:E.
    + cbn [snd].
      rewrite (get_locale_present _ BABEL_DEFAULT_LOCALE
                 (dict_get_set_same _ _ _)).
      apply andb_true_iff in E as [Eh _]. rewrite Eh. cbn [andb].
      destruct (negb (truthy_str BABEL_DEFAULT_LOCALE)); [|reflexivity].
      now rewrite (dict_set_same (dict_set session "lang" BABEL_DEFAULT_LOCALE)
                     "lang" BABEL_DEFAULT_LOCALE (dict_get_set_same _ _ _)).
    + cbn [snd]. rewrite (get_locale_present _ _ Hget). now rewrite E.
  - rewrite (get_locale_absent _ Hget).
    destruct (truthy_str header) eqn:Eh.
    + cbn [snd].
      rewrite (get_locale_present _ header (dict_get_set_same _ _ _)).
      now rewrite Eh.
    + cbn [snd].
      rewrite (get_locale_present _ BABEL_DEFAULT_LOCALE
                 (dict_get_set_same _ _ _)).
      rewrite Eh. cbn [negb andb].
      destruct (negb (truthy_str BABEL_DEFAULT_LOCALE)); [|reflexivity].
      now rewrite (dict_set_same
                     (dict_set (dict_set session "lang" header) "lang"
                        BABEL_DEFAULT_LOCALE)
                     "lang" BABEL_DEFAULT_LOCALE (dict_get_set_same _ _ _)).
Qed.

(** X13: [session.get('lang', get_locale())] is [get_locale()]: the language
    that [add_language_code] writes in the cookie is the one [get_locale]
    returns. *)
Theorem language_cookie_is_locale (response : dict (option string))
    (session : Session) :
  session_lang LANGUAGES BABEL_DEFAULT_LOCALE best_match session
  = get_locale LANGUAGES BABEL_DEFAULT_LOCALE best_match session
  /\ exists lang session',
       get_locale LANGUAGES BABEL_DEFAULT_LOCALE best_match session
       = (Ok lang, session')
       /\ add_language_code LANGUAGES BABEL_DEFAULT_LOCALE best_match response
            session
          = (Ok (dict_set response "language" lang), session')
       /\ dict_get (dict_set response "language" lang) "language" = Some lang.
Proof.
  destruct (get_locale_holds session) as (lang & session' & E & Hlang).
  assert (Hs : session_lang LANGUAGES BABEL_DEFAULT_LOCALE best_match session
               = (Ok lang, session')).
  { unfold session_lang. now rewrite E, Hlang. }
  split; [now rewrite Hs, E|].
  exists lang, session'. split; [assumption|]. split.
  - unfold add_language_code. now rewrite Hs.
  - apply dict_get_set_same.
Qed.

(** X14: [set_locale] refuses a code that is not a key of [LANGUAGES] with 400,
    and fails with a [TypeError] when the request has a hash and no
    referrer; in both cases the session is left as it is.  Otherwise it
    stores the code in the session and ends with [redirect] of the
    referrer, followed by "#" and the hash when there is one. *)
Theorem set_locale_answer referrer args lang_code (session : Session) :
  (PyStr.mem lang_code (dict_keys LANGUAGES) = false ->
   set_locale w LANGUAGES referrer args lang_code session
   = (Raise (HTTPException 400 (gettext w "Código de idioma inválido")),
      session))
  /\ (forall hash,
        PyStr.mem lang_code (dict_keys LANGUAGES) = true ->
        args_get args "hash" = Some hash -> hash <> "" ->
        (referrer = None ->
         exists e,
           set_locale w LANGUAGES referrer args lang_code session
           = (Raise e, session)
           /\ isinstance e "TypeError" = true)
        /\ (forall r,
              referrer = Some r ->
              set_locale w LANGUAGES referrer args lang_code session
              = (Ok (redirect (Some (r ++ "#" ++ hash)) 302),
                 dict_set session "lang" (Some lang_code))))
  /\ (PyStr.mem lang_code (dict_keys LANGUAGES) = true ->
      truthy_str (args_get args "hash") = false ->
      set_locale w LANGUAGES referrer args lang_code session
      = (Ok (redirect referrer 302), dict_set session "lang" (Some lang_code))).
Proof.
  unfold set_locale. split; [|split].
  - intros H. now rewrite H.
  - intros hash Hmem Hhash Hne. rewrite Hmem, Hhash. cbn [negb].
    apply String.eqb_neq in Hne. rewrite Hne. split.
    + intros ->. eexists. split; reflexivity.
    + intros r ->. reflexivity.
  - intros Hmem Hhash. rewrite Hmem. cbn [negb].
    destruct (args_get args "hash") as [hash|]; [|reflexivity].
    cbn [truthy_str] in Hhash. apply negb_false_iff in Hhash.
    now rewrite Hhash.
Qed.

(** X15: The language chosen with [set_locale] is the language that
    [get_locale] returns afterwards, whatever the headers of the later
    request; and the language in the session after [set_locale] is the one
    it had before or a key of [LANGUAGES]. *)
Theorem set_locale_then_get_locale referrer args lang_code (session : Session)
    answer session' :
  set_locale w LANGUAGES referrer args lang_code session = (answer, session') ->
  (session' = session
   \/ (session' = dict_set session "lang" (Some lang_code)
       /\ In lang_code (dict_keys LANGUAGES)))
  /\ (forall location,
        answer = Ok location -> lang_code <> "" ->
        get_locale LANGUAGES BABEL_DEFAULT_LOCALE best_match session'
        = (Ok (Some lang_code), session')).
Proof.
  unfold set_locale.
  destruct (PyStr.mem lang_code (dict_keys LANGUAGES)) eqn:Hmem; cbn [negb].
  2:{ intros H. injection H as <- <-. split; [now left | discriminate]. }
  apply mem_In in Hmem.
  destruct (match args_get args "hash" with
            | Some hash =>
                if String.eqb hash "" then Ok referrer
                else match referrer with
                     | Some r => Ok (Some (r ++ "#" ++ hash))
                     | None =>
                         Raise (TypeError
                           "unsupported operand type(s) for +=: 'NoneType' and 'str'")
                     end
            | None => Ok referrer
            end) as [loc|e].
  - intros H. injection H as <- <-. split; [right; now split|].
    intros location _ Hne.
    rewrite (get_locale_present _ (Some lang_code) (dict_get_set_same _ _ _)).
    cbn [truthy_str]. apply String.eqb_neq in Hne. rewrite Hne.
    now rewrite andb_false_r.
  - intros H. injection H as <- <-. split; [now left | discriminate].
Qed.

End LocaleFacts.

(** ** The lists of journals *)

Section CollectionFacts.
Context {Etree Soup Tag : Type} (w : World Etree Soup Tag).
Context {JournalDoc Json Objects Rows : Type}.
Variable BABEL_DEFAULT_LOCALE : option string.
Variable get_journals : string -> list JournalDoc.
Variable get_journal_json_data : JournalDoc -> Json.
Variable get_journals_grouped_by : string -> string -> string -> string -> Objects.
Variable get_journal_generator_for_csv : string -> string -> string -> Rows.

Lemma sanitised (allowed : list string) (value fallback : string) :
  In fallback allowed ->
  In (if negb (PyStr.mem value allowed) then fallback else value) allowed.
Proof.
  intros Hfallback. destruct (PyStr.mem value allowed) eqn:E; cbn [negb].
  - now apply mem_In.
  - assumption.
Qed.

(** X16: [collection_list] gives the controllers, and the template, a status
    filter that is "current", "no-current" or empty: any other value of the
    argument [status] counts as empty, and an allowed one is kept. *)
Theorem collection_list_filter (args : list (string * string)) :
  In (list_query_filter (template_context
        (collection_list get_journals get_journal_json_data args)))
     ["current"; "no-current"; ""]
  /\ journals_list (template_context
        (collection_list get_journals get_journal_json_data args))
     = List.map get_journal_json_data
         (get_journals
            (list_query_filter (template_context
               (collection_list get_journals get_journal_json_data args))))
  /\ (In (args_get_default args "status" "") ["current"; "no-current"; ""] ->
      list_query_filter (template_context
        (collection_list get_journals get_journal_json_data args))
      = args_get_default args "status" "")
  /\ (~ In (args_get_default args "status" "") ["current"; "no-current"; ""] ->
      list_query_filter (template_context
        (collection_list get_journals get_journal_json_data args))
      = "").
Proof.
  unfold collection_list. cbn [template_context list_query_filter journals_list].
  split; [apply sanitised; simpl; auto|].
  split; [reflexivity|]. split.
  - intros H. apply mem_In in H. now rewrite H.
  - intros H. now rewrite (not_mem _ _ H).
Qed.

(** X17: Whatever the arguments of the request, [collection_list_thematic] never
    fails on its table of fields when the language of the session is a
    string: the filter it uses is "areas", "wos" or "publisher" ("areas" for
    any other value), the status is "current", "no-current" or empty, and
    the journals are grouped by the field of the filter, for the first two
    letters of the language in lower case.  When the language is [None],
    the view fails with a [TypeError]. *)
Theorem collection_list_thematic_answer (args : list (string * string))
    (session : Session) :
  (forall lang,
     get_lang_from_session BABEL_DEFAULT_LOCALE session = Some lang ->
     exists field status thematic,
       collection_list_thematic BABEL_DEFAULT_LOCALE get_journals_grouped_by
         args session
       = Ok (render_template "collection/list_thematic.html"
               (mkThematicContext
                  (get_journals_grouped_by field
                     (args_get_default args "query" "") status
                     (PyStr.lower (first_two lang)))
                  status thematic))
       /\ In (thematic, field)
            [("areas", "study_areas"); ("wos", "subject_categories");
             ("publisher", "publisher_name")]
       /\ In status ["current"; "no-current"; ""]
       /\ (In (args_get_default args "filter" "areas")
             ["areas"; "wos"; "publisher"] ->
           thematic = args_get_default args "filter" "areas")
       /\ (~ In (args_get_default args "filter" "areas")
               ["areas"; "wos"; "publisher"] ->
           thematic = "areas"))
  /\ (get_lang_from_session BABEL_DEFAULT_LOCALE session = None ->
      exists e,
        collection_list_thematic BABEL_DEFAULT_LOCALE get_journals_grouped_by
          args session = Raise e
        /\ isinstance e "TypeError" = true).
Proof.
  split.
  - intros lang Hlang.
    unfold collection_list_thematic, session_lang_code. rewrite Hlang.
    set (status := if negb (PyStr.mem (args_get_default args "status" "")
                              ["current"; "no-current"; ""])
                   then "" else args_get_default args "status" "").
    set (thematic := if negb (PyStr.mem (args_get_default args "filter" "areas")
                                ["areas"; "wos"; "publisher"])
                     then "areas" else args_get_default args "filter" "areas").
    assert (Hstatus : In status ["current"; "no-current"; ""])
      by (apply sanitised; simpl; auto).
    assert (Hthematic : In thematic ["areas"; "wos"; "publisher"])
      by (apply sanitised; simpl; auto).
    assert (Hfield : exists field,
              dict_get thematic_table thematic = Some field
              /\ In (thematic, field)
                   [("areas", "study_areas"); ("wos", "subject_categories");
                    ("publisher", "publisher_name")]).
    { destruct Hthematic as [<- | [<- | [<- | []]]];
        eexists; (split; [reflexivity | simpl; auto]). }
    destruct Hfield as (field & Hget & Hin). rewrite Hget.
    exists field, status, thematic.
    split; [reflexivity|]. split; [assumption|]. split; [assumption|].
    subst thematic. split.
    + intros H. apply mem_In in H. now rewrite H.
    + intros H. now rewrite (not_mem _ _ H).
  - intros Hlang. unfold collection_list_thematic, session_lang_code.
    rewrite Hlang. eexists. split; reflexivity.
Qed.

(** X18: For the filters "areas", "wos" and "publisher" and an allowed status,
    the AJAX search groups the journals exactly as the page does.  For any
    other filter the page falls back to "areas", whereas the AJAX search
    returns, without failing, a JSON object with the error 401.  A request
    that is not AJAX is answered 400. *)
Theorem theme_ajax_and_page (args : list (string * string)) (session : Session) :
  (forall page,
     In (args_get_default args "filter" "areas") ["areas"; "wos"; "publisher"] ->
     In (args_get_default args "status" "") ["current"; "no-current"; ""] ->
     args_get_default args "query_filter" ""
     = args_get_default args "status" "" ->
     collection_list_thematic BABEL_DEFAULT_LOCALE get_journals_grouped_by
       args session = Ok page ->
     journals_search_by_theme_ajax w BABEL_DEFAULT_LOCALE
       get_journals_grouped_by true args session
     = Ok (JsonObjects (objects (template_context page))))
  /\ (forall lang,
        ~ In (args_get_default args "filter" "areas")
            ["areas"; "wos"; "publisher"] ->
        get_lang_from_session BABEL_DEFAULT_LOCALE session = Some lang ->
        exists message,
          journals_search_by_theme_ajax w BABEL_DEFAULT_LOCALE
            get_journals_grouped_by true args session
          = Ok (JsonError 401 message))
  /\ journals_search_by_theme_ajax w BABEL_DEFAULT_LOCALE
       get_journals_grouped_by false args session
     = Raise (HTTPException 400
                (gettext w "Requisição inválida. Deve ser por ajax")).
Proof.
  split; [|split].
  - intros page Hfilter Hstatus Hsame.
    unfold collection_list_thematic, journals_search_by_theme_ajax.
    cbn [negb]. rewrite Hsame.
    rewrite (proj2 (mem_In _ _) Hfilter), (proj2 (mem_In _ _) Hstatus).
    cbn [negb].
    destruct (session_lang_code BABEL_DEFAULT_LOCALE session) as [lang|e];
      [|discriminate].
    destruct Hfilter as [<- | [<- | [<- | []]]]; cbn;
      intros H; injection H as <-; reflexivity.
  - intros lang Hfilter Hlang.
    unfold journals_search_by_theme_ajax, session_lang_code.
    cbn [negb]. rewrite Hlang.
    destruct (String.eqb (args_get_default args "filter" "areas") "areas") eqn:E1.
    { apply String.eqb_eq in E1. exfalso. apply Hfilter. rewrite E1.
      simpl; auto. }
    destruct (String.eqb (args_get_default args "filter" "areas") "wos") eqn:E2.
    { apply String.eqb_eq in E2. exfalso. apply Hfilter. rewrite E2.
      simpl; auto. }
    destruct (String.eqb (args_get_default args "filter" "areas") "publisher")
      eqn:E3.
    { apply String.eqb_eq in E3. exfalso. apply Hfilter. rewrite E3.
      simpl; auto. }
    eexists. reflexivity.
  - reflexivity.
Qed.

(** X19: [download_journal_list] checks the extension and the type of list
    without regard to case, the extension first, and answers 401 to a value
    it does not know.  Two requests that differ only in the case of the two
    values are both refused with the same error, or both accepted with the
    same type of content; the name of the file keeps the case of the
    request. *)
Theorem download_journal_list_case timestamp args t1 e1 t2 e2 :
  PyStr.lower e1 = PyStr.lower e2 ->
  PyStr.lower t1 = PyStr.lower t2 ->
  match download_journal_list w get_journal_generator_for_csv timestamp args t1 e1,
        download_journal_list w get_journal_generator_for_csv timestamp args t2 e2
  with
  | Ok d1, Ok d2 =>
      download_mimetype d1 = download_mimetype d2
      /\ In (download_mimetype d1) ["application/vnd.ms-excel"; "text/csv"]
      /\ content_disposition d1
         = "attachment; filename=journals_" ++ t1 ++ "_" ++ timestamp
           ++ "." ++ e1
      /\ (t1 = t2 -> download_data d1 = download_data d2)
  | Raise x1, Raise x2 => x1 = x2 /\ exists msg, x1 = HTTPException 401 msg
  | _, _ => False
  end.
Proof.
  intros He Ht. unfold download_journal_list. rewrite <- He, <- Ht.
  destruct (PyStr.mem (PyStr.lower e1) ["csv"; "xls"]); cbn [negb].
  2:{ split; [reflexivity | eauto]. }
  destruct (PyStr.mem (PyStr.lower t1) ["alpha"; "areas"; "wos"; "publisher"]);
    cbn [negb].
  2:{ split; [reflexivity | eauto]. }
  cbn [download_mimetype content_disposition download_data].
  split; [reflexivity|]. split.
  - destruct (String.eqb (PyStr.lower e1) "xls"); simpl; auto.
  - split; [reflexivity|]. intros ->. reflexivity.
Qed.

End CollectionFacts.

(** ** Sharing by e-mail *)

Module SplitFacts.
Import PyStr PyStrFacts StripFacts.

(** No piece of [s.split(sep)] holds the separator. *)
Lemma str_split_pieces sep s :
  Forall (fun piece => contains sep piece = false) (str_split sep s).
Proof.
  induction s as [|c s IH]; simpl.
  - repeat constructor.
  - destruct (Ascii.eqb c sep) eqn:E.
    + constructor; [reflexivity | exact IH].
    + assert (E' : Ascii.eqb sep c = false)
        by (rewrite Ascii.eqb_sym; exact E).
      destruct (str_split sep s) as [|head tail].
      * repeat constructor. simpl. now rewrite E'.
      * inversion IH as [|? ? Hhead Htail]; subst.
        constructor; [|assumption]. simpl. now rewrite E', Hhead.
Qed.

End SplitFacts.

Section EmailShareFacts.
Context {Etree Soup Tag : Type} (w : World Etree Soup Tag).
Context {Message Errors : Type}.
Variable str_of_message : Message -> string.
Variable send_email_share :
  string -> list string -> string -> string -> string -> bool * Message.

(** X20: [email_share_ajax] sends the message to the pieces of the field
    [recipients] between the ";", stripped, without the blank ones: no
    recipient is empty, begins or ends with whitespace, or holds a ";".  A
    request that is not AJAX is answered 400. *)
Theorem email_share_ajax_recipients (form : @Form Errors)
    field your_email share_url subject comment :
  form_validate form = true ->
  dict_get (form_data form) "recipients" = Some field ->
  dict_get (form_data form) "your_email" = Some your_email ->
  dict_get (form_data form) "share_url" = Some share_url ->
  dict_get (form_data form) "subject" = Some subject ->
  dict_get (form_data form) "comment" = Some comment ->
  (exists recipients,
     email_share_ajax w str_of_message send_email_share true form
     = Ok (mkShareJson
             (fst (send_email_share your_email recipients share_url subject
                     comment))
             (inl (str_of_message
                     (snd (send_email_share your_email recipients share_url
                             subject comment))))
             (dict_keys (form_data form)))
     /\ Forall (fun r => r <> "" /\ PyStr.strip r = r
                         /\ PyStr.contains ";" r = false) recipients
     /\ forall r,
          In r recipients <->
          r <> "" /\ exists piece,
                       In piece (str_split ";" field) /\ r = PyStr.strip piece)
  /\ email_share_ajax w str_of_message send_email_share false form
     = Raise (HTTPException 400 (gettext w "Requisição inválida.")).
Proof.
  intros Hvalid Hr Hy Hu Hs Hc. split; [|reflexivity].
  set (recipients :=
         List.map PyStr.strip
           (List.filter
              (fun email => negb (String.eqb (PyStr.strip email) ""))
              (str_split ";" field))).
  exists recipients. split; [|split].
  - unfold email_share_ajax, dict_item. cbn [negb].
    rewrite Hvalid, Hr, Hy, Hu, Hs, Hc. fold recipients.
    now destruct (send_email_share your_email recipients share_url subject
                    comment).
  - apply Forall_forall. intros r Hin. unfold recipients in Hin.
    apply in_map_iff in Hin as (piece & <- & Hin).
    apply filter_In in Hin as [Hin Hne].
    apply negb_true_iff, String.eqb_neq in Hne.
    split; [assumption|]. split; [apply StripFacts.strip_idempotent|].
    apply StripFacts.contains_strip.
    pose proof (SplitFacts.str_split_pieces ";" field) as Hall.
    rewrite Forall_forall in Hall. now apply Hall.
  - intros r. unfold recipients. rewrite in_map_iff. split.
    + intros (piece & <- & Hin). apply filter_In in Hin as [Hin Hne].
      apply negb_true_iff, String.eqb_neq in Hne. split; eauto.
    + intros (Hne & piece & Hin & ->). exists piece. split; [reflexivity|].
      apply filter_In. split; [assumption|].
      now apply negb_true_iff, String.eqb_neq.
Qed.

End EmailShareFacts.

(** ** The routes of the legacy addresses *)

Section LegacyFacts.
Context {Etree Soup Tag : Type} (w : World Etree Soup Tag).
Context {Page : Type}.
Variable flask_url_for : string -> dict (option string) -> string.
Variable get_journal_by_issn : option string -> option Journal.t.
Variable get_issue_by_pid : option string -> option Issue.t.
Variable get_article_by_pid : option string -> option Article.t.
Variable get_article_by_oap_pid : option string -> option Article.t.
Variable get_article_by_scielo_pid : option string -> option Article.t.
Variable journal_detail : string -> result Page.
Variable issue_grid : string -> result Page.

Lemma py_in_eq script l name :
  py_in script l = false -> In name l -> py_eq script name = false.
Proof.
  destruct script as [s|]; [|reflexivity]. simpl. intros Hmem Hin.
  destruct (String.eqb s name) eqn:E; [|reflexivity].
  apply String.eqb_eq in E. subst name.
  apply mem_In in Hin. congruence.
Qed.

Lemma py_in_truthy script l :
  py_in script l = true -> ~ In "" l ->
  is_not_None script = true /\ truthy_str script = true.
Proof.
  destruct script as [s|]; [|discriminate]. simpl. intros Hmem Hempty.
  split; [reflexivity|]. apply negb_true_iff, String.eqb_neq.
  intros ->. apply Hempty. now apply mem_In.
Qed.

(** X21: [router_legacy] checks the request before it looks anything up.  A
    known script without [pid] is answered 400.  A request without script,
    or with an unknown script and no [pid], is redirected to "/".  An
    unknown script with a [pid] is answered 400. *)
Theorem router_legacy_request args log :
  (py_in (args_get args "script")
     ["sci_serial"; "sci_issuetoc"; "sci_arttext"; "sci_abstract";
      "sci_issues"; "sci_pdf"] = true ->
   truthy_str (args_get args "pid") = false ->
   router_legacy w flask_url_for get_journal_by_issn get_issue_by_pid
     get_article_by_pid get_article_by_oap_pid journal_detail issue_grid
     args log
   = (Raise (invalid_request w (args_get args "pid")), log))
  /\ (py_in (args_get args "script")
        ["sci_serial"; "sci_issuetoc"; "sci_arttext"; "sci_abstract";
         "sci_issues"; "sci_pdf"] = false ->
      (truthy_str (args_get args "script") = false
       \/ truthy_str (args_get args "pid") = false ->
       router_legacy w flask_url_for get_journal_by_issn get_issue_by_pid
         get_article_by_pid get_article_by_oap_pid journal_detail issue_grid
         args log
       = (Ok (LegacyRedirect (redirect (Some "/") 302)), log))
      /\ (truthy_str (args_get args "script") = true ->
          truthy_str (args_get args "pid") = true ->
          router_legacy w flask_url_for get_journal_by_issn get_issue_by_pid
            get_article_by_pid get_article_by_oap_pid journal_detail
            issue_grid args log
          = (Raise (invalid_request w (args_get args "pid")), log))).
Proof.
  unfold router_legacy. split.
  - intros Hin Hpid.
    destruct (py_in_truthy _ _ Hin) as [Hsome _].
    { simpl. intros [H|[H|[H|[H|[H|[H|[]]]]]]]; discriminate. }
    now rewrite Hsome, Hin, Hpid.
  - intros Hin. rewrite Hin, andb_false_r. cbn [andb]. split.
    + intros [H | H]; rewrite H; [reflexivity | now rewrite andb_false_r].
    + intros Hscript Hpid. rewrite Hscript, Hpid. cbn [andb].
      rewrite !(py_in_eq _ _ _ Hin) by (simpl; auto 10).
      reflexivity.
Qed.

(** X22: For the scripts "sci_arttext" and "sci_abstract", [router_legacy]
    looks the article up by its pid, then by its ahead-of-print pid.  It
    answers 404 when there is none, or when the article, its issue or its
    journal is not public; otherwise it redirects, with the code 301, to
    [article_detail] with the language [tlng] of the request as it is.
    Nothing is requested from the storage service. *)
Theorem router_legacy_text args log lookup :
  args_get args "script" = Some "sci_arttext"
  \/ args_get args "script" = Some "sci_abstract" ->
  truthy_str (args_get args "pid") = true ->
  lookup = match get_article_by_pid (args_get args "pid") with
           | Some article => Some article
           | None => get_article_by_oap_pid (args_get args "pid")
           end ->
  (lookup = None ->
   router_legacy w flask_url_for get_journal_by_issn get_issue_by_pid
     get_article_by_pid get_article_by_oap_pid journal_detail issue_grid
     args log
   = (Raise (HTTPException 404 (gettext w "Artigo não encontrado")), log))
  /\ (forall article,
        lookup = Some article -> published article = false ->
        exists msg,
          router_legacy w flask_url_for get_journal_by_issn get_issue_by_pid
            get_article_by_pid get_article_by_oap_pid journal_detail
            issue_grid args log
          = (Raise (HTTPException 404 msg), log))
  /\ (forall article,
        lookup = Some article -> published article = true ->
        router_legacy w flask_url_for get_journal_by_issn get_issue_by_pid
          get_article_by_pid get_article_by_oap_pid journal_detail issue_grid
          args log
        = (Ok (LegacyRedirect
                 (redirect
                    (Some (flask_url_for "main.article_detail"
                             [("url_seg",
                               Some (Journal.url_segment
                                       (Article.journal article)));
                              ("url_seg_issue",
                               Some (Issue.url_segment (Article.issue article)));
                              ("url_seg_article",
                               Some (Article.url_segment article));
                              ("lang_code", args_get args "tlng")]))
                    301)),
           log)).
Proof.
  intros Hscript Hpid ->.
  assert (Hrun :
    router_legacy w flask_url_for get_journal_by_issn get_issue_by_pid
      get_article_by_pid get_article_by_oap_pid journal_detail issue_grid
      args log
    = match match get_article_by_pid (args_get args "pid") with
            | Some article => Some article
            | None => get_article_by_oap_pid (args_get args "pid")
            end with
      | None =>
          (Raise (HTTPException 404 (gettext w "Artigo não encontrado")), log)
      | Some article =>
          if negb (Article.is_public article) then
            (Raise (HTTPException 404
                      (ARTICLE_UNPUBLISH w
                       ++ gettext w (Article.unpublish_reason article))), log)
          else if negb (Issue.is_public (Article.issue article)) then
            (Raise (HTTPException 404
                      (ISSUE_UNPUBLISH w
                       ++ gettext w
                            (Issue.unpublish_reason (Article.issue article)))),
             log)
          else if negb (Journal.is_public (Article.journal article)) then
            (Raise (HTTPException 404
                      (JOURNAL_UNPUBLISH w
                       ++ gettext w
                            (Journal.unpublish_reason
                               (Article.journal article)))), log)
          else
            (Ok (LegacyRedirect
                   (redirect
                      (Some (flask_url_for "main.article_detail"
                               [("url_seg",
                                 Some (Journal.url_segment
                                         (Article.journal article)));
                                ("url_seg_issue",
                                 Some (Issue.url_segment
                                         (Article.issue article)));
                                ("url_seg_article",
                                 Some (Article.url_segment article));
                                ("lang_code", args_get args "tlng")]))
                      301)), log)
      end).
  { unfold router_legacy. rewrite Hpid.
    destruct Hscript as [-> | ->]; cbn [py_eq String.eqb Ascii.eqb Bool.eqb truthy_str andb orb negb is_not_None py_in PyStr.mem existsb];
      destruct (match get_article_by_pid (args_get args "pid") with
                | Some article => Some article
                | None => get_article_by_oap_pid (args_get args "pid")
                end) as [article|]; try reflexivity;
      destruct (Article.is_public article); try reflexivity;
      destruct (Issue.is_public (Article.issue article)); try reflexivity;
      destruct (Journal.is_public (Article.journal article)); reflexivity. }
  rewrite Hrun. split; [|split].
  - intros ->. reflexivity.
  - intros article -> Hpub. unfold published in Hpub.
    destruct (Article.is_public article); [|eexists; reflexivity].
    destruct (Issue.is_public (Article.issue article)); [|eexists; reflexivity].
    destruct (Journal.is_public (Article.journal article)); [discriminate|].
    eexists; reflexivity.
  - intros article -> Hpub.
    destruct (published_split _ Hpub) as (Ha & Hi & Hj).
    now rewrite Ha, Hi, Hj.
Qed.

Lemma original_language_valid article :
  PyStr.mem (or_original "" article) (valid_languages article) = true.
Proof.
  apply mem_In. unfold valid_languages. apply in_or_app. right.
  simpl. auto.
Qed.

(** X23: For the script "sci_pdf" and a public article, [router_legacy] answers
    as [article_detail_pdf] does for the original language of the article:
    when the address of the article leads back to it, the legacy address of
    a PDF is never redirected, and what it serves is the only PDF of the
    article in its original language. *)
Theorem router_legacy_pdf_script args log article issue :
  args_get args "script" = Some "sci_pdf" ->
  truthy_str (args_get args "pid") = true ->
  match get_article_by_pid (args_get args "pid") with
  | Some article => Some article
  | None => get_article_by_oap_pid (args_get args "pid")
  end = Some article ->
  published article = true ->
  finds_pdf w (Journal.url_segment (Article.journal article))
    (Issue.url_segment (Article.issue article)) (Article.url_segment article)
    issue article ->
  router_legacy w flask_url_for get_journal_by_issn get_issue_by_pid
    get_article_by_pid get_article_by_oap_pid journal_detail issue_grid
    args log
  = (content <-
       article_detail_pdf w (Journal.url_segment (Article.journal article))
         (Issue.url_segment (Article.issue article))
         (Article.url_segment article) (Article.original_language article) ;;
     ret (LegacyContent content)) log
  /\ (forall location code,
        fst (router_legacy w flask_url_for get_journal_by_issn
               get_issue_by_pid get_article_by_pid get_article_by_oap_pid
               journal_detail issue_grid args log)
        <> Ok (LegacyContent (Redirect location code)))
  /\ (forall body mimetype,
        fst (router_legacy w flask_url_for get_journal_by_issn
               get_issue_by_pid get_article_by_pid get_article_by_oap_pid
               journal_detail issue_grid args log)
        = Ok (LegacyContent (MakeResponse body mimetype)) ->
        exists pdf,
          matching (Article.original_language article) (Article.pdfs article)
          = [pdf]).
Proof.
  intros Hscript Hpid Hlookup Hpub Hfinds.
  destruct (published_split _ Hpub) as (Ha & Hi & Hj).
  assert (Hrun :
    router_legacy w flask_url_for get_journal_by_issn get_issue_by_pid
      get_article_by_pid get_article_by_oap_pid journal_detail issue_grid
      args log
    = (content <-
         article_detail_pdf w (Journal.url_segment (Article.journal article))
           (Issue.url_segment (Article.issue article))
           (Article.url_segment article) "" ;;
       ret (LegacyContent content)) log).
  { unfold router_legacy. rewrite Hscript, Hpid.
    cbn [py_eq String.eqb Ascii.eqb Bool.eqb truthy_str andb orb negb
         is_not_None py_in PyStr.mem existsb].
    rewrite Hlookup. now rewrite Ha, Hi, Hj. }
  assert (Hout := article_detail_pdf_outcome w _ _ _ "" log _ _ Hfinds
                    (original_language_valid article) Hpub).
  rewrite or_original_empty in Hout.
  assert (Hsame :
    article_detail_pdf w (Journal.url_segment (Article.journal article))
      (Issue.url_segment (Article.issue article))
      (Article.url_segment article) (Article.original_language article) log
    = article_detail_pdf w (Journal.url_segment (Article.journal article))
        (Issue.url_segment (Article.issue article))
        (Article.url_segment article) "" log).
  { destruct Hfinds as [Hissue Harticle].
    unfold article_detail_pdf. rewrite Hissue, Harticle. cbv zeta.
    rewrite (or_original_original article).
    now rewrite (or_original_empty article). }
  rewrite Hrun. unfold bind at 1 2 3 4. rewrite Hsame, Hout.
  split; [reflexivity|].
  destruct (matching _ _) as [|pdf [|pdf' rest]].
  - split; [discriminate|]. intros body mimetype H. discriminate.
  - destruct (urlparse w (Descriptor.url pdf)) as [parsed|e].
    + destruct (String.eqb (UrlParse.path parsed) "").
      * split; [discriminate|]. intros body mimetype H. discriminate.
      * rewrite get_content_from_ssm_run.
        destruct (fetch_data w _ None log) as [[b|e] log'].
        -- split; [discriminate | eauto].
        -- destruct (isinstance_any e _);
             (split; [discriminate|]; intros body mimetype H; discriminate).
    + split; [discriminate|]. intros body mimetype H. discriminate.
  - split; [discriminate|]. intros body mimetype H. discriminate.
Qed.

(** X24: [router_legacy_article] answers 400 unless the page is "fbtext" or
    "fbabs" and the request has a [pid].  It answers 404 when the
    controller finds no public article for the pid, or when the issue or
    the journal of the article is not public; otherwise it redirects, with
    the code 301, to [article_detail] with the language [lng] of the
    request as it is. *)
Theorem router_legacy_article_answer args text_or_abstract :
  (PyStr.mem text_or_abstract ["fbtext"; "fbabs"] = false
   \/ truthy_str (args_get args "pid") = false ->
   router_legacy_article w flask_url_for get_article_by_scielo_pid args
     text_or_abstract
   = Raise (invalid_request w (args_get args "pid")))
  /\ (PyStr.mem text_or_abstract ["fbtext"; "fbabs"] = true ->
      truthy_str (args_get args "pid") = true ->
      (get_article_by_scielo_pid (args_get args "pid") = None ->
       router_legacy_article w flask_url_for get_article_by_scielo_pid args
         text_or_abstract
       = Raise (HTTPException 404 (gettext w "Artigo não encontrado")))
      /\ (forall article,
            get_article_by_scielo_pid (args_get args "pid") = Some article ->
            (Issue.is_public (Article.issue article)
             && Journal.is_public (Article.journal article) = false ->
             exists msg,
               router_legacy_article w flask_url_for
                 get_article_by_scielo_pid args text_or_abstract
               = Raise (HTTPException 404 msg))
            /\ (Issue.is_public (Article.issue article)
                && Journal.is_public (Article.journal article) = true ->
                router_legacy_article w flask_url_for
                  get_article_by_scielo_pid args text_or_abstract
                = Ok (redirect
                        (Some (flask_url_for "main.article_detail"
                                 [("url_seg",
                                   Some (Journal.url_segment
                                           (Article.journal article)));
                                  ("url_seg_issue",
                                   Some (Issue.url_segment
                                           (Article.issue article)));
                                  ("url_seg_article",
                                   Some (Article.url_segment article));
                                  ("lang_code", args_get args "lng")]))
                        301)))).
Proof.
  unfold router_legacy_article. split.
  - intros [H | H]; rewrite H; [reflexivity | now rewrite andb_false_r].
  - intros Hpage Hpid. rewrite Hpage, Hpid. cbn [andb negb]. split.
    + intros ->. reflexivity.
    + intros article ->. split.
      * intros H.
        destruct (Issue.is_public (Article.issue article));
          [|eexists; reflexivity].
        destruct (Journal.is_public (Article.journal article));
          [discriminate | eexists; reflexivity].
      * intros H. apply andb_true_iff in H as [Hi Hj]. now rewrite Hi, Hj.
Qed.

(** What [article_detail_pdf] answers, when it is not an error: the
    redirection for a language that the article does not have, or what the
    storage service has at the path of the only PDF, in the language, of a
    public article of a public issue of a public journal. *)
Lemma article_detail_pdf_inv a b c lc log content :
  fst (article_detail_pdf w a b c lc log) = Ok content ->
  exists issue article,
    finds_pdf w a b c issue article
    /\ ((PyStr.mem (or_original lc article) (valid_languages article) = false
         /\ content
            = Redirect
                (url_for "main.article_detail_pdf"
                   (Journal.url_segment (Article.journal article))
                   (Issue.url_segment (Article.issue article))
                   (Article.url_segment article)
                   (Article.original_language article))
                301)
        \/ (PyStr.mem (or_original lc article) (valid_languages article) = true
            /\ published article = true
            /\ exists pdf parsed,
                 matching (or_original lc article) (Article.pdfs article)
                 = [pdf]
                 /\ urlparse w (Descriptor.url pdf) = Ok parsed
                 /\ UrlParse.path parsed <> ""
                 /\ fst (get_content_from_ssm w (UrlParse.path parsed) log)
                    = Ok content)).
Proof.
  destruct (get_issue_by_url_seg w a b) as [issue|] eqn:Hissue.
  2:{ unfold article_detail_pdf. rewrite Hissue. discriminate. }
  destruct (get_article_by_issue_article_seg w (Issue.iid issue) c)
    as [article|] eqn:Harticle.
  2:{ unfold article_detail_pdf. rewrite Hissue, Harticle. discriminate. }
  assert (Hfinds : finds_pdf w a b c issue article) by (now split).
  intros H. exists issue, article. split; [assumption|].
  destruct (PyStr.mem (or_original lc article) (valid_languages article))
    eqn:Hvalid.
  2:{ left. split; [reflexivity|].
      rewrite (article_detail_pdf_redirect w _ _ _ _ _ _ _ Hfinds Hvalid) in H.
      now injection H as <-. }
  right. split; [reflexivity|].
  destruct (published article) eqn:Hpub.
  2:{ destruct (article_detail_pdf_unpublished w _ _ _ _ log _ _
                  Hfinds Hvalid Hpub) as (msg & E).
      rewrite E in H. discriminate. }
  split; [reflexivity|].
  rewrite (article_detail_pdf_outcome w _ _ _ _ _ _ _ Hfinds Hvalid Hpub) in H.
  destruct (matching (or_original lc article) (Article.pdfs article))
    as [|pdf [|pdf' rest]] eqn:Em; try discriminate.
  destruct (urlparse w (Descriptor.url pdf)) as [parsed|e] eqn:Eparsed;
    [|discriminate].
  destruct (String.eqb (UrlParse.path parsed) "") eqn:Epath; [discriminate|].
  exists pdf, parsed. split; [reflexivity|]. split; [assumption|].
  split; [now apply String.eqb_neq | assumption].
Qed.

(** X25: [router_legacy] and [router_legacy_article] show nothing that is
    not public.  Whatever the request, an answer of [router_legacy] that is
    not an error is the redirection to "/", or the page that
    [journal_detail] or [issue_grid] returns for a public journal, or the
    redirection to the table of contents of a public issue of a public
    journal, or the redirection to an article that is public with its issue
    and its journal, or, for such an article, what the storage service has
    at the path of the only PDF, in its original language, of the article
    that [article_detail_pdf] finds, which is public with its issue and its
    journal.  An answer of [router_legacy_article] that is not an error is
    the redirection to an article that the controller found, of a public
    issue of a public journal. *)
Theorem router_legacy_shows_only_public args log :
  (forall answer,
     fst (router_legacy w flask_url_for get_journal_by_issn get_issue_by_pid
            get_article_by_pid get_article_by_oap_pid journal_detail
            issue_grid args log) = Ok answer ->
     answer = LegacyRedirect (redirect (Some "/") 302)
     \/ (exists journal page,
           get_journal_by_issn (args_get args "pid") = Some journal
           /\ Journal.is_public journal = true
           /\ (journal_detail (Journal.url_segment journal) = Ok page
               \/ issue_grid (Journal.url_segment journal) = Ok page)
           /\ answer = LegacyPage page)
     \/ (exists issue,
           get_issue_by_pid (args_get args "pid") = Some issue
           /\ Issue.is_public issue = true
           /\ Journal.is_public (Issue.journal issue) = true
           /\ answer
              = LegacyRedirect
                  (redirect
                     (Some (flask_url_for "main.issue_toc"
                              [("url_seg",
                                Some (Journal.url_segment (Issue.journal issue)));
                               ("url_seg_issue",
                                Some (Issue.url_segment issue))]))
                     301))
     \/ (exists article,
           (get_article_by_pid (args_get args "pid") = Some article
            \/ get_article_by_oap_pid (args_get args "pid") = Some article)
           /\ published article = true
           /\ (answer
               = LegacyRedirect
                   (redirect
                      (Some (flask_url_for "main.article_detail"
                               [("url_seg",
                                 Some (Journal.url_segment
                                         (Article.journal article)));
                                ("url_seg_issue",
                                 Some (Issue.url_segment
                                         (Article.issue article)));
                                ("url_seg_article",
                                 Some (Article.url_segment article));
                                ("lang_code", args_get args "tlng")]))
                      301)
               \/ exists content issue served pdf parsed,
                    answer = LegacyContent content
                    /\ finds_pdf w
                         (Journal.url_segment (Article.journal article))
                         (Issue.url_segment (Article.issue article))
                         (Article.url_segment article) issue served
                    /\ published served = true
                    /\ matching (Article.original_language served)
                         (Article.pdfs served) = [pdf]
                    /\ urlparse w (Descriptor.url pdf) = Ok parsed
                    /\ fst (get_content_from_ssm w (UrlParse.path parsed) log)
                       = Ok content)))
  /\ (forall text_or_abstract answer,
        router_legacy_article w flask_url_for get_article_by_scielo_pid args
          text_or_abstract = Ok answer ->
        exists article,
          get_article_by_scielo_pid (args_get args "pid") = Some article
          /\ Issue.is_public (Article.issue article) = true
          /\ Journal.is_public (Article.journal article) = true
          /\ answer
             = redirect
                 (Some (flask_url_for "main.article_detail"
                          [("url_seg",
                            Some (Journal.url_segment (Article.journal article)));
                           ("url_seg_issue",
                            Some (Issue.url_segment (Article.issue article)));
                           ("url_seg_article",
                            Some (Article.url_segment article));
                           ("lang_code", args_get args "lng")]))
                 301).
Proof.
  split.
  - intros answer. unfold router_legacy.
    destruct (is_not_None (args_get args "script")
              && py_in (args_get args "script") _
              && negb (truthy_str (args_get args "pid")));
      [discriminate|].
    destruct (truthy_str (args_get args "script")
              && truthy_str (args_get args "pid"));
      [|intros H; injection H as <-; now left].
    destruct (py_eq (args_get args "script") "sci_serial").
    { destruct (get_journal_by_issn (args_get args "pid")) as [journal|] eqn:Ej;
        [|discriminate].
      destruct (Journal.is_public journal) eqn:Ep; cbn [negb]; [|discriminate].
      unfold bind, lift, ret.
      destruct (journal_detail (Journal.url_segment journal)) as [page|e] eqn:Ed;
        [|discriminate].
      intros H; injection H as <-. right; left.
      exists journal, page. auto. }
    destruct (py_eq (args_get args "script") "sci_issuetoc").
    { destruct (get_issue_by_pid (args_get args "pid")) as [issue|] eqn:Ei;
        [|discriminate].
      destruct (Issue.is_public issue) eqn:Ep; cbn [negb]; [|discriminate].
      destruct (Journal.is_public (Issue.journal issue)) eqn:Ej; cbn [negb];
        [|discriminate].
      intros H; injection H as <-. right; right; left. eauto. }
    assert (Hlookup : forall article,
              match get_article_by_pid (args_get args "pid") with
              | Some article => Some article
              | None => get_article_by_oap_pid (args_get args "pid")
              end = Some article ->
              get_article_by_pid (args_get args "pid") = Some article
              \/ get_article_by_oap_pid (args_get args "pid") = Some article).
    { intros article.
      destruct (get_article_by_pid (args_get args "pid")); auto. }
    destruct (py_eq (args_get args "script") "sci_arttext"
              || py_eq (args_get args "script") "sci_abstract").
    { destruct (match get_article_by_pid (args_get args "pid") with
                | Some article => Some article
                | None => get_article_by_oap_pid (args_get args "pid")
                end) as [article|]; [|discriminate].
      specialize (Hlookup article eq_refl).
      destruct (Article.is_public article) eqn:Ea; cbn [negb]; [|discriminate].
      destruct (Issue.is_public (Article.issue article)) eqn:Ei; cbn [negb];
        [|discriminate].
      destruct (Journal.is_public (Article.journal article)) eqn:Ej;
        cbn [negb]; [|discriminate].
      intros H; injection H as <-. right; right; right. exists article.
      split; [assumption|]. split; [|now left].
      unfold published. now rewrite Ea, Ei, Ej. }
    destruct (py_eq (args_get args "script") "sci_issues").
    { destruct (get_journal_by_issn (args_get args "pid")) as [journal|] eqn:Ej;
        [|discriminate].
      destruct (Journal.is_public journal) eqn:Ep; cbn [negb]; [|discriminate].
      unfold bind, lift, ret.
      destruct (issue_grid (Journal.url_segment journal)) as [page|e] eqn:Ed;
        [|discriminate].
      intros H; injection H as <-. right; left.
      exists journal, page. auto. }
    destruct (py_eq (args_get args "script") "sci_pdf"); [|discriminate].
    destruct (match get_article_by_pid (args_get args "pid") with
              | Some article => Some article
              | None => get_article_by_oap_pid (args_get args "pid")
              end) as [article|]; [|discriminate].
    specialize (Hlookup article eq_refl).
    destruct (Article.is_public article) eqn:Ea; cbn [negb]; [|discriminate].
    destruct (Issue.is_public (Article.issue article)) eqn:Ei; cbn [negb];
      [|discriminate].
    destruct (Journal.is_public (Article.journal article)) eqn:Ej;
      cbn [negb]; [|discriminate].
    unfold bind at 1.
    destruct (article_detail_pdf w _ _ _ "" log) as [[content|e] log'] eqn:Epdf;
      [|discriminate].
    intros H; injection H as <-. right; right; right. exists article.
    split; [assumption|].
    split; [unfold published; now rewrite Ea, Ei, Ej|]. right.
    assert (Hfst : fst (article_detail_pdf w
                          (Journal.url_segment (Article.journal article))
                          (Issue.url_segment (Article.issue article))
                          (Article.url_segment article) "" log) = Ok content)
      by (now rewrite Epdf).
    destruct (article_detail_pdf_inv _ _ _ _ _ _ Hfst)
      as (issue & served & Hfinds & [[Hvalid _] | (_ & Hpub & Hserved)]).
    + rewrite original_language_valid in Hvalid. discriminate.
    + destruct Hserved as (pdf & parsed & Hm & Hparsed & _ & Hcontent).
      rewrite or_original_empty in Hm.
      exists content, issue, served, pdf, parsed. auto 10.
  - intros text_or_abstract answer. unfold router_legacy_article.
    destruct (negb (PyStr.mem text_or_abstract ["fbtext"; "fbabs"]
                    && truthy_str (args_get args "pid")));
      [discriminate|].
    destruct (get_article_by_scielo_pid (args_get args "pid")) as [article|]
      eqn:Ea; [|discriminate].
    destruct (Issue.is_public (Article.issue article)) eqn:Ei; cbn [negb];
      [|discriminate].
    destruct (Journal.is_public (Article.journal article)) eqn:Ej; cbn [negb];
      [|discriminate].
    intros H; injection H as <-. exists article. auto.
Qed.

End LegacyFacts.

(** ** The further statements at work *)

Lemma get_content_from_ssm_answer_witness :
  get_content_from_ssm Demo.online "/media/assets/a.pdf " []
  = (Ok (MakeResponse Demo.body None),
     [("http://ssm:8000/media/assets/a.pdf", 2)])
  /\ get_content_from_ssm Demo.absent "/media/assets/a.pdf " []
     = (Raise (HTTPException 404 "Recruso não encontrado"),
        [("http://ssm:8000/media/assets/a.pdf", 2)])
  /\ get_content_from_ssm Demo.timed_out "/media/assets/a.pdf " []
     = (Raise (HTTPException 404 "Recruso não encontrado"),
        [("http://ssm:8000/media/assets/a.pdf", 2)])
  /\ get_content_from_ssm Demo.online ("/media/assets/a.pdf" ++ Sample.nbsp) []
     = (Ok (MakeResponse Demo.body None),
        [("http://ssm:8000/media/assets/a.pdf", 2)]).
Proof.
  pose proof (fun (w : World Demo.Etree Demo.Soup Demo.Tag) path =>
    get_content_from_ssm_answer w path
      "http://ssm:8000/media/assets/a.pdf" []) as H.
  split; [|split; [|split]].
  - apply (proj1 (H Demo.online "/media/assets/a.pdf "
                    (fun r => eq_refl) eq_refl)
             (mkResponse 200 Demo.body) eq_refl).
    unfold in_range. cbn. lia.
  - apply (proj1 (H Demo.absent "/media/assets/a.pdf "
                    (fun r => eq_refl) eq_refl)
             (mkResponse 404 Demo.body) eq_refl).
    unfold in_range. cbn. lia.
  - apply (proj2 (H Demo.timed_out "/media/assets/a.pdf "
                    (fun r => eq_refl) eq_refl)
             Demo.ConnectTimeout eq_refl).
    reflexivity.
  - apply (proj1 (H Demo.online ("/media/assets/a.pdf" ++ Sample.nbsp)
                    (fun r => eq_refl) eq_refl)
             (mkResponse 200 Demo.body) eq_refl).
    unfold in_range. cbn. lia.
Defined.

Lemma requests_stay_under_base_witness :
  all_under "http://ssm:8000"
    (snd (article_detail_pdf (Demo.serving Demo.with_pdf)
            "rsp" "2019.v53" "a1" "en" []))
  /\ all_under "http://ssm:8000"
       (snd (router_legacy_pdf (Demo.serving Demo.with_pdf) Sample.one_pdf
               "rsp" "v53n1" "a01" [])).
Proof.
  pose proof (requests_stay_under_base (Demo.serving Demo.with_pdf)
                "/media/assets/" Sample.one_pdf [] eq_refl (Forall_nil _))
    as H.
  split.
  - apply H.
  - apply H.
Defined.


Lemma router_legacy_pdf_answer_witness :
  router_legacy_pdf (Demo.serving Demo.with_pdf) Sample.one_pdf
    "rsp" "v53n1" "a02" []
  = (Raise (HTTPException 404 "PDF do artigo não foi encontrado"), [])
  /\ router_legacy_pdf (Demo.serving Demo.with_pdf) Sample.one_pdf
       "rsp" "v53n1" "a01" []
     = get_content_from_ssm (Demo.serving Demo.with_pdf)
         "/documentstore/1678-4464/a.en.pdf" []
  /\ http_status
       (fst (router_legacy_pdf (Demo.serving Demo.with_pdf) Sample.bad_pdf
               "rsp" "v53n1" "a01" []))
     = 500%Z.
Proof.
  split; [|split].
  - apply (proj1 (router_legacy_pdf_answer (Demo.serving Demo.with_pdf)
                    Sample.one_pdf "rsp" "v53n1" "a02" [])).
    reflexivity.
  - apply (proj1 (proj2 (router_legacy_pdf_answer
                           (Demo.serving Demo.with_pdf) Sample.one_pdf
                           "rsp" "v53n1" "a01" []))
             Sample.pdf_address "https" "minio.scielo.br"
             "/documentstore/1678-4464/a.en.pdf" "");
      solve [reflexivity | right; reflexivity].
  - apply (proj2 (proj2 (router_legacy_pdf_answer
                           (Demo.serving Demo.with_pdf) Sample.bad_pdf
                           "rsp" "v53n1" "a01" []))
             "http://[bad/a01.pdf" (ValueError "Invalid IPv6 URL")
             eq_refl eq_refl).
Defined.

Lemma article_ssm_content_raw_answer_witness :
  article_ssm_content_raw Demo.online [("lang", "en")] []
  = (Raise (HTTPException 404
              "Recurso do Artigo não encontrado. Caminho inválido!"), [])
  /\ article_ssm_content_raw Demo.online
       [("resource_ssm_path", "/media/assets/a.pdf")] []
     = get_content_from_ssm Demo.online "/media/assets/a.pdf" [].
Proof.
  split.
  - apply (proj1 (article_ssm_content_raw_answer Demo.online
                    [("lang", "en")] [])).
    left. reflexivity.
  - apply (proj2 (article_ssm_content_raw_answer Demo.online [] [])).
    discriminate.
Defined.

Lemma hidden_article_not_found_witness :
  article_detail (Demo.serving Sample.hidden) "rsp" "2019.v53" "a1" "en" []
  = (Raise (HTTPException 404
              "O artigo está indisponível por motivo de: retracted"), [])
  /\ article_detail_pdf (Demo.serving Sample.hidden)
       "rsp" "2019.v53" "a1" "en" []
     = (Raise (HTTPException 404
                 "O artigo está indisponível por motivo de: retracted"), []).
Proof.
  pose proof (hidden_article_not_found (Demo.serving Sample.hidden)
                "rsp" "2019.v53" "a1" "en" [] Demo.issue Sample.hidden
                eq_refl) as [Hdetail Hpdf].
  split.
  - apply (proj1 (Hdetail (conj eq_refl eq_refl))). reflexivity.
  - apply (proj1 (Hpdf (conj eq_refl eq_refl))). reflexivity.
Defined.

Lemma article_detail_pdf_addresses_witness :
  article_detail (Demo.serving Sample.with_bad_pdf)
    "rsp" "2019.v53" "a1" "pt" []
  = (Raise (HTTPException 404 "PDF do Artigo não encontrado"), []).
Proof.
  apply (proj1 (article_detail_pdf_addresses (Demo.serving Sample.with_bad_pdf)
                  "rsp" "2019.v53" "a1" "pt" [] Demo.issue Sample.with_bad_pdf
                  (conj eq_refl eq_refl) eq_refl eq_refl)
           (Descriptor.mk "pt" "http://[bad/a.pt.pdf")
           (ValueError "Invalid IPv6 URL")).
  - simpl. auto.
  - reflexivity.
Defined.

Lemma article_detail_from_html_witness :
  article_detail (Demo.serving Demo.with_htmls) "rsp" "2019.v53" "a1" "en" []
  = (Ok (RenderTemplate "article/detail.html"
           (mkContext Demo.Tag Demo.with_htmls Demo.issue (FragStr "<p/>")
              [] [] "en" ["pt"; "en"])),
     [("http://ssm:8000/documentstore/1678-4464/a.en.html", 2)]).
Proof.
  apply (proj2 (proj2 (article_detail_from_html (Demo.serving Demo.with_htmls)
                  "rsp" "2019.v53" "a1" "en" [] Demo.issue Demo.with_htmls
                  Demo.html_en [] []
                  (conj eq_refl eq_refl) eq_refl eq_refl eq_refl eq_refl
                  eq_refl)
                 "http://ssm:8000/documentstore/1678-4464/a.en.html"
                 (mkResponse 200 Demo.body) eq_refl eq_refl eq_refl)
           "<p/>").
  reflexivity.
Defined.

Lemma article_detail_from_xml_witness :
  article_detail (Demo.serving Demo.with_xml) "rsp" "2019.v53" "a1" "en" []
  = (Ok (RenderTemplate "article/detail.html"
           (mkContext Demo.Tag Demo.with_xml Demo.issue (FragTag Demo.body)
              [] [] "en" ["en"; "es"; "pt"])),
     [("http://ssm:8000/documentstore/1678-4464/a.xml", 2)]).
Proof.
  assert (Hne : Demo.xml_url <> "") by discriminate.
  apply (proj1 (article_detail_from_xml (Demo.serving Demo.with_xml)
                  "rsp" "2019.v53" "a1" "en" [] Demo.issue Demo.with_xml
                  Demo.xml_url "http://ssm:8000/documentstore/1678-4464/a.xml"
                  (mkResponse 200 Demo.body) Demo.body
                  (Demo.generator Demo.body) []
                  (conj eq_refl eq_refl) eq_refl eq_refl eq_refl Hne eq_refl
                  eq_refl eq_refl eq_refl eq_refl eq_refl)
           Demo.body).
  reflexivity.
Defined.

Lemma get_locale_precedence_witness :
  get_locale Sample.LANGUAGES Sample.BABEL_DEFAULT_LOCALE Sample.prefers_english
    Sample.spanish_session
  = (Ok (Some "es"), Sample.spanish_session)
  /\ get_locale Sample.LANGUAGES Sample.BABEL_DEFAULT_LOCALE
       Sample.prefers_english Sample.new_session
     = (Ok (Some "en"), [("csrf", Some "t0k3n"); ("lang", Some "en")])
  /\ fst (get_locale Sample.LANGUAGES Sample.BABEL_DEFAULT_LOCALE
            Sample.no_preference Sample.new_session)
     = Ok (Some "pt_BR")
  /\ get_locale Sample.LANGUAGES Sample.BABEL_DEFAULT_LOCALE
       Sample.prefers_english [("lang", Some "")]
     = (Ok (Some ""), [("lang", Some "")]).
Proof.
  split; [|split; [|split]].
  - apply (proj1 (get_locale_precedence Sample.LANGUAGES
                    Sample.BABEL_DEFAULT_LOCALE Sample.prefers_english
                    Sample.spanish_session) "es" eq_refl).
    discriminate.
  - apply (proj1 (proj2 (get_locale_precedence Sample.LANGUAGES
                           Sample.BABEL_DEFAULT_LOCALE Sample.prefers_english
                           Sample.new_session)) "en" eq_refl eq_refl).
    discriminate.
  - apply (proj1 (proj2 (proj2 (get_locale_precedence Sample.LANGUAGES
                                  Sample.BABEL_DEFAULT_LOCALE
                                  Sample.no_preference Sample.new_session)))
             eq_refl eq_refl).
  - apply (proj2 (proj2 (proj2 (proj2 (get_locale_precedence Sample.LANGUAGES
                                  Sample.BABEL_DEFAULT_LOCALE
                                  Sample.prefers_english [("lang", Some "")])))
                    (Some "") eq_refl eq_refl)
             eq_refl).
Defined.

Lemma set_locale_answer_witness :
  set_locale Demo.online Sample.LANGUAGES (Some "/j/rsp/") [] "fr"
    Sample.spanish_session
  = (Raise (HTTPException 400 "Código de idioma inválido"),
     Sample.spanish_session)
  /\ set_locale Demo.online Sample.LANGUAGES (Some "/j/rsp/")
       [("hash", "about")] "en" Sample.spanish_session
     = (Ok (redirect (Some "/j/rsp/#about") 302),
        [("csrf", Some "t0k3n"); ("lang", Some "en")])
  /\ (exists e,
        set_locale Demo.online Sample.LANGUAGES None [("hash", "about")] "en"
          Sample.spanish_session
        = (Raise e, Sample.spanish_session)
        /\ isinstance e "TypeError" = true)
  /\ set_locale Demo.online Sample.LANGUAGES (Some "/j/rsp/") [] "en"
       Sample.new_session
     = (Ok (redirect (Some "/j/rsp/") 302),
        [("csrf", Some "t0k3n"); ("lang", Some "en")]).
Proof.
  split; [|split; [|split]].
  - apply (proj1 (set_locale_answer Demo.online Sample.LANGUAGES
                    (Some "/j/rsp/") [] "fr" Sample.spanish_session)).
    reflexivity.
  - assert (Hne : "about" <> "") by discriminate.
    apply (proj2 (proj1 (proj2 (set_locale_answer Demo.online Sample.LANGUAGES
                                  (Some "/j/rsp/") [("hash", "about")] "en"
                                  Sample.spanish_session))
                    "about" eq_refl eq_refl Hne)
             "/j/rsp/" eq_refl).
  - assert (Hne : "about" <> "") by discriminate.
    apply (proj1 (proj1 (proj2 (set_locale_answer Demo.online Sample.LANGUAGES
                                  None [("hash", "about")] "en"
                                  Sample.spanish_session))
                    "about" eq_refl eq_refl Hne)
             eq_refl).
  - apply (proj2 (proj2 (set_locale_answer Demo.online Sample.LANGUAGES
                           (Some "/j/rsp/") [] "en" Sample.new_session))
             eq_refl eq_refl).
Defined.

Lemma set_locale_then_get_locale_witness :
  get_locale Sample.LANGUAGES Sample.BABEL_DEFAULT_LOCALE Sample.no_preference
    [("csrf", Some "t0k3n"); ("lang", Some "en")]
  = (Ok (Some "en"), [("csrf", Some "t0k3n"); ("lang", Some "en")]).
Proof.
  assert (Hne : "en" <> "") by discriminate.
  apply (proj2 (set_locale_then_get_locale Demo.online Sample.LANGUAGES
                  Sample.BABEL_DEFAULT_LOCALE Sample.no_preference
                  (Some "/j/rsp/") [] "en" Sample.spanish_session
                  (Ok (redirect (Some "/j/rsp/") 302))
                  [("csrf", Some "t0k3n"); ("lang", Some "en")] eq_refl)
           (redirect (Some "/j/rsp/") 302) eq_refl Hne).
Defined.

Lemma collection_list_filter_witness :
  list_query_filter (template_context
    (collection_list Sample.get_journals Sample.get_journal_json_data
       [("status", "current")]))
  = "current"
  /\ list_query_filter (template_context
       (collection_list Sample.get_journals Sample.get_journal_json_data
          [("status", "CURRENT")]))
     = "".
Proof.
  split.
  - apply (proj1 (proj2 (proj2 (collection_list_filter Sample.get_journals
                                  Sample.get_journal_json_data
                                  [("status", "current")])))).
    simpl. auto.
  - apply (proj2 (proj2 (proj2 (collection_list_filter Sample.get_journals
                                  Sample.get_journal_json_data
                                  [("status", "CURRENT")])))).
    simpl. intros [H | [H | [H | []]]]; discriminate H.
Defined.

Lemma collection_list_thematic_answer_witness :
  (exists field status thematic,
     collection_list_thematic Sample.BABEL_DEFAULT_LOCALE
       Sample.get_journals_grouped_by
       [("filter", "wos"); ("status", "all"); ("query", "saude")]
       Sample.spanish_session
     = Ok (render_template "collection/list_thematic.html"
             (mkThematicContext
                (Sample.get_journals_grouped_by field "saude" status "es")
                status thematic))
     /\ In (thematic, field)
          [("areas", "study_areas"); ("wos", "subject_categories");
           ("publisher", "publisher_name")]
     /\ In status ["current"; "no-current"; ""])
  /\ exists e,
       collection_list_thematic None Sample.get_journals_grouped_by []
         Sample.new_session = Raise e
       /\ isinstance e "TypeError" = true.
Proof.
  split.
  - destruct (proj1 (collection_list_thematic_answer
                       Sample.BABEL_DEFAULT_LOCALE
                       Sample.get_journals_grouped_by
                       [("filter", "wos"); ("status", "all"); ("query", "saude")]
                       Sample.spanish_session) "es" eq_refl)
      as (field & status & thematic & E & Hfield & Hstatus & _).
    exists field, status, thematic. repeat split; assumption.
  - apply (proj2 (collection_list_thematic_answer None
                    Sample.get_journals_grouped_by [] Sample.new_session)).
    reflexivity.
Defined.

Lemma theme_ajax_and_page_witness :
  journals_search_by_theme_ajax Demo.online Sample.BABEL_DEFAULT_LOCALE
    Sample.get_journals_grouped_by true
    [("filter", "wos"); ("status", "current"); ("query_filter", "current")]
    Sample.spanish_session
  = Ok (JsonObjects [("subject_categories:es", ["rsp"])])
  /\ exists message,
       journals_search_by_theme_ajax Demo.online Sample.BABEL_DEFAULT_LOCALE
         Sample.get_journals_grouped_by true [("filter", "cnpq")]
         Sample.spanish_session
       = Ok (JsonError 401 message).
Proof.
  split.
  - apply (proj1 (theme_ajax_and_page Demo.online Sample.BABEL_DEFAULT_LOCALE
                    Sample.get_journals_grouped_by
                    [("filter", "wos"); ("status", "current");
                     ("query_filter", "current")]
                    Sample.spanish_session)
             (render_template "collection/list_thematic.html"
                (mkThematicContext [("subject_categories:es", ["rsp"])]
                   "current" "wos"))).
    + simpl. auto.
    + simpl. auto.
    + reflexivity.
    + reflexivity.
  - apply (proj1 (proj2 (theme_ajax_and_page Demo.online
                           Sample.BABEL_DEFAULT_LOCALE
                           Sample.get_journals_grouped_by
                           [("filter", "cnpq")] Sample.spanish_session))
             "es").
    + simpl. intros [H | [H | [H | []]]]; discriminate H.
    + reflexivity.
Defined.

Lemma download_journal_list_case_witness :
  match download_journal_list Demo.online Sample.get_journal_generator_for_csv
          "2019-01-01_00-00-00" [] "WOS" "XLS",
        download_journal_list Demo.online Sample.get_journal_generator_for_csv
          "2019-01-01_00-00-00" [] "wos" "xls"
  with
  | Ok d1, Ok d2 =>
      download_mimetype d1 = download_mimetype d2
      /\ In (download_mimetype d1) ["application/vnd.ms-excel"; "text/csv"]
      /\ content_disposition d1
         = "attachment; filename=journals_WOS_2019-01-01_00-00-00.XLS"
      /\ ("WOS" = "wos" -> download_data d1 = download_data d2)
  | Raise x1, Raise x2 => x1 = x2 /\ exists msg, x1 = HTTPException 401 msg
  | _, _ => False
  end.
Proof.
  apply (download_journal_list_case Demo.online
           Sample.get_journal_generator_for_csv "2019-01-01_00-00-00" []
           "WOS" "XLS" "wos" "xls"); reflexivity.
Defined.

Lemma email_share_ajax_recipients_witness :
  exists recipients,
    email_share_ajax Demo.online Sample.str_of_message Sample.send_email_share
      true Sample.share_form
    = Ok (mkShareJson true (inl (String.concat "," recipients))
            ["your_email"; "recipients"; "share_url"; "subject"; "comment"])
    /\ Forall (fun r => r <> "" /\ PyStr.strip r = r
                        /\ PyStr.contains ";" r = false) recipients
    /\ forall r,
         In r recipients <->
         r <> "" /\ exists piece,
                      In piece (str_split ";" Sample.to_two)
                      /\ r = PyStr.strip piece.
Proof.
  apply (proj1 (email_share_ajax_recipients Demo.online
                  Sample.str_of_message Sample.send_email_share
                  Sample.share_form Sample.to_two
                  "ana@example.org" "https://www.scielo.br/j/rsp/" "Leia" ""
                  eq_refl eq_refl eq_refl eq_refl eq_refl eq_refl)).
Defined.

(** The two recipients of the form, without the spaces around them. *)
Lemma email_share_ajax_two_recipients :
  email_share_ajax Demo.online Sample.str_of_message Sample.send_email_share
    true Sample.share_form
  = Ok (mkShareJson true (inl "bia@example.org,caio@example.org")
          ["your_email"; "recipients"; "share_url"; "subject"; "comment"]).
Proof. reflexivity. Qed.

Lemma router_legacy_request_witness :
  router_legacy Demo.online Sample.url_of Sample.no_journal Sample.no_issue
    Sample.by_pid Sample.nothing_by_pid Sample.no_page Sample.no_page
    [("script", "sci_pdf")] []
  = (Raise (HTTPException 400
              "Requsição inválida ao tentar acessar o artigo com pid: None"),
     [])
  /\ router_legacy Demo.online Sample.url_of Sample.no_journal Sample.no_issue
       Sample.by_pid Sample.nothing_by_pid Sample.no_page Sample.no_page
       [("pid", "S0034-89102019000100001")] []
     = (Ok (LegacyRedirect (redirect (Some "/") 302)), [])
  /\ router_legacy Demo.online Sample.url_of Sample.no_journal Sample.no_issue
       Sample.by_pid Sample.nothing_by_pid Sample.no_page Sample.no_page
       [("script", "sci_home"); ("pid", "S0034-89102019000100001")] []
     = (Raise (HTTPException 400
                 ("Requsição inválida ao tentar acessar o artigo com pid: "
                  ++ "S0034-89102019000100001")),
        []).
Proof.
  split; [|split].
  - apply (proj1 (router_legacy_request Demo.online Sample.url_of
                    Sample.no_journal Sample.no_issue Sample.by_pid
                    Sample.nothing_by_pid Sample.no_page Sample.no_page
                    [("script", "sci_pdf")] [])).
    + reflexivity.
    + reflexivity.
  - apply (proj1 (proj2 (router_legacy_request Demo.online Sample.url_of
                           Sample.no_journal Sample.no_issue Sample.by_pid
                           Sample.nothing_by_pid Sample.no_page Sample.no_page
                           [("pid", "S0034-89102019000100001")] [])
                    eq_refl)).
    left. reflexivity.
  - apply (proj2 (proj2 (router_legacy_request Demo.online Sample.url_of
                           Sample.no_journal Sample.no_issue Sample.by_pid
                           Sample.nothing_by_pid Sample.no_page Sample.no_page
                           [("script", "sci_home");
                            ("pid", "S0034-89102019000100001")] [])
                    eq_refl)).
    + reflexivity.
    + reflexivity.
Defined.

Lemma router_legacy_text_witness :
  router_legacy Demo.online Sample.url_of Sample.no_journal Sample.no_issue
    Sample.by_pid Sample.nothing_by_pid Sample.no_page Sample.no_page
    [("script", "sci_arttext"); ("pid", "S0034-89102019000100001");
     ("tlng", "en")] []
  = (Ok (LegacyRedirect
           (redirect
              (Some (Sample.url_of "main.article_detail"
                       [("url_seg", Some "rsp");
                        ("url_seg_issue", Some "2019.v53");
                        ("url_seg_article", Some "a1");
                        ("lang_code", Some "en")]))
              301)),
     [])
  /\ router_legacy Demo.online Sample.url_of Sample.no_journal Sample.no_issue
       Sample.by_pid Sample.nothing_by_pid Sample.no_page Sample.no_page
       [("script", "sci_abstract"); ("pid", "S0034-89102019000100002")] []
     = (Raise (HTTPException 404 "Artigo não encontrado"), []).
Proof.
  split.
  - apply (proj2 (proj2 (router_legacy_text Demo.online Sample.url_of
                           Sample.no_journal Sample.no_issue Sample.by_pid
                           Sample.nothing_by_pid Sample.no_page Sample.no_page
                           [("script", "sci_arttext");
                            ("pid", "S0034-89102019000100001");
                            ("tlng", "en")] [] (Some Sample.with_pdfs)
                           (or_introl eq_refl) eq_refl eq_refl))
             Sample.with_pdfs eq_refl eq_refl).
  - apply (proj1 (router_legacy_text Demo.online Sample.url_of
                    Sample.no_journal Sample.no_issue Sample.by_pid
                    Sample.nothing_by_pid Sample.no_page Sample.no_page
                    [("script", "sci_abstract");
                     ("pid", "S0034-89102019000100002")] [] None
                    (or_intror eq_refl) eq_refl eq_refl)
             eq_refl).
Defined.

Lemma router_legacy_pdf_script_witness :
  router_legacy (Demo.serving Sample.with_pdfs) Sample.url_of Sample.no_journal
    Sample.no_issue Sample.by_pid Sample.nothing_by_pid Sample.no_page
    Sample.no_page
    [("script", "sci_pdf"); ("pid", "S0034-89102019000100001")] []
  = bind (article_detail_pdf (Demo.serving Sample.with_pdfs)
            "rsp" "2019.v53" "a1" "pt")
      (fun content => ret (LegacyContent content)) []
  /\ forall location code,
       fst (router_legacy (Demo.serving Sample.with_pdfs) Sample.url_of
              Sample.no_journal Sample.no_issue Sample.by_pid
              Sample.nothing_by_pid Sample.no_page Sample.no_page
              [("script", "sci_pdf"); ("pid", "S0034-89102019000100001")] [])
       <> Ok (LegacyContent (Redirect location code)).
Proof.
  pose proof (router_legacy_pdf_script (Demo.serving Sample.with_pdfs)
                Sample.url_of Sample.no_journal Sample.no_issue Sample.by_pid
                Sample.nothing_by_pid Sample.no_page Sample.no_page
                [("script", "sci_pdf"); ("pid", "S0034-89102019000100001")] []
                Sample.with_pdfs Demo.issue
                eq_refl eq_refl eq_refl eq_refl (conj eq_refl eq_refl))
    as (Hrun & Hnever & _).
  split; [exact Hrun | exact Hnever].
Defined.

Lemma router_legacy_article_answer_witness :
  router_legacy_article Demo.online Sample.url_of Sample.by_pid
    [("pid", "S0034-89102019000100001"); ("lng", "es")] "fbtext"
  = Ok (redirect
          (Some (Sample.url_of "main.article_detail"
                   [("url_seg", Some "rsp");
                    ("url_seg_issue", Some "2019.v53");
                    ("url_seg_article", Some "a1");
                    ("lang_code", Some "es")]))
          301)
  /\ router_legacy_article Demo.online Sample.url_of Sample.by_pid
       [("pid", "S0034-89102019000100001")] "fbpdf"
     = Raise (HTTPException 400
                ("Requsição inválida ao tentar acessar o artigo com pid: "
                 ++ "S0034-89102019000100001"))
  /\ router_legacy_article Demo.online Sample.url_of Sample.nothing_by_pid
       [("pid", "S0034-89102019000100001")] "fbabs"
     = Raise (HTTPException 404 "Artigo não encontrado").
Proof.
  split; [|split].
  - apply (proj2 (proj2 (proj2 (router_legacy_article_answer Demo.online
                                  Sample.url_of Sample.by_pid
                                  [("pid", "S0034-89102019000100001");
                                   ("lng", "es")] "fbtext")
                           eq_refl eq_refl)
                    Sample.with_pdfs eq_refl)
             eq_refl).
  - apply (proj1 (router_legacy_article_answer Demo.online Sample.url_of
                    Sample.by_pid [("pid", "S0034-89102019000100001")]
                    "fbpdf")).
    left. reflexivity.
  - apply (proj1 (proj2 (router_legacy_article_answer Demo.online
                           Sample.url_of Sample.nothing_by_pid
                           [("pid", "S0034-89102019000100001")] "fbabs")
                    eq_refl eq_refl)
             eq_refl).
Defined.

Lemma router_legacy_shows_only_public_witness :
  (exists served pdf,
     finds_pdf (Demo.serving Sample.with_pdfs) "rsp" "2019.v53" "a1"
       Demo.issue served
     /\ published served = true
     /\ matching "pt" (Article.pdfs served) = [pdf])
  /\ exists article,
       Sample.by_pid (Some "S0034-89102019000100001") = Some article
       /\ Issue.is_public (Article.issue article) = true
       /\ Journal.is_public (Article.journal article) = true
       /\ redirect
            (Some (Sample.url_of "main.article_detail"
                     [("url_seg", Some "rsp");
                      ("url_seg_issue", Some "2019.v53");
                      ("url_seg_article", Some "a1");
                      ("lang_code", Some "es")]))
            301
          = redirect
              (Some (Sample.url_of "main.article_detail"
                       [("url_seg",
                         Some (Journal.url_segment (Article.journal article)));
                        ("url_seg_issue",
                         Some (Issue.url_segment (Article.issue article)));
                        ("url_seg_article", Some (Article.url_segment article));
                        ("lang_code", Some "es")]))
              301.
Proof.
  split.
  - destruct (proj1 (router_legacy_shows_only_public
                       (Demo.serving Sample.with_pdfs) Sample.url_of
                       Sample.no_journal Sample.no_issue Sample.by_pid
                       Sample.nothing_by_pid Sample.by_pid Sample.no_page
                       Sample.no_page
                       [("script", "sci_pdf");
                        ("pid", "S0034-89102019000100001")] [])
                (LegacyContent (MakeResponse Demo.body None)) eq_refl)
      as [H | [(journal & page & H & _)
              | [(issue & H & _)
                | (article & _ & _ & [H | Hserved])]]];
      try discriminate H.
    destruct Hserved
      as (content & issue & served & pdf & parsed & _ & Hfinds & Hpub & Hm & _).
    exists served, pdf. split; [|split; [exact Hpub|]].
    + destruct Hfinds as [Hissue Hserved]. injection Hissue as <-.
      split; [reflexivity | exact Hserved].
    + destruct Hfinds as [_ Hserved]. injection Hserved as <-. exact Hm.
  - apply (proj2 (router_legacy_shows_only_public Demo.online Sample.url_of
                    Sample.no_journal Sample.no_issue Sample.by_pid
                    Sample.nothing_by_pid Sample.by_pid Sample.no_page
                    Sample.no_page
                    [("pid", "S0034-89102019000100001"); ("lng", "es")] [])
             "fbtext"
             (redirect
                (Some (Sample.url_of "main.article_detail"
                         [("url_seg", Some "rsp");
                          ("url_seg_issue", Some "2019.v53");
                          ("url_seg_article", Some "a1");
                          ("lang_code", Some "es")]))
                301)).
    reflexivity.
Defined.
